(** * dotdv/ucca: the parser's neural-network classifier and text utilities

    A shallow embedding of
      - [parsing/classifiers/nn/neural_network.py] (class [NeuralNetwork]:
        construction, [input_dim], [resize], [save], [load], [__str__]),
        and
      - [ucca/textutil.py] ([nlp], [get_nlp], [get_tokenizer],
        [annotate], [break2sentences], [break2paragraphs], [indent_xml]),
    followed by the properties of the persistence protocol, the label
    capacity, the training schedule, the language model, and the
    splitting and layout of text. *)

From stdpp Require Import gmap strings list fin_maps pretty sorting.
From Stdlib Require Import ZArith Lia Ascii.

Open Scope string_scope.
Open Scope list_scope.
Open Scope Z_scope.

(** ** Python exceptions and results *)

(** The exception classes that the embedded code raises or handles. *)
Inductive Exn : Type :=
| AssertionError (msg : string)
| ValueError (msg : string)
| KeyError (msg : string)
| IndexError (msg : string)
| AttributeError (msg : string)
| UnboundLocalError (var : string)
| NotImplementedError
| OSError (msg : string)
| TypeError (msg : string).

Definition is_ValueError (e : Exn) : bool :=
  match e with ValueError _ => true | _ => false end.

Definition is_KeyError (e : Exn) : bool :=
  match e with KeyError _ => true | _ => false end.

(** The outcome of evaluating a Python expression or statement. *)
Inductive Res (A : Type) : Type :=
| Return (a : A)
| Raise (e : Exn).
Arguments Return {A} a.
Arguments Raise {A} e.

(** A method body: it reads and mutates a state [S] and either returns or
    raises; the state survives a raised exception, as the attributes of a
    Python object do. *)
Definition Py (S A : Type) : Type := S -> Res A * S.

Module PyMonad.

Definition ret {S A} (a : A) : Py S A := fun s => (Return a, s).

Definition raise {S A} (e : Exn) : Py S A := fun s => (Raise e, s).

Definition bind {S A B} (m : Py S A) (k : A -> Py S B) : Py S B :=
  fun s =>
    match m s with
    | (Return a, s') => k a s'
    | (Raise e, s') => (Raise e, s')
    end.

Definition get {S} : Py S S := fun s => (Return s, s).

Definition modify {S} (f : S -> S) : Py S unit := fun s => (Return tt, f s).

(** [assert cond, msg] *)
Definition assert {S} (cond : bool) (msg : string) : Py S unit :=
  if cond then ret tt else raise (AssertionError msg).

(** [try: body  except E as e: handler], where [handles] recognises [E]. *)
Definition try_except {S A} (body : Py S A) (handles : Exn -> bool)
    (handler : Exn -> Py S A) : Py S A :=
  fun s =>
    match body s with
    | (Return a, s') => (Return a, s')
    | (Raise e, s') => if handles e then handler e s' else (Raise e, s')
    end.

(** A pure fallible expression evaluated inside a method. *)
Definition lift {S A} (r : Res A) : Py S A := fun s => (r, s).

End PyMonad.

Declare Scope py_scope.
Delimit Scope py_scope with py.
Notation "x <- m ;; k" := (PyMonad.bind m (fun x => k))
  (at level 100, m at next level, right associativity,
   format "'[v' x  <-  m  ;;  '/' k ']'") : py_scope.
Notation "m ;;; k" := (PyMonad.bind m (fun _ => k))
  (at level 100, right associativity) : py_scope.

(** ** Python containers *)

(** [sum(iterable)]: a left fold from the start value [0]. *)
Definition py_sum (xs : list Z) : Z := fold_left Z.add xs 0.

(** [l[i]] on a list, with negative indices counted from the end. *)
Definition py_getitem {A} (l : list A) (i : Z) : Res A :=
  let n := Z.of_nat (length l) in
  let j := if i <? 0 then i + n else i in
  if (0 <=? j) && (j <? n)
  then match l !! Z.to_nat j with
       | Some x => Return x
       | None => Raise (IndexError "list index out of range")
       end
  else Raise (IndexError "list index out of range").

(** [zip(a, b)] stops at the end of the shorter argument. *)
Fixpoint py_zip {A B} (a : list A) (b : list B) : list (A * B) :=
  match a, b with
  | x :: a', y :: b' => (x, y) :: py_zip a' b'
  | _, _ => []
  end.

(** [l[start:stop]]; a missing bound is [None].  A negative bound counts
    from the end, and every bound is clamped to the list. *)
Definition py_slice {A} (l : list A) (start stop : option Z) : list A :=
  let n := Z.of_nat (length l) in
  let clamp (i : Z) := if i <? 0 then Z.max (i + n) 0 else Z.min i n in
  let lo := match start with None => 0 | Some i => clamp i end in
  let hi := match stop with None => n | Some i => clamp i end in
  take (Z.to_nat (hi - lo)) (drop (Z.to_nat lo) l).

(** [sorted(set(l))] on integers: the distinct elements in increasing
    order. *)
Definition py_sorted_set (l : list Z) : list Z :=
  merge_sort Z.le (remove_dups l).

(** [collections.OrderedDict] with string keys: the items in insertion
    order.  The operations below never create a duplicate key. *)
Module OrderedDict.

Definition t (V : Type) : Type := list (string * V).

Definition empty {V} : t V := [].

Definition keys {V} (d : t V) : list string := d.*1.
Definition values {V} (d : t V) : list V := d.*2.
Definition items {V} (d : t V) : list (string * V) := d.

(** [d[k] = v]: an existing key keeps its position and takes the new
    value; a new key goes to the end. *)
Fixpoint setitem {V} (k : string) (v : V) (d : t V) : t V :=
  match d with
  | [] => [(k, v)]
  | (k', v') :: d' =>
      if String.eqb k k' then (k', v) :: d' else (k', v') :: setitem k v d'
  end.

(** [OrderedDict(pairs)]: the pairs are inserted one after the other. *)
Definition of_pairs {V} (pairs : list (string * V)) : t V :=
  fold_left (fun d kv => setitem kv.1 kv.2 d) pairs empty.

(** The representation invariant of a dict: no key occurs twice. *)
Definition wf {V} (d : t V) : Prop := NoDup (keys d).

End OrderedDict.

(** *** Python strings

    A string is a sequence of characters with code points below 256. *)

Definition LF : ascii := "010"%char.
Definition CR : ascii := "013"%char.

(** The characters at which [str.splitlines] breaks a line: line feed,
    vertical tab, form feed, carriage return, the file, group and record
    separators and next line. *)
Definition is_linebreak (c : ascii) : bool :=
  bool_decide (c ∈ [LF; "011"%char; "012"%char; CR; "028"%char; "029"%char;
                    "030"%char; "133"%char]).

(** [s.splitlines()], with [cur] the line read so far: a carriage return
    directly followed by a line feed is one break, and a break at the very
    end opens no further line. *)
Fixpoint py_splitlines_from (cur : string) (s : string) : list string :=
  match s with
  | EmptyString => if String.eqb cur "" then [] else [cur]
  | String c s' =>
      if Ascii.eqb c CR
      then match s' with
           | String c' s'' =>
               if Ascii.eqb c' LF then cur :: py_splitlines_from "" s''
               else cur :: py_splitlines_from "" s'
           | EmptyString => cur :: py_splitlines_from "" s'
           end
      else if is_linebreak c then cur :: py_splitlines_from "" s'
      else py_splitlines_from (cur +:+ String c "") s'
  end.

Definition py_splitlines (s : string) : list string := py_splitlines_from "" s.

(** [s.replace(old, new)] for an [old] of the two characters [a], [b]:
    the occurrences are found from the left and do not overlap. *)
Fixpoint py_replace2 (a b : ascii) (new : string) (s : string) : string :=
  match s with
  | EmptyString => EmptyString
  | String c s' =>
      match s' with
      | String c' s'' =>
          if Ascii.eqb c a && Ascii.eqb c' b
          then new +:+ py_replace2 a b new s''
          else String c (py_replace2 a b new s')
      | EmptyString => String c EmptyString
      end
  end.

(** [s.startswith(prefix)] and [s.endswith(suffix)]. *)
Definition py_startswith (s prefix : string) : bool := String.prefix prefix s.

Definition py_endswith (s suffix : string) : bool :=
  let n := String.length s in
  let m := String.length suffix in
  (m <=? n)%nat && String.eqb (String.substring (n - m) m s) suffix.

(** [s * n]: a count that is not positive gives the empty string. *)
Fixpoint str_repeat (s : string) (n : nat) : string :=
  match n with
  | O => ""
  | S n' => s +:+ str_repeat s n'
  end.

Definition py_str_mul (s : string) (n : Z) : string := str_repeat s (Z.to_nat n).

(** ** ucca/textutil.py *)

Module textutil.

(** A layer-0 node, with the attributes the code reads. *)
Record Terminal : Type := {
  position : Z;
  para_pos : Z;
  paragraph : Z;
  text : string
}.

(** A passage; [layer0_all] is [passage.layer(layer0.LAYER_ID).all]. *)
Record Passage : Type := { layer0_all : list Terminal }.

Definition extract_terminals (p : Passage) : list Terminal := layer0_all p.

Definition break2paragraphs (passage : Passage) : Res (list Z) :=
  let terminals := extract_terminals passage in
  let paragraph_ends :=
    map (fun t => position t - 1)
        (filter (fun t => position t ≠ 1 ∧ para_pos t = 1) terminals) in
  match py_getitem terminals (-1) with
  | Return t => Return (paragraph_ends ++ [position t])
  | Raise e => Raise e
  end.

(** One turn of the loop of [indent_xml]: [st] holds [tabs] and [s]. *)
Definition indent_line (st : Z * string) (line : string) : Z * string :=
  let tabs := if py_startswith line "</" then st.1 - 1 else st.1 in
  let s := st.2 +:+ ((py_str_mul "  " tabs +:+ line) +:+ String LF "") in
  let tabs :=
    if negb (py_endswith line "/>" || py_startswith line "</")
    then tabs + 1 else tabs in
  (tabs, s).

(** [indent_xml] *)
Definition indent_xml (xml_as_string : string) : string :=
  let lines :=
    py_splitlines
      (py_replace2 ">" "<" (String ">" (String LF (String "<" "")))
         xml_as_string) in
  (fold_left indent_line lines (0, "")).2.

(** The strings that the documentation of [indent_xml] speaks of: a row
    of units without text, each a leaf written [<tag />] or an opening
    tag, the units inside, and a closing tag. *)
Inductive Units : Type :=
| UNil
| ULeaf (tag : string) (next : Units)
| UElem (opening : string) (inside : Units) (closing : string) (next : Units).

(** The tags of the units in the order of the document. *)
Fixpoint tags (u : Units) : list string :=
  match u with
  | UNil => []
  | ULeaf tag next => tag :: tags next
  | UElem opening inside closing next =>
      opening :: tags inside ++ closing :: tags next
  end.

(** The document: the tags one after the other, with nothing between. *)
Definition document (u : Units) : string := String.concat "" (tags u).

(** The indented form: a tag per line, two spaces for each level of
    nesting, a closing tag under its opening tag. *)
Fixpoint layout (depth : nat) (u : Units) : string :=
  match u with
  | UNil => ""
  | ULeaf tag next =>
      str_repeat "  " depth +:+ tag +:+ String LF "" +:+ layout depth next
  | UElem opening inside closing next =>
      str_repeat "  " depth +:+ opening +:+ String LF "" +:+
      layout (S depth) inside +:+
      str_repeat "  " depth +:+ closing +:+ String LF "" +:+
      layout depth next
  end.

(** A tag: [<], then characters other than [<], [>] and line breaks, then
    [>]. *)
Definition is_tag (t : string) : Prop :=
  ∃ body, t = String "<" (body +:+ ">") ∧
          Forall (fun c => c ≠ "<"%char ∧ c ≠ ">"%char ∧ is_linebreak c = false)
                 (String.list_ascii_of_string body).

(** Units whose leaves end in [/>], whose opening tags do not, and whose
    closing tags, and only they, start with [</]. *)
Fixpoint well_tagged (u : Units) : Prop :=
  match u with
  | UNil => True
  | ULeaf tag next =>
      is_tag tag ∧ py_startswith tag "</" = false ∧
      py_endswith tag "/>" = true ∧ well_tagged next
  | UElem opening inside closing next =>
      is_tag opening ∧ py_startswith opening "</" = false ∧
      py_endswith opening "/>" = false ∧
      is_tag closing ∧ py_startswith closing "</" = true ∧
      well_tagged inside ∧ well_tagged next
  end.

(** *** The language model kept by [nlp] *)

(** A tokenizer: the one a loaded model comes with, or the function
    that [get_nlp] puts in its place, which makes a document of words
    that are already split. *)
Inductive Tokenizer : Type :=
| ModelTokenizer (model_name : string)
| DocFromWords.

(** A loaded language model ([spacy.load(name)]), with the attribute
    that [get_nlp] reads and assigns. *)
Record Language : Type := {
  lang_name : string;
  lang_tokenizer : Tokenizer
}.

Definition is_OSError (e : Exn) : bool :=
  match e with OSError _ => true | _ => false end.

Section get_nlp.

(** The installation of the language-model library, and its two
    operations that [get_nlp] calls, [spacy.load(name)] and
    [spacy.cli.download(None, name)]; both are outside the embedded
    sources. *)
Variable Spacy : Type.
Variable spacy_load : string -> Spacy -> Res Language * Spacy.
Variable spacy_download : string -> Spacy -> Res unit * Spacy.

(** The function attributes [nlp.instance] and [nlp.tokenizer], the
    process environment [os.environ], and the library. *)
Record NlpState : Type := {
  instance : option Language;
  tokenizer : option Tokenizer;
  environ : gmap string string;
  spacy : Spacy
}.

Definition lift_spacy {A} (op : Spacy -> Res A * Spacy) : Py NlpState A :=
  fun s =>
    let (r, sp) := op (spacy s) in
    (r, {| instance := instance s; tokenizer := tokenizer s;
           environ := environ s; spacy := sp |}).

Definition set_instance (l : Language) : Py NlpState unit :=
  PyMonad.modify (fun s =>
    {| instance := Some l; tokenizer := tokenizer s;
       environ := environ s; spacy := spacy s |}).

Definition set_tokenizer (t : option Tokenizer) : Py NlpState unit :=
  PyMonad.modify (fun s =>
    {| instance := instance s; tokenizer := t;
       environ := environ s; spacy := spacy s |}).

(** [nlp.instance.attr]: the attribute of an object that may be [None]. *)
Definition the_instance (attr : string) : Py NlpState Language :=
  fun s =>
    match instance s with
    | Some l => (Return l, s)
    | None =>
        (Raise (AttributeError
                  (String.append "'NoneType' object has no attribute '"
                     (String.append attr "'"))), s)
    end.

Local Open Scope py_scope.

(** [get_nlp]; it returns [nlp.instance].  The exception that the inner
    handler raises carries the second failure as its cause, which is not
    represented. *)
Definition get_nlp : Py NlpState (option Language) :=
  s <- PyMonad.get ;;
  (match instance s with
   | None =>
       let model_name := default "en_core_web_md" (environ s !! "SPACY_MODEL") in
       PyMonad.try_except
         (l <- lift_spacy (spacy_load model_name) ;; set_instance l)
         is_OSError
         (fun _ =>
            lift_spacy (spacy_download model_name) ;;;
            PyMonad.try_except
              (l <- lift_spacy (spacy_load model_name) ;; set_instance l)
              is_OSError
              (fun e =>
                 PyMonad.raise
                   (OSError
                      (String.append
                         "Failed to get spaCy model. Download it manually using `python -m spacy download "
                         (String.append model_name "`."))))) ;;;
       l <- the_instance "tokenizer" ;;
       set_tokenizer (Some (lang_tokenizer l)) ;;;
       l <- the_instance "tokenizer" ;;
       set_instance {| lang_name := lang_name l; lang_tokenizer := DocFromWords |}
   | Some _ => PyMonad.ret tt
   end) ;;;
  s <- PyMonad.get ;;
  PyMonad.ret (instance s).

(** [get_tokenizer]; the value returned may be [None]. *)
Definition get_tokenizer (tokenized : bool) : Py NlpState (option Tokenizer) :=
  get_nlp ;;;
  if tokenized
  then l <- the_instance "tokenizer" ;; PyMonad.ret (Some (lang_tokenizer l))
  else s <- PyMonad.get ;; PyMonad.ret (tokenizer s).

(** [nlp]: the model that [get_nlp] returns is called with the
    arguments of [nlp]; [call] is what a model does with them. *)
Definition nlp {A} (call : Language -> Res A) : Py NlpState A :=
  l <- get_nlp ;;
  match l with
  | Some model => PyMonad.lift (call model)
  | None => PyMonad.raise (TypeError "'NoneType' object is not callable")
  end.

End get_nlp.

(** *** Sentence ends *)

Definition SENTENCE_END_MARKS : list string := ["."; "?"; "!"].

(** A layer-1 node, with what the code reads of it: the outgoing edges
    (their identifiers), of which only the presence matters. *)
Record Node : Type := { outgoing : list Z }.

(** A top-level parallel scene, with the positions of its first and last
    terminal. *)
Record Scene : Type := { start_position : Z; end_position : Z }.

(** Layer 1 of a passage: [passage.layer(layer1.LAYER_ID)], with its nodes
    [all] and its [top_scenes]. *)
Record Layer1 : Type := { l1_all : list Node; top_scenes : list Scene }.

Section break2sentences.

Variable Spacy : Type.
Variable spacy_load : string -> Spacy -> Res Language * Spacy.
Variable spacy_download : string -> Spacy -> Res unit * Spacy.

(** [layer0.is_punct], which is declared outside the embedded sources. *)
Variable is_punct : Terminal -> bool.

(** The sentence splitter of a language model: for the words of a
    passage, [[span.end for span in model(words).sents]], or the
    exception that the model raises on them. *)
Variable sents_ends : Language -> list string -> Res (list Z).

Local Open Scope py_scope.

(** [break2sentences]; [l1] is [passage.layer(layer1.LAYER_ID)].  On a
    passage that is not labeled the language model is called, through
    [nlp], before [break2paragraphs]. *)
Definition break2sentences (passage : Passage) (l1 : Layer1)
    : Py (NlpState Spacy) (list Z) :=
  let terminals := extract_terminals passage in
  marks <-
    (if existsb (fun n => negb (bool_decide (outgoing n = []))) (l1_all l1)
     then
       let ps_ends := map end_position (top_scenes l1) in
       let ps_starts := map start_position (top_scenes l1) in
       let marks :=
         map position
             (filter (fun t => text t ∈ SENTENCE_END_MARKS) terminals) in
       PyMonad.ret
         (filter (fun x => x ∈ ps_ends ∨ ((x - 1) ∈ ps_ends ∧ x ∉ ps_starts))
                 marks)
     else
       nlp Spacy spacy_load spacy_download
         (fun model => sents_ends model (map text terminals))) ;;
  paragraph_ends <- PyMonad.lift (break2paragraphs passage) ;;
  let marks := py_sorted_set (marks ++ paragraph_ends) in
  if 1 <? Z.of_nat (length marks)
  then
    let kept :=
      map fst
        (List.filter
           (fun xy => negb (forallb is_punct
                              (py_slice terminals (Some xy.1) (Some xy.2))))
           (py_zip (py_slice marks None (Some (-1)))
                   (py_slice marks (Some 1) None))) in
    last_mark <- PyMonad.lift (py_getitem marks (-1)) ;;
    PyMonad.ret (kept ++ [last_mark])
  else PyMonad.ret marks.

(** The first step of [break2sentences], which gives the candidate marks
    other than the paragraph ends: those of the annotation, or those of
    the sentence splitter. *)
Definition sentence_marks (passage : Passage) (l1 : Layer1)
    : Py (NlpState Spacy) (list Z) :=
  let terminals := extract_terminals passage in
  if existsb (fun n => negb (bool_decide (outgoing n = []))) (l1_all l1)
  then
    PyMonad.ret
      (filter (fun x => x ∈ map end_position (top_scenes l1) ∨
                        ((x - 1) ∈ map end_position (top_scenes l1) ∧
                         x ∉ map start_position (top_scenes l1)))
         (map position
              (filter (fun t => text t ∈ SENTENCE_END_MARKS) terminals)))
  else
    nlp Spacy spacy_load spacy_download
      (fun model => sents_ends model (map text terminals)).

End break2sentences.

(** *** Annotation of the terminals *)

Definition TAG_KEY : string := "tag".
Definition POS_KEY : string := "pos".
Definition NER_KEY : string := "ner".
Definition IOB_KEY : string := "iob".
Definition DEP_KEY : string := "dep".
Definition HEAD_KEY : string := "head".
Definition LEMMA_KEY : string := "lemma".
Definition ANNOTATION_KEYS : list string :=
  [TAG_KEY; POS_KEY; NER_KEY; IOB_KEY; DEP_KEY; HEAD_KEY; LEMMA_KEY].

(** A terminal together with its dict [extra]. *)
Record AnnotatedTerminal : Type := {
  terminal : Terminal;
  extra : gmap string string
}.

(** A token of a parsed document, with the attributes that [annotate]
    reads; [head_i] is [lex.head.i]. *)
Record Lex : Type := {
  tag_ : string;
  pos_ : string;
  ent_type_ : string;
  ent_iob : Z;
  dep_ : string;
  head_i : Z;
  lemma_ : string
}.

(** [itertools.groupby(l, key)]: the runs of neighbours with equal keys. *)
Fixpoint groupby {A} (key : A -> Z) (l : list A) : list (Z * list A) :=
  match l with
  | [] => []
  | x :: l' =>
      match groupby key l' with
      | (k, g) :: rest =>
          if key x =? k then (k, x :: g) :: rest
          else (key x, [x]) :: (k, g) :: rest
      | [] => [(key x, [x])]
      end
  end.

(** [sorted(l, key=key)]: a stable sort by an integer key. *)
Fixpoint insert_by {A} (key : A -> Z) (x : A) (l : list A) : list A :=
  match l with
  | [] => [x]
  | y :: l' => if key x <=? key y then x :: l else y :: insert_by key x l'
  end.

Definition py_sorted_by {A} (key : A -> Z) (l : list A) : list A :=
  foldr (insert_by key) [] l.

(** ["%-*s" % (w, s)]: [s] padded with spaces on the right to width [w]. *)
Definition ljust (s : string) (w : nat) : string :=
  s +:+ str_repeat " " (w - String.length s).

(** [" ".join(l)] *)
Definition join_spaces (l : list string) : string := String.concat " " l.

(** The terminals of layer 0, which [annotate] updates in place, and
    what it prints. *)
Record TextState : Type := {
  l0_all : list AnnotatedTerminal;
  printed : list string
}.

Section annotate.

(** The language model applied to the words of a paragraph: the tokens
    of [nlp(words)]. *)
Variable parse : list string -> list Lex.

(** The seven assignments to [terminal.extra]. *)
Definition annotate_terminal (lex : Lex) (t : AnnotatedTerminal)
    : AnnotatedTerminal :=
  {| terminal := terminal t;
     extra :=
       <[LEMMA_KEY := lemma_ lex]>
         (<[HEAD_KEY := pretty (head_i lex + 1)]>
            (<[DEP_KEY := dep_ lex]>
               (<[IOB_KEY := pretty (ent_iob lex)]>
                  (<[NER_KEY := ent_type_ lex]>
                     (<[POS_KEY := pos_ lex]>
                        (<[TAG_KEY := tag_ lex]> (extra t))))))) |}.

(** A terminal is named by its index in [l0.all]; a paragraph is a list
    of indexed terminals. *)
Definition annotate_paragraph (p : list (nat * AnnotatedTerminal))
    (ts : list AnnotatedTerminal) : list AnnotatedTerminal :=
  let annotated := parse (map (fun it => text (terminal it.2)) p) in
  fold_left (fun ts il => alter (annotate_terminal il.2) il.1.1 ts)
            (py_zip p annotated) ts.

(** [[t.text] + [t.extra[k] for k in ANNOTATION_KEYS]] *)
Fixpoint extra_values (t : AnnotatedTerminal) (keys : list string)
    : Res (list string) :=
  match keys with
  | [] => Return []
  | k :: keys' =>
      match extra t !! k with
      | None => Raise (KeyError k)
      | Some v =>
          match extra_values t keys' with
          | Return vs => Return (v :: vs)
          | Raise e => Raise e
          end
      end
  end.

Fixpoint table_rows (ts : list AnnotatedTerminal) (p : list nat)
    : Res (list (list string)) :=
  match p with
  | [] => Return []
  | i :: p' =>
      match ts !! i with
      | None => Raise (IndexError "list index out of range")
      | Some t =>
          match extra_values t ANNOTATION_KEYS with
          | Raise e => Raise e
          | Return vs =>
              match table_rows ts p' with
              | Return rows => Return ((text (terminal t) :: vs) :: rows)
              | Raise e => Raise e
              end
          end
      end
  end.

(** The lines printed for one paragraph: for each of the eight columns,
    the entries of all rows, each padded to the width of its row, and an
    empty line at the end. *)
Definition table_lines (rows : list (list string)) : list string :=
  let extra := ("text" :: ANNOTATION_KEYS) :: rows in
  let width := map (fun t => foldr Nat.max 0%nat (map String.length t)) extra in
  map (fun i =>
         join_spaces
           (map (fun fw => ljust (nth i fw.1 "") fw.2) (py_zip extra width)))
      (seq 0 (1 + length ANNOTATION_KEYS))
  ++ [""].

Fixpoint print_paragraphs (ps : list (list (nat * AnnotatedTerminal)))
    : Py TextState unit :=
  match ps with
  | [] => PyMonad.ret tt
  | p :: ps' =>
      fun s =>
        match table_rows (l0_all s) (map fst p) with
        | Raise e => (Raise e, s)
        | Return rows =>
            print_paragraphs ps'
              {| l0_all := l0_all s;
                 printed := printed s ++ table_lines rows |}
        end
  end.

(** The paragraphs of [annotate]: the runs of [l0.all] with the same
    [paragraph], each sorted by [position]. *)
Definition paragraphs_of (ts : list AnnotatedTerminal)
    : list (list (nat * AnnotatedTerminal)) :=
  map (fun g => py_sorted_by (fun it => position (terminal it.2)) g.2)
      (groupby (fun it => paragraph (terminal it.2))
               (imap (fun i t => (i, t)) ts)).

Definition lacks_annotation (t : AnnotatedTerminal) : bool :=
  existsb (fun k => negb (bool_decide (is_Some (extra t !! k)))) ANNOTATION_KEYS.

Local Open Scope py_scope.

(** [annotate] *)
Definition annotate (verbose replace : bool) : Py TextState unit :=
  s <- PyMonad.get ;;
  let paragraphs := paragraphs_of (l0_all s) in
  (if replace
      || existsb (fun p => existsb (fun it => lacks_annotation it.2) p) paragraphs
   then PyMonad.modify (fun s =>
          {| l0_all := fold_left (fun ts p => annotate_paragraph p ts)
                                 paragraphs (l0_all s);
             printed := printed s |})
   else PyMonad.ret tt) ;;;
  if verbose then print_paragraphs paragraphs else PyMonad.ret tt.

End annotate.

End textutil.

(** ** parsing/classifiers/nn/neural_network.py *)

(** [table[key]] on a dict literal with string keys. *)
Fixpoint dict_getitem {A} (table : list (string * A)) (key : string) : Res A :=
  match table with
  | [] => Raise (KeyError key)
  | (k, a) :: table' => if String.eqb key k then Return a else dict_getitem table' key
  end.

(** Unpacking the transposed items into two names ([a, b = zip] of the
    starred items): the transposition of no item yields nothing, and the
    unpacking into two names then fails. *)
Definition py_unzip2 {A B} (items : list (A * B)) : Res (list A * list B) :=
  match items with
  | [] => Raise (ValueError "not enough values to unpack (expected 2, got 0)")
  | _ :: _ => Return (items.*1, items.*2)
  end.

(** [str(x)] of an optional string ([None] prints as the word). *)
Definition str_of_option (o : option string) : string :=
  match o with Some s => s | None => "None" end.

Module neural_network.

(** The numeric engine's functions and classes that [__init__] selects by
    name; their mathematics is outside this development. *)
Inductive Activation : Type := cube | dy_tanh | dy_logistic | dy_rectify.
Inductive Initializer : Type :=
| GlorotInitializer | NormalInitializer
| UniformInitializer (scale : Z) | ConstInitializer (c : Z).
Inductive Optimizer : Type :=
| SimpleSGDTrainer | MomentumSGDTrainer | AdagradTrainer
| AdadeltaTrainer | AdamTrainer.
Inductive Loss : Type := binary_log_loss | pairwise_rank_loss | poisson_loss.

(** A handle on the numeric engine's parameter collection ([dy.Model]). *)
Inductive Model : Type := dy_Model.

(** One entry of the feature schema ([FeatureInformation]): [num] is the
    cardinality and [dim] the dimension. *)
Record FeatureInformation : Type := { num : Z; dim : Z }.

(** An argument that is either a name to look up or the object itself
    ([isinstance(x, str)]). *)
Inductive Choice (A : Type) : Type :=
| ByName (name : string)
| Direct (a : A).
Arguments ByName {A} name.
Arguments Direct {A} a.

Definition activation_table : list (string * Activation) :=
  [("cube", cube); ("tanh", dy_tanh); ("sigmoid", dy_logistic);
   ("relu", dy_rectify)].
Definition init_table : list (string * Initializer) :=
  [("glorot_uniform", GlorotInitializer); ("normal", NormalInitializer);
   ("uniform", UniformInitializer 1); ("const", ConstInitializer 0)].
Definition optimizer_table : list (string * Optimizer) :=
  [("sgd", SimpleSGDTrainer); ("momentum", MomentumSGDTrainer);
   ("adagrad", AdagradTrainer); ("adadelta", AdadeltaTrainer);
   ("adam", AdamTrainer)].
Definition loss_table : list (string * Loss) :=
  [("categorical_crossentropy", binary_log_loss);
   ("pairwise_rank", pairwise_rank_loss); ("poisson", poisson_loss)].

(** [table[x] if isinstance(x, str) else x] *)
Definition choose {A} (table : list (string * A)) (x : Choice A) : Res A :=
  match x with
  | ByName name => dict_getitem table name
  | Direct a => Return a
  end.

Section NeuralNetwork.

(** [Float] is the engine's scalar type and [Tensor] the type of one
    parameter's value. *)
Context {Float Tensor : Type}.

Record NeuralNetwork : Type := {
  (* attributes kept by the base class [Classifier] *)
  model_type : string;
  filename : string;
  labels : list string;
  is_frozen : bool;
  (* attributes assigned by [NeuralNetwork.__init__] *)
  model : option Model;
  max_num_labels : Z;
  _layers : Z;
  _layer_dim : Z;
  _activation : Activation;
  _normalize : bool;
  _init : Initializer;
  _num_labels : Z;
  _minibatch_size : Z;
  _nb_epochs : Z;
  _dropout : Float;
  _optimizer : Optimizer;
  _loss : Loss;
  _params : OrderedDict.t Tensor;
  _input_params : option (OrderedDict.t FeatureInformation);
  _batch_size : Z;
  _item_index : Z;
  _iteration : Z
}.

Definition set_labels (v : list string) (nn : NeuralNetwork) : NeuralNetwork :=
  {| model_type := model_type nn; filename := filename nn; labels := v;
     is_frozen := is_frozen nn; model := model nn;
     max_num_labels := max_num_labels nn; _layers := _layers nn;
     _layer_dim := _layer_dim nn; _activation := _activation nn;
     _normalize := _normalize nn; _init := _init nn;
     _num_labels := _num_labels nn; _minibatch_size := _minibatch_size nn;
     _nb_epochs := _nb_epochs nn; _dropout := _dropout nn;
     _optimizer := _optimizer nn; _loss := _loss nn; _params := _params nn;
     _input_params := _input_params nn; _batch_size := _batch_size nn;
     _item_index := _item_index nn; _iteration := _iteration nn |}.

Definition set_is_frozen (v : bool) (nn : NeuralNetwork) : NeuralNetwork :=
  {| model_type := model_type nn; filename := filename nn;
     labels := labels nn; is_frozen := v; model := model nn;
     max_num_labels := max_num_labels nn; _layers := _layers nn;
     _layer_dim := _layer_dim nn; _activation := _activation nn;
     _normalize := _normalize nn; _init := _init nn;
     _num_labels := _num_labels nn; _minibatch_size := _minibatch_size nn;
     _nb_epochs := _nb_epochs nn; _dropout := _dropout nn;
     _optimizer := _optimizer nn; _loss := _loss nn; _params := _params nn;
     _input_params := _input_params nn; _batch_size := _batch_size nn;
     _item_index := _item_index nn; _iteration := _iteration nn |}.

Definition set_model (v : option Model) (nn : NeuralNetwork) : NeuralNetwork :=
  {| model_type := model_type nn; filename := filename nn;
     labels := labels nn; is_frozen := is_frozen nn; model := v;
     max_num_labels := max_num_labels nn; _layers := _layers nn;
     _layer_dim := _layer_dim nn; _activation := _activation nn;
     _normalize := _normalize nn; _init := _init nn;
     _num_labels := _num_labels nn; _minibatch_size := _minibatch_size nn;
     _nb_epochs := _nb_epochs nn; _dropout := _dropout nn;
     _optimizer := _optimizer nn; _loss := _loss nn; _params := _params nn;
     _input_params := _input_params nn; _batch_size := _batch_size nn;
     _item_index := _item_index nn; _iteration := _iteration nn |}.

Definition set__layers (v : Z) (nn : NeuralNetwork) : NeuralNetwork :=
  {| model_type := model_type nn; filename := filename nn;
     labels := labels nn; is_frozen := is_frozen nn; model := model nn;
     max_num_labels := max_num_labels nn; _layers := v;
     _layer_dim := _layer_dim nn; _activation := _activation nn;
     _normalize := _normalize nn; _init := _init nn;
     _num_labels := _num_labels nn; _minibatch_size := _minibatch_size nn;
     _nb_epochs := _nb_epochs nn; _dropout := _dropout nn;
     _optimizer := _optimizer nn; _loss := _loss nn; _params := _params nn;
     _input_params := _input_params nn; _batch_size := _batch_size nn;
     _item_index := _item_index nn; _iteration := _iteration nn |}.

Definition set__layer_dim (v : Z) (nn : NeuralNetwork) : NeuralNetwork :=
  {| model_type := model_type nn; filename := filename nn;
     labels := labels nn; is_frozen := is_frozen nn; model := model nn;
     max_num_labels := max_num_labels nn; _layers := _layers nn;
     _layer_dim := v; _activation := _activation nn;
     _normalize := _normalize nn; _init := _init nn;
     _num_labels := _num_labels nn; _minibatch_size := _minibatch_size nn;
     _nb_epochs := _nb_epochs nn; _dropout := _dropout nn;
     _optimizer := _optimizer nn; _loss := _loss nn; _params := _params nn;
     _input_params := _input_params nn; _batch_size := _batch_size nn;
     _item_index := _item_index nn; _iteration := _iteration nn |}.

Definition set__params (v : OrderedDict.t Tensor) (nn : NeuralNetwork) : NeuralNetwork :=
  {| model_type := model_type nn; filename := filename nn;
     labels := labels nn; is_frozen := is_frozen nn; model := model nn;
     max_num_labels := max_num_labels nn; _layers := _layers nn;
     _layer_dim := _layer_dim nn; _activation := _activation nn;
     _normalize := _normalize nn; _init := _init nn;
     _num_labels := _num_labels nn; _minibatch_size := _minibatch_size nn;
     _nb_epochs := _nb_epochs nn; _dropout := _dropout nn;
     _optimizer := _optimizer nn; _loss := _loss nn; _params := v;
     _input_params := _input_params nn; _batch_size := _batch_size nn;
     _item_index := _item_index nn; _iteration := _iteration nn |}.

Definition set__input_params (v : option (OrderedDict.t FeatureInformation)) (nn : NeuralNetwork) : NeuralNetwork :=
  {| model_type := model_type nn; filename := filename nn;
     labels := labels nn; is_frozen := is_frozen nn; model := model nn;
     max_num_labels := max_num_labels nn; _layers := _layers nn;
     _layer_dim := _layer_dim nn; _activation := _activation nn;
     _normalize := _normalize nn; _init := _init nn;
     _num_labels := _num_labels nn; _minibatch_size := _minibatch_size nn;
     _nb_epochs := _nb_epochs nn; _dropout := _dropout nn;
     _optimizer := _optimizer nn; _loss := _loss nn; _params := _params nn;
     _input_params := v; _batch_size := _batch_size nn;
     _item_index := _item_index nn; _iteration := _iteration nn |}.

Definition set__item_index (v : Z) (nn : NeuralNetwork) : NeuralNetwork :=
  {| model_type := model_type nn; filename := filename nn;
     labels := labels nn; is_frozen := is_frozen nn; model := model nn;
     max_num_labels := max_num_labels nn; _layers := _layers nn;
     _layer_dim := _layer_dim nn; _activation := _activation nn;
     _normalize := _normalize nn; _init := _init nn;
     _num_labels := _num_labels nn; _minibatch_size := _minibatch_size nn;
     _nb_epochs := _nb_epochs nn; _dropout := _dropout nn;
     _optimizer := _optimizer nn; _loss := _loss nn; _params := _params nn;
     _input_params := _input_params nn; _batch_size := _batch_size nn;
     _item_index := v; _iteration := _iteration nn |}.

Definition set__iteration (v : Z) (nn : NeuralNetwork) : NeuralNetwork :=
  {| model_type := model_type nn; filename := filename nn;
     labels := labels nn; is_frozen := is_frozen nn; model := model nn;
     max_num_labels := max_num_labels nn; _layers := _layers nn;
     _layer_dim := _layer_dim nn; _activation := _activation nn;
     _normalize := _normalize nn; _init := _init nn;
     _num_labels := _num_labels nn; _minibatch_size := _minibatch_size nn;
     _nb_epochs := _nb_epochs nn; _dropout := _dropout nn;
     _optimizer := _optimizer nn; _loss := _loss nn; _params := _params nn;
     _input_params := _input_params nn; _batch_size := _batch_size nn;
     _item_index := _item_index nn; _iteration := v |}.

(** The attributes that [super().__init__(model_type, filename, labels,
    model)] leaves on the object; the base class [Classifier] is not part
    of the embedded sources, so its result is an input here. *)
Record Classifier : Type := {
  base_model_type : string;
  base_filename : string;
  base_labels : list string;
  base_is_frozen : bool
}.

(** The keyword arguments of [__init__] after [filename], [labels] and
    [model_type].  Defaults in the source: [layers=1], [layer_dim=100],
    [activation="tanh"], [normalize=False], [init="glorot_uniform"],
    [max_num_labels=100], [batch_size=10], [minibatch_size=200],
    [nb_epochs=5], [dropout=0], [optimizer="adam"],
    [loss="categorical_crossentropy"]. *)
Record Args : Type := {
  arg_input_params : option (OrderedDict.t FeatureInformation);
  arg_params : option (OrderedDict.t Tensor);
  arg_model : option Model;
  arg_layers : Z;
  arg_layer_dim : Z;
  arg_activation : Choice Activation;
  arg_normalize : bool;
  arg_init : Choice Initializer;
  arg_max_num_labels : Z;
  arg_batch_size : Z;
  arg_minibatch_size : Z;
  arg_nb_epochs : Z;
  arg_dropout : Float;
  arg_optimizer : Choice Optimizer;
  arg_loss : Choice Loss
}.

Definition default_args (input_params : option (OrderedDict.t FeatureInformation))
    (zero : Float) : Args :=
  {| arg_input_params := input_params; arg_params := None; arg_model := None;
     arg_layers := 1; arg_layer_dim := 100; arg_activation := ByName "tanh";
     arg_normalize := false; arg_init := ByName "glorot_uniform";
     arg_max_num_labels := 100; arg_batch_size := 10;
     arg_minibatch_size := 200; arg_nb_epochs := 5; arg_dropout := zero;
     arg_optimizer := ByName "adam";
     arg_loss := ByName "categorical_crossentropy" |}.

Definition res_bind {A B} (r : Res A) (k : A -> Res B) : Res B :=
  match r with
  | Return a => k a
  | Raise e => Raise e
  end.

(** [NeuralNetwork.__init__] *)
Definition __init__ (base : Classifier) (a : Args) : Res NeuralNetwork :=
  if negb (bool_decide (is_Some (arg_input_params a))
           || bool_decide (is_Some (arg_model a)))
  then Raise (AssertionError "")
  else
    res_bind (choose activation_table (arg_activation a)) (fun activation =>
    res_bind (choose init_table (arg_init a)) (fun init =>
    res_bind (choose optimizer_table (arg_optimizer a)) (fun optimizer =>
    res_bind (choose loss_table (arg_loss a)) (fun loss =>
    Return
      {| model_type := base_model_type base;
         filename := base_filename base;
         labels := base_labels base;
         is_frozen := base_is_frozen base;
         model := arg_model a;
         max_num_labels := arg_max_num_labels a;
         _layers := arg_layers a;
         _layer_dim := arg_layer_dim a;
         _activation := activation;
         _normalize := arg_normalize a;
         _init := init;
         _num_labels := Z.of_nat (length (base_labels base));
         _minibatch_size := arg_minibatch_size a;
         _nb_epochs := arg_nb_epochs a;
         _dropout := arg_dropout a;
         _optimizer := optimizer;
         _loss := loss;
         _params := match arg_params a with
                    | None => OrderedDict.empty
                    | Some params => params
                    end;
         _input_params := arg_input_params a;
         _batch_size := arg_batch_size a;
         _item_index := 0;
         _iteration := 0 |})))).

(** The property [num_labels] that the class inherits: the number of
    labels. *)
Definition num_labels (nn : NeuralNetwork) : Z := Z.of_nat (length (labels nn)).

(** The property [input_dim]. *)
Definition input_dim (nn : NeuralNetwork) : Res Z :=
  match _input_params nn with
  | Some input_params =>
      Return (py_sum (map (fun f => num f * dim f)
                          (OrderedDict.values input_params)))
  | None => Raise (AttributeError "'NoneType' object has no attribute 'values'")
  end.

(** *** The persisted artifacts and the outside world *)

(** The dict [d] that [save] builds and [load] reads.  [d_type] is read
    with [d.get("type")], which gives [None] for a document without the
    key; the other keys are read with [d[...]]. *)
Record Metadata : Type := {
  d_type : option string;
  d_labels : list string;
  d_is_frozen : bool;
  d_input_params : option (OrderedDict.t FeatureInformation);
  d_param_keys : list string;
  d_layers : Z;
  d_layer_dim : Z
}.

(** What a path of the file system holds. *)
Inductive File : Type :=
| MetadataFile (d : Metadata)
| WeightsFile (values : list Tensor).

(** What [print] writes.  The elapsed time that the source formats into
    the "Done" line is not represented. *)
Inductive Line : Type :=
| SavingModelTo (model_filename : string)
| LoadingModelFrom (model_filename : string)
| Done
| FailedSavingModel (e : Exn)
| FailedLoadingModel (e : Exn).

Record World : Type := {
  files : gmap string File;
  stdout : list Line
}.

(** The state a method runs in: the object and the world around it. *)
Record State : Type := {
  self : NeuralNetwork;
  world : World
}.

Definition modify_self (f : NeuralNetwork -> NeuralNetwork) : Py State unit :=
  PyMonad.modify (fun s => {| self := f (self s); world := world s |}).

Definition set_files (fs : gmap string File) (s : State) : State :=
  {| self := self s;
     world := {| files := fs; stdout := stdout (world s) |} |}.

Definition print (l : Line) : Py State unit :=
  PyMonad.modify (fun s =>
    {| self := self s;
       world := {| files := files (world s);
                   stdout := stdout (world s) ++ [l] |} |}).

(** Which operations of the file system fail, and with which exception:
    the environment's choice, fixed for a run. *)
Record Faults : Type := {
  write_fault : string -> option Exn;
  read_fault : string -> option Exn
}.

Definition no_faults : Faults :=
  {| write_fault := fun _ => None; read_fault := fun _ => None |}.

Section Methods.

Variable faults : Faults.

(** Modelled from the spec: [parsing.model_util.save_dict] and
    [load_dict] are not among the embedded sources.  Section 6 gives the
    metadata artifact as a structured record stored at [path]; a write
    replaces the file, a read returns the stored record, and either fails
    with the exception the environment chooses or, for a read, when no
    metadata document is at the path. *)
Definition save_dict (path : string) (d : Metadata) : Py State unit :=
  fun s =>
    match write_fault faults path with
    | Some e => (Raise e, s)
    | None => (Return tt, set_files (<[path := MetadataFile d]> (files (world s))) s)
    end.

(** Modelled from the spec: [load_dict], the read of the metadata artifact
    (see [save_dict]). *)
Definition load_dict (path : string) : Py State Metadata :=
  fun s =>
    match read_fault faults path with
    | Some e => (Raise e, s)
    | None =>
        match files (world s) !! path with
        | Some (MetadataFile d) => (Return d, s)
        | _ => (Raise (OSError path), s)
        end
    end.

(** Modelled from the spec: the numeric engine's [model.save(path,
    values)] and [model.load(path)].  Section 6 gives the weights artifact
    as the ordered sequence of tensors, without keys. *)
Definition model_save (m : Model) (path : string) (values : list Tensor)
    : Py State unit :=
  fun s =>
    match write_fault faults path with
    | Some e => (Raise e, s)
    | None => (Return tt, set_files (<[path := WeightsFile values]> (files (world s))) s)
    end.

(** Modelled from the spec: [model.load(path)], the read of the weights
    artifact (see [model_save]). *)
Definition model_load (m : Model) (path : string) : Py State (list Tensor) :=
  fun s =>
    match read_fault faults path with
    | Some e => (Raise e, s)
    | None =>
        match files (world s) !! path with
        | Some (WeightsFile values) => (Return values, s)
        | _ => (Raise (OSError path), s)
        end
    end.

(** [self.model.attr]: [self.model] as the receiver of the method
    [attr]; on [None] the lookup of the attribute fails. *)
Definition self_model (attr : string) : Py State Model :=
  fun s =>
    match model (self s) with
    | Some m => (Return m, s)
    | None =>
        (Raise (AttributeError
                  (String.append "'NoneType' object has no attribute '"
                     (String.append attr "'"))), s)
    end.

(** [NeuralNetwork.init_model] itself; subclasses override it. *)
Definition NeuralNetwork_init_model : Py State unit :=
  PyMonad.raise NotImplementedError.

(** The [init_model] that [self.init_model()] dispatches to. *)
Variable init_model : Py State unit.

Local Open Scope py_scope.

(** [NeuralNetwork.resize] *)
Definition resize : Py State unit :=
  s <- PyMonad.get ;;
  PyMonad.assert (num_labels (self s) <=? max_num_labels (self s))
    "Exceeded maximum number of labels".

(** [NeuralNetwork.save] *)
Definition save : Py State unit :=
  s <- PyMonad.get ;;
  kv <- PyMonad.lift (py_unzip2 (OrderedDict.items (_params (self s)))) ;;
  let param_keys := kv.1 in
  let param_values := kv.2 in
  let d := {| d_type := Some (model_type (self s));
              d_labels := labels (self s);
              d_is_frozen := is_frozen (self s);
              d_input_params := _input_params (self s);
              d_param_keys := param_keys;
              d_layers := _layers (self s);
              d_layer_dim := _layer_dim (self s) |} in
  save_dict (filename (self s)) d ;;;
  init_model ;;;
  s <- PyMonad.get ;;
  let model_filename := String.append (filename (self s)) ".model" in
  print (SavingModelTo model_filename) ;;;
  PyMonad.try_except
    (m <- self_model "save" ;;
     model_save m model_filename param_values ;;;
     print Done)
    is_ValueError
    (fun e => print (FailedSavingModel e)).

(** [NeuralNetwork.load].  The local [param_values] is bound only when the
    [try] body gets past its first statement. *)
Definition load : Py State unit :=
  s <- PyMonad.get ;;
  d <- load_dict (filename (self s)) ;;
  let model_type_ := d_type d in
  PyMonad.assert (bool_decide (model_type_ = Some (model_type (self s))))
    (String.append "Model type does not match: " (str_of_option model_type_)) ;;;
  modify_self (set_labels (d_labels d)) ;;;
  modify_self (set_is_frozen (d_is_frozen d)) ;;;
  modify_self (set__input_params (d_input_params d)) ;;;
  let param_keys := d_param_keys d in
  modify_self (set__layers (d_layers d)) ;;;
  modify_self (set__layer_dim (d_layer_dim d)) ;;;
  init_model ;;;
  s <- PyMonad.get ;;
  let model_filename := String.append (filename (self s)) ".model" in
  print (LoadingModelFrom model_filename) ;;;
  param_values <-
    PyMonad.try_except
      (m <- self_model "load" ;;
       values <- model_load m model_filename ;;
       print Done ;;;
       PyMonad.ret (Some values))
      is_KeyError
      (fun e => print (FailedLoadingModel e) ;;; PyMonad.ret None) ;;
  match param_values with
  | Some values =>
      modify_self (set__params (OrderedDict.of_pairs (py_zip param_keys values)))
  | None => PyMonad.raise (UnboundLocalError "param_values")
  end.

End Methods.

(** *** The two halves of [save] and of [load] *)

(** The document [d] that [save] builds from the object. *)
Definition metadata_of (nn : NeuralNetwork) : Metadata :=
  {| d_type := Some (model_type nn);
     d_labels := labels nn;
     d_is_frozen := is_frozen nn;
     d_input_params := _input_params nn;
     d_param_keys := OrderedDict.keys (_params nn);
     d_layers := _layers nn;
     d_layer_dim := _layer_dim nn |}.

Section Halves.
Variable faults : Faults.
Local Open Scope py_scope.

(** The statements of [save] after the call of [init_model]. *)
Definition save_weights (param_values : list Tensor) : Py State unit :=
  s <- PyMonad.get ;;
  let model_filename := String.append (filename (self s)) ".model" in
  print (SavingModelTo model_filename) ;;;
  PyMonad.try_except
    (m <- self_model "save" ;;
     model_save faults m model_filename param_values ;;;
     print Done)
    is_ValueError
    (fun e => print (FailedSavingModel e)).

(** The statements of [load] after the call of [init_model]. *)
Definition load_weights (param_keys : list string) : Py State unit :=
  s <- PyMonad.get ;;
  let model_filename := String.append (filename (self s)) ".model" in
  print (LoadingModelFrom model_filename) ;;;
  param_values <-
    PyMonad.try_except
      (m <- self_model "load" ;;
       values <- model_load faults m model_filename ;;
       print Done ;;;
       PyMonad.ret (Some values))
      is_KeyError
      (fun e => print (FailedLoadingModel e) ;;; PyMonad.ret None) ;;
  match param_values with
  | Some values =>
      modify_self (set__params (OrderedDict.of_pairs (py_zip param_keys values)))
  | None => PyMonad.raise (UnboundLocalError "param_values")
  end.

End Halves.

(** The state in which [load] calls [init_model]: the attributes are
    those of the metadata document. *)
Definition assigned (d : Metadata) (s : State) : State :=
  {| self := set__layer_dim (d_layer_dim d)
               (set__layers (d_layers d)
                  (set__input_params (d_input_params d)
                     (set_is_frozen (d_is_frozen d)
                        (set_labels (d_labels d) (self s)))));
     world := world s |}.

(** *** Operations of the classifier that the embedded sources lack *)

(** How the capacity overflow of the specification shows in the code: the
    assertion of [resize]. *)
Definition CapacityExceeded : Exn :=
  AssertionError "Exceeded maximum number of labels".

(** How a model-type mismatch shows in the code: the assertion of [load],
    whose message ends in the type that was found. *)
Definition ModelTypeMismatch (found : option string) : Exn :=
  AssertionError (String.append "Model type does not match: " (str_of_option found)).

(** Modelled from the spec: [add_label] is not among the embedded sources
    (only the capacity assertion of [resize] is).  Section 4.1: it appends
    to the LabelSet and returns the new label's index; it fails with
    CapacityExceeded if the LabelSet already has [max_labels] entries; it
    never reallocates the output projection. *)
Definition add_label (name : string) : Py State Z :=
  fun s =>
    if num_labels (self s) =? max_num_labels (self s)
    then (Raise CapacityExceeded, s)
    else (Return (num_labels (self s)),
          {| self := set_labels (labels (self s) ++ [name]) (self s);
             world := world s |}).

(** The state after a sequence of [add_label] calls, whatever each call
    returned or raised. *)
Definition add_labels (names : list string) (s : State) : State :=
  fold_left (fun s name => (add_label name s).2) names s.

(** Modelled from the spec: the [init_model] of a concrete classifier is
    not among the embedded sources.  Section 4.1, Lazy Initialization: it
    materializes the ParameterStore when that has not happened yet, is
    idempotent, and does not re-zero a materialized store.  [fresh] gives
    the tensors a new store starts with. *)
Definition lazy_init_model (fresh : NeuralNetwork -> OrderedDict.t Tensor)
    : Py State unit :=
  modify_self (fun nn =>
    let nn1 := match model nn with
               | Some _ => nn
               | None => set_model (Some dy_Model) nn
               end in
    match _params nn1 with
    | [] => set__params (fresh nn1) nn1
    | _ :: _ => nn1
    end).

(** Modelled from the spec: a training example, the arguments of
    [observe]: the feature vector and the index of the gold label. *)
Record Example : Type := {
  features : list Float;
  gold_label_index : Z
}.

(** Modelled from the spec: a classifier in training (the example buffer
    is not an attribute that [__init__] sets): the object, the buffered
    examples, and, as a record of what happened, the buffers on which a
    training step ran. *)
Record Learner : Type := {
  clf : NeuralNetwork;
  buffer : list Example;
  training_steps : list (list Example)
}.

Section Schedule.

(** One training step: the weights that the optimizer reaches from the
    classifier's current weights on the buffered examples (minibatches of
    [_minibatch_size], [_nb_epochs] passes, [_dropout] on the input). *)
Variable fit : NeuralNetwork -> list Example -> OrderedDict.t Tensor.

(** Modelled from the spec: [observe] is not among the embedded sources
    (only the counters that [__init__] sets are).  Section 4.1: it buffers
    the example; when the buffered count reaches [batch_size] it runs one
    training step on the buffer, clears the buffer and increments
    [iteration]; while the classifier is frozen it changes nothing. *)
Definition observe (ex : Example) (l : Learner) : Learner :=
  if is_frozen (clf l) then l
  else
    let buffer' := buffer l ++ [ex] in
    let items_seen := _item_index (clf l) + 1 in
    if items_seen =? _batch_size (clf l)
    then {| clf := set__iteration (_iteration (clf l) + 1)
                     (set__item_index 0
                        (set__params (fit (clf l) buffer') (clf l)));
            buffer := [];
            training_steps := training_steps l ++ [buffer'] |}
    else {| clf := set__item_index items_seen (clf l);
            buffer := buffer';
            training_steps := training_steps l |}.

(** A classifier that has just been constructed starts with an empty
    buffer and no training step behind it. *)
Definition new_learner (nn : NeuralNetwork) : Learner :=
  {| clf := nn; buffer := []; training_steps := [] |}.

(** [observe] called on each example of a sequence in turn. *)
Definition observe_all (exs : list Example) (l : Learner) : Learner :=
  fold_left (fun l ex => observe ex l) exs l.

End Schedule.

(** *** What the round trip asks of [init_model] *)

(** An [init_model] that returns, leaves the persisted attributes and the
    files alone, and leaves [self.model] set. *)
Record InitModelSpec (init_model : Py State unit) : Prop := {
  init_returns : ∀ s, ∃ s', init_model s = (Return tt, s');
  init_frame : ∀ s r s', init_model s = (r, s') →
    filename (self s') = filename (self s) ∧
    model_type (self s') = model_type (self s) ∧
    labels (self s') = labels (self s) ∧
    is_frozen (self s') = is_frozen (self s) ∧
    _input_params (self s') = _input_params (self s) ∧
    _layers (self s') = _layers (self s) ∧
    _layer_dim (self s') = _layer_dim (self s) ∧
    files (world s') = files (world s);
  init_sets_model : ∀ s s', init_model s = (Return tt, s') →
    is_Some (model (self s'))
}.

(** An [init_model] that, whether it returns or raises, leaves the
    persisted attributes and the files as they are. *)
Definition LeavesPersisted (init_model : Py State unit) : Prop :=
  ∀ s r s', init_model s = (r, s') →
    filename (self s') = filename (self s) ∧
    model_type (self s') = model_type (self s) ∧
    labels (self s') = labels (self s) ∧
    is_frozen (self s') = is_frozen (self s) ∧
    _input_params (self s') = _input_params (self s) ∧
    _layers (self s') = _layers (self s) ∧
    _layer_dim (self s') = _layer_dim (self s) ∧
    files (world s') = files (world s).

(** An [init_model] that does not touch a store that holds parameters. *)
Definition KeepsMaterialized (init_model : Py State unit) : Prop :=
  ∀ s r s', init_model s = (r, s') →
    _params (self s) ≠ [] → _params (self s') = _params (self s).

(** The feature schema's total width, entry by entry. *)
Fixpoint schema_width (schema : OrderedDict.t FeatureInformation) : Z :=
  match schema with
  | [] => 0
  | (_, f) :: schema' => num f * dim f + schema_width schema'
  end.

(** *** Further members of the class *)

(** [NeuralNetwork.__str__]: the label count is formatted first, then
    the input width, whose failure leaves the method. *)
Definition __str__ (nn : NeuralNetwork) : Res string :=
  let left := String.append (pretty (num_labels nn)) " labels, " in
  res_bind (input_dim nn) (fun n =>
    Return (String.append left (String.append (pretty n) " features"))).

(** An argument of [__init__] that its table can resolve: a name that is
    a key of the table, or an object. *)
Definition resolvable {A} (table : list (string * A)) (x : Choice A) : Prop :=
  match x with
  | ByName name => name ∈ table.*1
  | Direct _ => True
  end.

(** The names that the four selecting arguments of [__init__] give, in
    the order in which the constructor looks them up, with whether each is
    a key of its table. *)
Definition name_of {A} (table : list (string * A)) (x : Choice A)
    : list (string * bool) :=
  match x with
  | ByName name => [(name, bool_decide (name ∈ table.*1))]
  | Direct _ => []
  end.

Definition looked_up_names (a : Args) : list (string * bool) :=
  name_of activation_table (arg_activation a) ++
  name_of init_table (arg_init a) ++
  name_of optimizer_table (arg_optimizer a) ++
  name_of loss_table (arg_loss a).

End NeuralNetwork.

End neural_network.

(** ** A concrete classifier and concrete worlds

    Scalars are integers and a tensor is the list of its entries. *)

Module sample.
Import neural_network.

(** The schema [{unigram: (50, 4), bigram: (20, 4)}]. *)
Definition schema : OrderedDict.t FeatureInformation :=
  [("unigram", {| num := 50; dim := 4 |});
   ("bigram", {| num := 20; dim := 4 |})].

Definition base : Classifier :=
  {| base_model_type := "nn";
     base_filename := "ucca.nn";
     base_labels := ["shift"; "reduce"];
     base_is_frozen := false |}.

(** Four labels, one more than the capacity that [args] gives. *)
Definition base_four_labels : Classifier :=
  {| base_model_type := "nn";
     base_filename := "ucca.nn";
     base_labels := ["shift"; "reduce"; "finish"; "swap"];
     base_is_frozen := false |}.

Definition stored_params : OrderedDict.t (list Z) :=
  [("W1", [1; 2]); ("b1", [3]); ("Wout", [4; 5])].

(** The defaults of the source, with room for three labels. *)
Definition args (params : option (OrderedDict.t (list Z))) : @Args Z (list Z) :=
  {| arg_input_params := Some schema; arg_params := params;
     arg_model := None; arg_layers := 1; arg_layer_dim := 100;
     arg_activation := ByName "tanh"; arg_normalize := false;
     arg_init := ByName "glorot_uniform"; arg_max_num_labels := 3;
     arg_batch_size := 10; arg_minibatch_size := 200; arg_nb_epochs := 5;
     arg_dropout := 0; arg_optimizer := ByName "adam";
     arg_loss := ByName "categorical_crossentropy" |}.

(** The object that [__init__ base (args params)] returns. *)
Definition constructed (params : OrderedDict.t (list Z)) : @NeuralNetwork Z (list Z) :=
  {| model_type := "nn"; filename := "ucca.nn";
     labels := ["shift"; "reduce"]; is_frozen := false; model := None;
     max_num_labels := 3; _layers := 1; _layer_dim := 100;
     _activation := dy_tanh; _normalize := false;
     _init := GlorotInitializer; _num_labels := 2;
     _minibatch_size := 200; _nb_epochs := 5; _dropout := 0;
     _optimizer := AdamTrainer; _loss := binary_log_loss;
     _params := params; _input_params := Some schema;
     _batch_size := 10; _item_index := 0; _iteration := 0 |}.

(** A classifier with three parameters and one without any yet. *)
Definition nn : @NeuralNetwork Z (list Z) := constructed stored_params.
Definition nn_unmaterialized : @NeuralNetwork Z (list Z) := constructed [].

(** The tensors a new store starts with. *)
Definition fresh (_ : @NeuralNetwork Z (list Z)) : OrderedDict.t (list Z) :=
  [("W1", [0; 0]); ("b1", [0]); ("Wout", [0; 0])].

Definition empty_world : @World (list Z) := {| files := ∅; stdout := [] |}.

Definition start : @State Z (list Z) := {| self := nn; world := empty_world |}.
Definition start_unmaterialized : @State Z (list Z) :=
  {| self := nn_unmaterialized; world := empty_world |}.

(** The artifacts of [nn] after one tensor was removed from the weights. *)
Definition corrupt_world : @World (list Z) :=
  {| files := <["ucca.nn.model" := WeightsFile [[1; 2]; [3]]]>
                (<["ucca.nn" := MetadataFile (metadata_of nn)]> ∅);
     stdout := [] |}.

(** A file system on which the weights artifact can be neither written
    nor read; [e] is what the attempt raises. *)
Definition weights_fault (e : Exn) : Faults :=
  {| write_fault := fun path =>
       if String.eqb path "ucca.nn.model" then Some e else None;
     read_fault := fun path =>
       if String.eqb path "ucca.nn.model" then Some e else None |}.

(** The metadata of [nn] on disk, stored under another model type. *)
Definition other_type_world : @World (list Z) :=
  {| files := <["ucca.nn.model" := WeightsFile [[1; 2]; [3]; [4; 5]]]>
                (<["ucca.nn" := MetadataFile
                     {| d_type := Some "sparse"; d_labels := ["shift"];
                        d_is_frozen := true; d_input_params := Some schema;
                        d_param_keys := ["W1"; "b1"; "Wout"];
                        d_layers := 2; d_layer_dim := 50 |}]> ∅);
     stdout := [] |}.

(** A metadata document that differs from [nn] in every attribute that
    [load] assigns, next to no readable weights. *)
Definition newer_metadata : Metadata :=
  {| d_type := Some "nn"; d_labels := ["shift"; "reduce"; "finish"];
     d_is_frozen := true; d_input_params := None;
     d_param_keys := ["W1"; "b1"; "Wout"];
     d_layers := 2; d_layer_dim := 50 |}.

Definition newer_world : @World (list Z) :=
  {| files := <["ucca.nn" := MetadataFile newer_metadata]> ∅; stdout := [] |}.

(** Ten examples and a training step that can be told apart from no
    step: it appends the size of the buffer to every tensor. *)
Definition examples : list (@Example Z) :=
  map (fun i => {| features := [i]; gold_label_index := 0 |})
      [1; 2; 3; 4; 5; 6; 7; 8; 9; 10].

Definition fit (c : @NeuralNetwork Z (list Z)) (buf : list (@Example Z))
    : OrderedDict.t (list Z) :=
  map (fun kv => (kv.1, kv.2 ++ [Z.of_nat (length buf)])) (_params c).

(** The artifacts of [nn] as [save] writes them. *)
Definition saved_world : @World (list Z) :=
  {| files := <["ucca.nn.model" := WeightsFile [[1; 2]; [3]; [4; 5]]]>
                (<["ucca.nn" := MetadataFile (metadata_of nn)]> ∅);
     stdout := [] |}.

(** A classifier constructed from a model alone. *)
Definition args_model_only : @Args Z (list Z) :=
  {| arg_input_params := None; arg_params := None;
     arg_model := Some dy_Model; arg_layers := 1; arg_layer_dim := 100;
     arg_activation := ByName "tanh"; arg_normalize := false;
     arg_init := ByName "glorot_uniform"; arg_max_num_labels := 3;
     arg_batch_size := 10; arg_minibatch_size := 200; arg_nb_epochs := 5;
     arg_dropout := 0; arg_optimizer := ByName "adam";
     arg_loss := ByName "categorical_crossentropy" |}.

(** Arguments with an activation and a loss that the tables do not know. *)
Definition args_unknown_names : @Args Z (list Z) :=
  {| arg_input_params := Some schema; arg_params := None;
     arg_model := None; arg_layers := 1; arg_layer_dim := 100;
     arg_activation := ByName "swish"; arg_normalize := false;
     arg_init := ByName "normal"; arg_max_num_labels := 3;
     arg_batch_size := 10; arg_minibatch_size := 200; arg_nb_epochs := 5;
     arg_dropout := 0; arg_optimizer := Direct AdamTrainer;
     arg_loss := ByName "hinge" |}.

(** A passage of two paragraphs, "a ." and "b .", its layer 1 with one
    scene for each, and stand-ins for the punctuation test and for the
    sentence splitter. *)
Definition terminals : list textutil.Terminal :=
  [ {| textutil.position := 1; textutil.para_pos := 1;
       textutil.paragraph := 1; textutil.text := "a" |};
    {| textutil.position := 2; textutil.para_pos := 2;
       textutil.paragraph := 1; textutil.text := "." |};
    {| textutil.position := 3; textutil.para_pos := 1;
       textutil.paragraph := 2; textutil.text := "b" |};
    {| textutil.position := 4; textutil.para_pos := 2;
       textutil.paragraph := 2; textutil.text := "." |} ].

Definition passage : textutil.Passage := {| textutil.layer0_all := terminals |}.

Definition layer1 : textutil.Layer1 :=
  {| textutil.l1_all := [ {| textutil.outgoing := [1; 2] |} ];
     textutil.top_scenes :=
       [ {| textutil.start_position := 1; textutil.end_position := 1 |};
         {| textutil.start_position := 3; textutil.end_position := 4 |} ] |}.

Definition is_punct (t : textutil.Terminal) : bool :=
  String.eqb (textutil.text t) ".".

(** Layer 1 of a passage that is not labeled. *)
Definition layer1_unlabeled : textutil.Layer1 :=
  {| textutil.l1_all := [ {| textutil.outgoing := [] |} ];
     textutil.top_scenes := [] |}.

(** A stand-in for the sentence splitter: a sentence ends after each
    full stop. *)
Definition sents_ends (model : textutil.Language) (words : list string)
    : Res (list Z) :=
  Return
    (omap id
       (imap (fun i w =>
                if String.eqb w "." then Some (Z.of_nat (S i)) else None)
             words)).

(** The units of [<a><b /></a><c />]. *)
Definition units : textutil.Units :=
  textutil.UElem "<a>" (textutil.ULeaf "<b />" textutil.UNil) "</a>"
    (textutil.ULeaf "<c />" textutil.UNil).

(** A library installation given by the names of the installed models,
    and a download that finds nothing to install. *)
Definition spacy_load (name : string) (installed : list string)
    : Res textutil.Language * list string :=
  if bool_decide (name ∈ installed)
  then (Return {| textutil.lang_name := name;
                  textutil.lang_tokenizer := textutil.ModelTokenizer name |},
        installed)
  else (Raise (OSError name), installed).

Definition spacy_download (name : string) (installed : list string)
    : Res unit * list string :=
  (Return tt, installed).

Definition nlp_start (installed : list string) : textutil.NlpState (list string) :=
  {| textutil.instance := None; textutil.tokenizer := None;
     textutil.environ := ∅; textutil.spacy := installed |}.

(** A stand-in for the language model, which gives one token for each
    word, and the sample passage before any annotation. *)
Definition parse (words : list string) : list textutil.Lex :=
  imap (fun i w =>
          {| textutil.tag_ := "NN"; textutil.pos_ := "NOUN";
             textutil.ent_type_ := ""; textutil.ent_iob := 2;
             textutil.dep_ := "dep"; textutil.head_i := Z.of_nat i;
             textutil.lemma_ := w |})
       words.

Definition text_state : textutil.TextState :=
  {| textutil.l0_all :=
       map (fun t => {| textutil.terminal := t; textutil.extra := ∅ |}) terminals;
     textutil.printed := [] |}.

End sample.

(** ** Facts about the containers *)

Lemma py_getitem_last {A} (l : list A) (x : A) :
  py_getitem (l ++ [x]) (-1) = Return x.
Proof.
  unfold py_getitem. rewrite length_app. simpl.
  replace (-1 <? 0) with true by reflexivity.
  assert (Hj : -1 + Z.of_nat (length l + 1) = Z.of_nat (length l)) by lia.
  rewrite Hj.
  replace (0 <=? Z.of_nat (length l)) with true by (symmetry; apply Z.leb_le; lia).
  replace (Z.of_nat (length l) <? Z.of_nat (length l + 1))
    with true by (symmetry; apply Z.ltb_lt; lia).
  simpl. rewrite Nat2Z.id.
  rewrite lookup_app_r by lia. by rewrite Nat.sub_diag.
Qed.

Lemma py_sum_from (xs : list Z) (acc : Z) :
  fold_left Z.add xs acc = acc + py_sum xs.
Proof.
  unfold py_sum. revert acc.
  induction xs as [|x xs IH]; intros acc; simpl; [lia|].
  rewrite (IH (acc + x)), (IH (0 + x)). lia.
Qed.

Lemma py_sum_cons (x : Z) (xs : list Z) : py_sum (x :: xs) = x + py_sum xs.
Proof. unfold py_sum at 1. simpl. apply py_sum_from. Qed.

Lemma py_zip_fst_snd {A B} (l : list (A * B)) : py_zip (l.*1) (l.*2) = l.
Proof. induction l as [|[a b] l IH]; csimpl; [done|]. by rewrite IH. Qed.

Lemma py_zip_length {A B} (a : list A) (b : list B) :
  length (py_zip a b) = Nat.min (length a) (length b).
Proof.
  revert b. induction a as [|x a IH]; intros [|y b]; csimpl; try done.
  by rewrite IH.
Qed.

Lemma py_zip_fst {A B} (a : list A) (b : list B) :
  (py_zip a b).*1 = take (length b) a.
Proof.
  revert b. induction a as [|x a IH]; intros [|y b]; csimpl; try done.
  by rewrite IH.
Qed.

Lemma py_zip_snd {A B} (a : list A) (b : list B) :
  (py_zip a b).*2 = take (length a) b.
Proof.
  revert b. induction a as [|x a IH]; intros [|y b]; csimpl; try done.
  by rewrite IH.
Qed.

Lemma setitem_fresh {V} (k : string) (v : V) (d : OrderedDict.t V) :
  k ∉ OrderedDict.keys d → OrderedDict.setitem k v d = d ++ [(k, v)].
Proof.
  unfold OrderedDict.keys.
  induction d as [|[k' v'] d IH]; csimpl; intros Hk; [done|].
  apply not_elem_of_cons in Hk as [Hne Hk].
  destruct (String.eqb_spec k k') as [->|_]; [done|].
  by rewrite IH.
Qed.

Lemma of_pairs_from {V} (pairs acc : list (string * V)) :
  NoDup ((acc ++ pairs).*1) →
  fold_left (fun d kv => OrderedDict.setitem kv.1 kv.2 d) pairs acc = acc ++ pairs.
Proof.
  revert acc. induction pairs as [|[k v] pairs IH]; intros acc Hnd; simpl.
  - by rewrite app_nil_r.
  - rewrite setitem_fresh.
    + rewrite IH; rewrite <- app_assoc; done.
    + rewrite fmap_app in Hnd. apply NoDup_app in Hnd as (_ & Hdisj & _).
      intros Hin. apply (Hdisj k Hin). simpl. left.
Qed.

(** Rebuilding a dict from its own items gives the dict back. *)
Lemma of_pairs_items {V} (d : OrderedDict.t V) :
  OrderedDict.wf d → OrderedDict.of_pairs d = d.
Proof. intros Hwf. unfold OrderedDict.of_pairs. by rewrite of_pairs_from. Qed.

Lemma NoDup_take {A} (n : nat) (l : list A) : NoDup l → NoDup (take n l).
Proof.
  intros Hnd. rewrite <- (take_drop n l) in Hnd.
  by apply NoDup_app in Hnd as [? _].
Qed.

(** With distinct keys, [OrderedDict(zip(keys, values))] is the positional
    pairing itself. *)
Lemma of_pairs_zip {V} (keys : list string) (values : list V) :
  NoDup keys → OrderedDict.of_pairs (py_zip keys values) = py_zip keys values.
Proof.
  intros Hnd. apply of_pairs_items. unfold OrderedDict.wf, OrderedDict.keys.
  rewrite py_zip_fst. by apply NoDup_take.
Qed.

Lemma append_suffix_ne (f suffix : string) :
  suffix ≠ EmptyString → String.append f suffix ≠ f.
Proof.
  intros Hne. induction f as [|a f IH]; simpl; [done|].
  intros Heq. injection Heq as Heq. by apply IH.
Qed.

Lemma model_filename_ne (f : string) : String.append f ".model" ≠ f.
Proof. by apply append_suffix_ne. Qed.

(** ** Properties of [break2paragraphs] *)

Section break2paragraphs_props.
Import textutil.

(** C10. With at least one terminal, [break2paragraphs] returns a list
    that ends in the position of the last terminal, hence is not empty;
    with no terminal, [terminals[-1]] raises [IndexError] and nothing is
    returned. *)
Theorem break2paragraphs_last_or_fails :
  (∀ p : Passage, layer0_all p ≠ [] →
     ∃ ends t,
       break2paragraphs p = Return ends ∧
       last (layer0_all p) = Some t ∧
       last ends = Some (position t) ∧
       ends ≠ []) ∧
  break2paragraphs {| layer0_all := [] |}
    = Raise (IndexError "list index out of range").
Proof.
  split.
  - intros [ts] Hne. simpl in *.
    destruct (exists_last Hne) as (ts' & t & ->).
    unfold break2paragraphs, extract_terminals. simpl.
    rewrite py_getitem_last.
    eexists _, t. split; [reflexivity|].
    rewrite !last_snoc. split_and!; try done.
    intros Habs. by apply app_eq_nil in Habs as [_ ?].
  - reflexivity.
Qed.

End break2paragraphs_props.

(** ** Properties of the classifier *)

Section classifier_props.
Import neural_network.
Context {Float Tensor : Type}.

Local Abbreviation NeuralNetwork := (@NeuralNetwork Float Tensor).
Local Abbreviation State := (@State Float Tensor).
Local Abbreviation Learner := (@Learner Float Tensor).
Local Abbreviation Example := (@Example Float).

(** *** The input width *)

Lemma py_sum_schema (schema : OrderedDict.t FeatureInformation) :
  py_sum (map (fun f => num f * dim f) (OrderedDict.values schema))
  = schema_width schema.
Proof.
  unfold OrderedDict.values.
  induction schema as [|[name f] schema IH]; csimpl; [done|].
  rewrite py_sum_cons. by rewrite IH.
Qed.

(** C7. For every feature schema, [input_dim] is the sum over the schema's
    entries of cardinality times dimension. *)
Theorem input_dim_sum (nn : NeuralNetwork)
    (schema : OrderedDict.t FeatureInformation) :
  _input_params nn = Some schema →
  input_dim nn = Return (schema_width schema).
Proof.
  intros Hs. unfold input_dim. rewrite Hs. by rewrite py_sum_schema.
Qed.

(** *** Label capacity *)

Lemma num_labels_set_labels (ls : list string) (nn : NeuralNetwork) :
  num_labels (set_labels ls nn) = Z.of_nat (length ls).
Proof. reflexivity. Qed.

Lemma add_label_cases (name : string) (s : State) :
  (num_labels (self s) = max_num_labels (self s) ∧
   add_label name s = (Raise CapacityExceeded, s)) ∨
  (num_labels (self s) ≠ max_num_labels (self s) ∧
   add_label name s =
     (Return (num_labels (self s)),
      {| self := set_labels (labels (self s) ++ [name]) (self s);
         world := world s |})).
Proof.
  unfold add_label.
  destruct (Z.eqb_spec (num_labels (self s)) (max_num_labels (self s)));
    [left|right]; done.
Qed.

Lemma add_label_invariant (name : string) (s : State) :
  num_labels (self s) <= max_num_labels (self s) →
  num_labels (self (add_label name s).2) <= max_num_labels (self (add_label name s).2).
Proof.
  intros Hinv.
  destruct (add_label_cases name s) as [[Heq ->]|[Hne ->]]; simpl; [done|].
  rewrite num_labels_set_labels, length_app. simpl.
  unfold num_labels in *. lia.
Qed.

Lemma init_fields (base : Classifier) (a : Args) (nn : NeuralNetwork) :
  __init__ base a = Return nn →
  is_frozen nn = base_is_frozen base ∧
  labels nn = base_labels base ∧
  _batch_size nn = arg_batch_size a ∧
  _input_params nn = arg_input_params a ∧
  max_num_labels nn = arg_max_num_labels a ∧
  _item_index nn = 0 ∧
  _iteration nn = 0.
Proof.
  unfold __init__, res_bind.
  destruct (negb _); [done|].
  destruct (choose activation_table _); [|done].
  destruct (choose init_table _); [|done].
  destruct (choose optimizer_table _); [|done].
  destruct (choose loss_table _); [|done].
  intros [= <-]. done.
Qed.

(** C5. The bound on the labels is what [resize] checks, not what the
    constructor establishes: [resize] passes exactly when the labels are
    at most [max_num_labels], raises CapacityExceeded otherwise and
    changes nothing, and the object that [__init__] returns has the
    labels and the capacity it was given, whatever their numbers.  For a
    classifier within the bound, the bound survives every sequence of
    [add_label] calls, and the assertion of [resize] holds after each;
    from [max_num_labels - 1] labels one more call succeeds, with the
    next index, and the call after it fails; every call at
    [max_num_labels] labels fails with CapacityExceeded and changes
    neither the labels nor the store, where appending the label
    regardless would trip the assertion of [resize]. *)
Theorem add_label_capacity (s : State) :
  resize s
  = (if bool_decide (num_labels (self s) <= max_num_labels (self s))
     then Return tt else Raise CapacityExceeded, s) ∧
  (∀ (base : Classifier) (a : Args),
     __init__ base a = Return (self s) →
     labels (self s) = base_labels base ∧
     max_num_labels (self s) = arg_max_num_labels a) ∧
  (num_labels (self s) <= max_num_labels (self s) →
   (∀ names, num_labels (self (add_labels names s))
             <= max_num_labels (self (add_labels names s))) ∧
   (∀ name, resize (add_label name s).2 = (Return tt, (add_label name s).2)) ∧
   (num_labels (self s) = max_num_labels (self s) - 1 →
    ∀ name, ∃ s',
      add_label name s = (Return (max_num_labels (self s) - 1), s') ∧
      labels (self s') = labels (self s) ++ [name] ∧
      _params (self s') = _params (self s) ∧
      ∀ name', add_label name' s' = (Raise CapacityExceeded, s')) ∧
   (num_labels (self s) = max_num_labels (self s) →
    ∀ name,
      add_label name s = (Raise CapacityExceeded, s) ∧
      resize {| self := set_labels (labels (self s) ++ [name]) (self s);
                world := world s |}
        = (Raise CapacityExceeded,
           {| self := set_labels (labels (self s) ++ [name]) (self s);
              world := world s |}))).
Proof.
  split; [|split].
  { unfold resize, PyMonad.bind, PyMonad.get, PyMonad.assert.
    destruct (Z.leb_spec (num_labels (self s)) (max_num_labels (self s))).
    - by rewrite bool_decide_eq_true_2.
    - by rewrite bool_decide_eq_false_2 by lia. }
  { intros base a Hinit.
    by destruct (init_fields _ _ _ Hinit) as (_ & Hlb & _ & _ & Hmax & _). }
  intros Hinv. split_and!.
  - intros names. revert s Hinv.
    induction names as [|name names IH]; intros s Hinv; [done|].
    simpl. apply IH. by apply add_label_invariant.
  - intros name. pose proof (add_label_invariant name s Hinv) as Hinv'.
    unfold resize, PyMonad.bind, PyMonad.get, PyMonad.assert.
    apply Z.leb_le in Hinv'. by rewrite Hinv'.
  - intros Hlen name.
    destruct (add_label_cases name s) as [[Heq _]|[_ Hadd]]; [lia|].
    eexists. split; [by rewrite Hadd, Hlen|]. simpl. split_and!; try done.
    intros name'. unfold add_label. simpl.
    rewrite num_labels_set_labels, length_app. simpl.
    unfold num_labels in Hlen.
    replace (Z.of_nat (length (labels (self s)) + 1) =? max_num_labels (self s))
      with true; [done|].
    symmetry. apply Z.eqb_eq. lia.
  - intros Hlen name. split.
    + by destruct (add_label_cases name s) as [[_ Hadd]|[Hne _]].
    + unfold resize, PyMonad.bind, PyMonad.get, PyMonad.assert.
      cbn [self]. rewrite num_labels_set_labels, length_app.
      cbn [max_num_labels set_labels length].
      unfold num_labels in Hlen.
      replace (Z.of_nat (length (labels (self s)) + 1) <=? max_num_labels (self s))
        with false; [done|].
      symmetry. apply Z.leb_gt. lia.
Qed.

(** *** The training schedule *)

Section schedule_props.
Variable fit : NeuralNetwork -> list Example -> OrderedDict.t Tensor.

Lemma observe_below (ex : Example) (l : Learner) :
  is_frozen (clf l) = false →
  _item_index (clf l) + 1 ≠ _batch_size (clf l) →
  observe fit ex l =
    {| clf := set__item_index (_item_index (clf l) + 1) (clf l);
       buffer := buffer l ++ [ex];
       training_steps := training_steps l |}.
Proof.
  intros Hfr Hne. unfold observe. rewrite Hfr.
  by destruct (Z.eqb_spec (_item_index (clf l) + 1) (_batch_size (clf l))).
Qed.

Lemma observe_at_threshold (ex : Example) (l : Learner) :
  is_frozen (clf l) = false →
  _item_index (clf l) + 1 = _batch_size (clf l) →
  observe fit ex l =
    {| clf := set__iteration (_iteration (clf l) + 1)
                (set__item_index 0
                   (set__params (fit (clf l) (buffer l ++ [ex])) (clf l)));
       buffer := [];
       training_steps := training_steps l ++ [buffer l ++ [ex]] |}.
Proof.
  intros Hfr Heq. unfold observe. rewrite Hfr.
  by destruct (Z.eqb_spec (_item_index (clf l) + 1) (_batch_size (clf l))).
Qed.

(** Below the threshold the calls only accumulate. *)
Lemma observe_all_below (exs : list Example) (l : Learner) :
  is_frozen (clf l) = false →
  _item_index (clf l) + Z.of_nat (length exs) < _batch_size (clf l) →
  training_steps (observe_all fit exs l) = training_steps l ∧
  buffer (observe_all fit exs l) = buffer l ++ exs ∧
  _params (clf (observe_all fit exs l)) = _params (clf l) ∧
  _item_index (clf (observe_all fit exs l))
    = _item_index (clf l) + Z.of_nat (length exs) ∧
  _iteration (clf (observe_all fit exs l)) = _iteration (clf l) ∧
  is_frozen (clf (observe_all fit exs l)) = false ∧
  _batch_size (clf (observe_all fit exs l)) = _batch_size (clf l).
Proof.
  revert l. induction exs as [|ex exs IH]; intros l Hfr Hlt.
  - simpl in *. rewrite app_nil_r, Z.add_0_r. done.
  - change (observe_all fit (ex :: exs) l)
      with (observe_all fit exs (observe fit ex l)).
    simpl length in Hlt.
    rewrite observe_below by (done || lia).
    edestruct (IH {| clf := set__item_index (_item_index (clf l) + 1) (clf l);
                     buffer := buffer l ++ [ex];
                     training_steps := training_steps l |})
      as (Ht & Hb & Hp & Hi & Hit & Hf & Hbs); [done|simpl; lia|].
    simpl in *. rewrite Ht, Hb, Hp, Hi, Hit, Hf, Hbs, <- app_assoc.
    split_and!; try done. lia.
Qed.

(** C8. A classifier that was just constructed with [batch_size = 10] and
    is not frozen has both counters at zero; each of the first nine
    [observe] calls runs no training step and leaves the weights as they
    were; the tenth runs exactly one training step, on the ten examples
    in order, empties the buffer and takes [_iteration] from 0 to 1. *)
Theorem observe_batch_of_ten (base : Classifier) (a : Args)
    (nn : NeuralNetwork) (exs : list Example) :
  __init__ base a = Return nn →
  arg_batch_size a = 10 →
  base_is_frozen base = false →
  length exs = 10%nat →
  _item_index nn = 0 ∧ _iteration nn = 0 ∧
  (∀ k, (k ≤ 9)%nat →
     training_steps (observe_all fit (take k exs) (new_learner nn)) = [] ∧
     _params (clf (observe_all fit (take k exs) (new_learner nn))) = _params nn ∧
     buffer (observe_all fit (take k exs) (new_learner nn)) = take k exs ∧
     _item_index (clf (observe_all fit (take k exs) (new_learner nn))) = Z.of_nat k ∧
     _iteration (clf (observe_all fit (take k exs) (new_learner nn))) = 0) ∧
  training_steps (observe_all fit exs (new_learner nn)) = [exs] ∧
  _params (clf (observe_all fit exs (new_learner nn)))
    = fit (clf (observe_all fit (take 9 exs) (new_learner nn))) exs ∧
  buffer (observe_all fit exs (new_learner nn)) = [] ∧
  _item_index (clf (observe_all fit exs (new_learner nn))) = 0 ∧
  _iteration (clf (observe_all fit exs (new_learner nn))) = 1.
Proof.
  intros Hinit Hbatch Hfrozen Hlen.
  destruct (init_fields _ _ _ Hinit) as (Hfr & _ & Hbs & _ & _ & Hidx & Hit).
  rewrite Hbatch in Hbs. rewrite Hfrozen in Hfr.
  assert (Hbelow : ∀ k, (k ≤ 9)%nat →
     training_steps (observe_all fit (take k exs) (new_learner nn)) = [] ∧
     buffer (observe_all fit (take k exs) (new_learner nn)) = take k exs ∧
     _params (clf (observe_all fit (take k exs) (new_learner nn))) = _params nn ∧
     _item_index (clf (observe_all fit (take k exs) (new_learner nn))) = Z.of_nat k ∧
     _iteration (clf (observe_all fit (take k exs) (new_learner nn))) = 0 ∧
     is_frozen (clf (observe_all fit (take k exs) (new_learner nn))) = false ∧
     _batch_size (clf (observe_all fit (take k exs) (new_learner nn))) = 10).
  { intros k Hk.
    destruct (observe_all_below (take k exs) (new_learner nn))
      as (Ht & Hb & Hp & Hi & Hn & Hf & Hs); simpl.
    - done.
    - rewrite length_take. lia.
    - simpl in *. rewrite Ht, Hb, Hp, Hi, Hn, Hf, Hs, length_take.
      split_and!; try done. lia. }
  destruct (Hbelow 9%nat) as (Ht & Hb & Hp & Hi & Hn & Hf & Hs); [lia|].
  assert (Hsplit : exs = take 9 exs ++ drop 9 exs) by (by rewrite take_drop).
  destruct (drop 9 exs) as [|ex [|? ?]] eqn:Hdrop;
    try (apply (f_equal length) in Hdrop; rewrite length_drop in Hdrop;
         simpl in Hdrop; lia).
  assert (Hten : observe_all fit exs (new_learner nn)
                 = observe fit ex (observe_all fit (take 9 exs) (new_learner nn))).
  { rewrite Hsplit at 1. unfold observe_all. by rewrite fold_left_app. }
  split_and!; try done.
  - intros k Hk. destruct (Hbelow k Hk) as (? & ? & ? & ? & ? & _). done.
  - rewrite Hten, observe_at_threshold by (done || lia).
    cbn [training_steps]. rewrite Ht, Hb. simpl app. by rewrite <- Hsplit.
  - rewrite Hten, observe_at_threshold by (done || lia).
    cbn [clf _params set__iteration set__item_index set__params].
    rewrite Hb. by rewrite <- Hsplit.
  - by rewrite Hten, observe_at_threshold by (done || lia).
  - by rewrite Hten, observe_at_threshold by (done || lia).
  - rewrite Hten, observe_at_threshold by (done || lia).
    cbn [clf _iteration set__iteration]. by rewrite Hn.
Qed.

End schedule_props.

(** *** Persistence *)

Lemma py_unzip2_items {V} (d : OrderedDict.t V) :
  d ≠ [] →
  py_unzip2 (OrderedDict.items d)
  = Return (OrderedDict.keys d, OrderedDict.values d).
Proof. by destruct d. Qed.

Section persistence_props.
Variable faults : Faults.
Variable init_model : Py State unit.

Ltac run_init_model Hspec s2 Hinit :=
  match goal with
  | |- context [init_model ?s1] =>
      let Hframe := fresh "Hframe" in
      let Hmodel := fresh "Hmodel" in
      destruct (init_returns _ Hspec s1) as [s2 Hinit];
      pose proof (init_frame _ Hspec _ _ _ Hinit) as Hframe;
      pose proof (init_sets_model _ Hspec _ _ Hinit) as Hmodel;
      unfold assigned in Hframe;
      cbn [self world files stdout set_files filename model_type labels
           is_frozen _input_params _layers _layer_dim set_labels
           set_is_frozen set__input_params set__layers set__layer_dim]
        in Hframe;
      destruct Hframe as (Hfn & Hmt & Hlb & Hfz & Hip & Hly & Hld & Hfs);
      destruct Hmodel as [m Hm];
      rewrite Hinit
  end.

(** [save] up to the call of [init_model]: the keys and values are those
    of the store on entry, and the metadata document is on disk when
    [init_model] starts. *)
Lemma save_until_init_model (s : State) :
  _params (self s) ≠ [] →
  write_fault faults (filename (self s)) = None →
  save faults init_model s =
    PyMonad.bind init_model (fun _ =>
      save_weights faults (OrderedDict.values (_params (self s))))
      (set_files (<[filename (self s) := MetadataFile (metadata_of (self s))]>
                    (files (world s))) s).
Proof.
  intros Hne Hwf.
  unfold save, PyMonad.bind at 1, PyMonad.get at 1.
  unfold PyMonad.bind at 1, PyMonad.lift. rewrite py_unzip2_items by done.
  unfold PyMonad.bind at 1, save_dict at 1. rewrite Hwf.
  reflexivity.
Qed.

Lemma save_returns (s : State) :
  InitModelSpec init_model →
  _params (self s) ≠ [] →
  write_fault faults (filename (self s)) = None →
  write_fault faults (String.append (filename (self s)) ".model") = None →
  ∃ s', save faults init_model s = (Return tt, s') ∧
        files (world s') =
          <[String.append (filename (self s)) ".model" :=
              WeightsFile (OrderedDict.values (_params (self s)))]>
            (<[filename (self s) := MetadataFile (metadata_of (self s))]>
               (files (world s))).
Proof.
  intros Hspec Hne Hwf Hwm.
  rewrite save_until_init_model by done.
  unfold PyMonad.bind at 1.
  run_init_model Hspec s2 Hinit.
  unfold save_weights, PyMonad.bind, PyMonad.get, print, PyMonad.modify,
    PyMonad.try_except, self_model, model_save.
  cbn [self world files stdout]. rewrite Hm, Hfn, Hwm.
  eexists. split; [reflexivity|]. cbn. by rewrite Hfs.
Qed.

Lemma load_until_init_model (s : State) (d : Metadata) :
  read_fault faults (filename (self s)) = None →
  files (world s) !! filename (self s) = Some (MetadataFile d) →
  d_type d = Some (model_type (self s)) →
  load faults init_model s =
    PyMonad.bind init_model (fun _ => load_weights faults (d_param_keys d))
      (assigned d s).
Proof.
  intros Hrf Hfile Hty.
  unfold load, PyMonad.bind at 1, PyMonad.get at 1.
  unfold PyMonad.bind at 1, load_dict at 1. rewrite Hrf, Hfile.
  unfold PyMonad.bind at 1, PyMonad.assert.
  rewrite bool_decide_eq_true_2 by done.
  reflexivity.
Qed.

Lemma load_returns (s : State) (d : Metadata) (values : list Tensor) :
  InitModelSpec init_model →
  read_fault faults (filename (self s)) = None →
  files (world s) !! filename (self s) = Some (MetadataFile d) →
  d_type d = Some (model_type (self s)) →
  read_fault faults (String.append (filename (self s)) ".model") = None →
  files (world s) !! String.append (filename (self s)) ".model"
    = Some (WeightsFile values) →
  ∃ s', load faults init_model s = (Return tt, s') ∧
        labels (self s') = d_labels d ∧
        is_frozen (self s') = d_is_frozen d ∧
        _input_params (self s') = d_input_params d ∧
        _layers (self s') = d_layers d ∧
        _layer_dim (self s') = d_layer_dim d ∧
        _params (self s')
          = OrderedDict.of_pairs (py_zip (d_param_keys d) values).
Proof.
  intros Hspec Hrf Hfile Hty Hrm Hweights.
  rewrite (load_until_init_model s d) by done.
  unfold PyMonad.bind at 1.
  run_init_model Hspec s2 Hinit.
  unfold load_weights, PyMonad.bind, PyMonad.get, print, PyMonad.modify,
    PyMonad.try_except, self_model, model_load, PyMonad.ret, modify_self.
  cbn [self world files stdout]. rewrite Hm, Hfn.
  cbn [filename set__layer_dim set__layers set__input_params set_is_frozen
       set_labels assigned self].
  rewrite Hrm. cbn [self world files stdout]. rewrite Hfs, Hweights.
  eexists. split; [reflexivity|]. cbn [self set__params labels is_frozen
    _input_params _layers _layer_dim _params].
  rewrite Hlb, Hfz, Hip, Hly, Hld. done.
Qed.

Lemma load_weights_fault (s : State) (d : Metadata) (e : Exn) :
  InitModelSpec init_model →
  read_fault faults (filename (self s)) = None →
  files (world s) !! filename (self s) = Some (MetadataFile d) →
  d_type d = Some (model_type (self s)) →
  read_fault faults (String.append (filename (self s)) ".model") = Some e →
  ∃ s1 s',
    init_model (assigned d s) = (Return tt, s1) ∧
    load faults init_model s
    = (Raise (if is_KeyError e then UnboundLocalError "param_values" else e), s') ∧
    self s' = self s1 ∧
    last (stdout (world s')) =
      Some (if is_KeyError e then FailedLoadingModel e
            else LoadingModelFrom (String.append (filename (self s)) ".model")).
Proof.
  intros Hspec Hrf Hfile Hty Hrm.
  rewrite (load_until_init_model s d) by done.
  unfold PyMonad.bind at 1.
  run_init_model Hspec s2 Hinit.
  unfold load_weights, PyMonad.bind, PyMonad.get, print, PyMonad.modify,
    PyMonad.try_except, self_model, model_load, PyMonad.ret, modify_self,
    PyMonad.raise.
  cbn [self world files stdout]. rewrite Hm, Hfn.
  cbn [filename set__layer_dim set__layers set__input_params set_is_frozen
       set_labels assigned self].
  rewrite Hrm.
  exists s2.
  destruct (is_KeyError e) eqn:He.
  - eexists. split_and!; [done|reflexivity|done|].
    cbn [world stdout]. by rewrite last_snoc.
  - eexists. split_and!; [done|reflexivity|done|].
    cbn [world stdout]. by rewrite last_snoc.
Qed.

(** C1. Round trip.  For a classifier whose store holds parameters, with
    an [init_model] that meets [InitModelSpec] and a file system that
    serves both paths, [save] returns, and [load] on the written
    artifacts, into any object of the same file name and model type,
    returns with the same labels, the same [is_frozen], the same keys in
    the same order and the same values. *)
Theorem save_load_roundtrip (s : State) (target : NeuralNetwork) :
  InitModelSpec init_model →
  OrderedDict.wf (_params (self s)) →
  _params (self s) ≠ [] →
  write_fault faults (filename (self s)) = None →
  write_fault faults (String.append (filename (self s)) ".model") = None →
  read_fault faults (filename (self s)) = None →
  read_fault faults (String.append (filename (self s)) ".model") = None →
  filename target = filename (self s) →
  model_type target = model_type (self s) →
  ∃ s1 s2,
    save faults init_model s = (Return tt, s1) ∧
    load faults init_model {| self := target; world := world s1 |}
      = (Return tt, s2) ∧
    labels (self s2) = labels (self s) ∧
    is_frozen (self s2) = is_frozen (self s) ∧
    OrderedDict.keys (_params (self s2)) = OrderedDict.keys (_params (self s)) ∧
    OrderedDict.values (_params (self s2))
      = OrderedDict.values (_params (self s)).
Proof.
  intros Hspec Hwf Hne Hw Hwm Hr Hrm Hfn Hmt.
  destruct (save_returns s Hspec Hne Hw Hwm) as (s1 & Hsave & Hfiles).
  pose proof (model_filename_ne (filename (self s))) as Hdiff.
  destruct (load_returns {| self := target; world := world s1 |}
              (metadata_of (self s))
              (OrderedDict.values (_params (self s))) Hspec)
    as (s2 & Hload & Hlb & Hfz & _ & _ & _ & Hp); cbn [self world].
  - by rewrite Hfn.
  - rewrite Hfn, Hfiles. rewrite lookup_insert_ne by done.
    by rewrite lookup_insert_eq.
  - by rewrite Hmt.
  - by rewrite Hfn.
  - rewrite Hfn, Hfiles. by rewrite lookup_insert_eq.
  - exists s1, s2. split_and!; try done.
    + rewrite Hp. cbn [metadata_of d_param_keys].
      unfold OrderedDict.keys, OrderedDict.values.
      rewrite py_zip_fst_snd. by rewrite of_pairs_items.
    + rewrite Hp. cbn [metadata_of d_param_keys].
      unfold OrderedDict.keys, OrderedDict.values.
      rewrite py_zip_fst_snd. by rewrite of_pairs_items.
Qed.

(** C2, as the code has it.  [load] compares no counts: when the weights
    artifact holds a number of tensors other than the number of keys in
    the metadata, and the rest of [load] goes through, [load] returns and
    the store pairs keys and tensors by position up to the shorter of the
    two, dropping what is left of the longer. *)
Theorem load_pairs_up_to_shorter (s : State) (d : Metadata)
    (values : list Tensor) :
  InitModelSpec init_model →
  read_fault faults (filename (self s)) = None →
  files (world s) !! filename (self s) = Some (MetadataFile d) →
  d_type d = Some (model_type (self s)) →
  read_fault faults (String.append (filename (self s)) ".model") = None →
  files (world s) !! String.append (filename (self s)) ".model"
    = Some (WeightsFile values) →
  NoDup (d_param_keys d) →
  length values ≠ length (d_param_keys d) →
  ∃ s', load faults init_model s = (Return tt, s') ∧
        _params (self s') = py_zip (d_param_keys d) values ∧
        OrderedDict.keys (_params (self s'))
          = take (length values) (d_param_keys d) ∧
        OrderedDict.values (_params (self s'))
          = take (length (d_param_keys d)) values ∧
        length (_params (self s'))
          = Nat.min (length (d_param_keys d)) (length values).
Proof.
  intros Hspec Hr Hfile Hty Hrm Hweights Hnd _.
  destruct (load_returns s d values Hspec Hr Hfile Hty Hrm Hweights)
    as (s' & Hload & _ & _ & _ & _ & _ & Hp).
  rewrite of_pairs_zip in Hp by done.
  exists s'. rewrite Hp. unfold OrderedDict.keys, OrderedDict.values.
  by rewrite py_zip_fst, py_zip_snd, py_zip_length.
Qed.

(** C3, as the code has it.  When the metadata was written and the write
    of the weights artifact fails: a [ValueError] is printed and [save]
    returns normally, any other exception leaves [save]; either way the
    metadata document stays on disk and the weights are not written. *)
Theorem save_weights_write_failure (s : State) (e : Exn) :
  InitModelSpec init_model →
  _params (self s) ≠ [] →
  write_fault faults (filename (self s)) = None →
  write_fault faults (String.append (filename (self s)) ".model") = Some e →
  ∃ s', save faults init_model s
        = (if is_ValueError e then Return tt else Raise e, s') ∧
        files (world s') =
          <[filename (self s) := MetadataFile (metadata_of (self s))]>
            (files (world s)) ∧
        last (stdout (world s')) =
          Some (if is_ValueError e then FailedSavingModel e
                else SavingModelTo (String.append (filename (self s)) ".model")).
Proof.
  intros Hspec Hne Hwf Hwm.
  rewrite save_until_init_model by done.
  unfold PyMonad.bind at 1.
  run_init_model Hspec s2 Hinit.
  unfold save_weights, PyMonad.bind, PyMonad.get, print, PyMonad.modify,
    PyMonad.try_except, self_model, model_save.
  cbn [self world files stdout]. rewrite Hm, Hfn, Hwm.
  destruct (is_ValueError e) eqn:He.
  - eexists. split; [reflexivity|]. cbn [self world files stdout].
    split; [done|]. by rewrite last_snoc.
  - eexists. split; [reflexivity|]. cbn [self world files stdout].
    split; [done|]. by rewrite last_snoc.
Qed.

(** C4, as the code has it.  For a classifier whose store holds
    parameters, [save] takes the keys and values from the store as it is
    on entry and writes the metadata document first; [init_model] runs
    after that, on a state whose disk already has the document, and only
    the write of the weights follows it.  With an [init_model] that meets
    [InitModelSpec], [save] returns and the two artifacts hold the keys
    and the values of entry. *)
Theorem save_writes_metadata_then_init_model (s : State) :
  _params (self s) ≠ [] →
  write_fault faults (filename (self s)) = None →
  save faults init_model s =
    PyMonad.bind init_model (fun _ =>
      save_weights faults (OrderedDict.values (_params (self s))))
      (set_files (<[filename (self s) := MetadataFile (metadata_of (self s))]>
                    (files (world s))) s) ∧
  (InitModelSpec init_model →
   write_fault faults (String.append (filename (self s)) ".model") = None →
   ∃ s', save faults init_model s = (Return tt, s') ∧
         files (world s') !! filename (self s)
           = Some (MetadataFile (metadata_of (self s))) ∧
         files (world s') !! String.append (filename (self s)) ".model"
           = Some (WeightsFile (OrderedDict.values (_params (self s))))).
Proof.
  intros Hne Hw. split; [by apply save_until_init_model|].
  intros Hspec Hwm.
  destruct (save_returns s Hspec Hne Hw Hwm) as (s' & Hsave & Hfiles).
  exists s'. rewrite Hfiles. split_and!; [done| |].
  - rewrite lookup_insert_ne by apply model_filename_ne.
    by rewrite lookup_insert_eq.
  - by rewrite lookup_insert_eq.
Qed.

(** C9. [load] is not atomic.  When the metadata was read and the read of
    the weights artifact raises, [load] fails: a [KeyError] is printed and
    dropped, after which the unbound [param_values] raises
    [UnboundLocalError]; any other exception leaves [load] as it is.  By
    then the labels, [is_frozen], [_input_params], [_layers] and
    [_layer_dim] are those of the metadata, while [_params], which
    [init_model] keeps, is what it was before the call. *)
Theorem load_not_atomic (s : State) (d : Metadata) (e : Exn) :
  InitModelSpec init_model →
  KeepsMaterialized init_model →
  _params (self s) ≠ [] →
  read_fault faults (filename (self s)) = None →
  files (world s) !! filename (self s) = Some (MetadataFile d) →
  d_type d = Some (model_type (self s)) →
  read_fault faults (String.append (filename (self s)) ".model") = Some e →
  ∃ s', load faults init_model s
        = (Raise (if is_KeyError e then UnboundLocalError "param_values" else e),
           s') ∧
        labels (self s') = d_labels d ∧
        is_frozen (self s') = d_is_frozen d ∧
        _input_params (self s') = d_input_params d ∧
        _layers (self s') = d_layers d ∧
        _layer_dim (self s') = d_layer_dim d ∧
        _params (self s') = _params (self s) ∧
        last (stdout (world s')) =
          Some (if is_KeyError e then FailedLoadingModel e
                else LoadingModelFrom
                       (String.append (filename (self s)) ".model")).
Proof.
  intros Hspec Hkeep Hne Hr Hfile Hty Hrm.
  destruct (load_weights_fault s d e Hspec Hr Hfile Hty Hrm)
    as (s1 & s' & Hinit & Hload & Hself & Hout).
  pose proof (init_frame _ Hspec _ _ _ Hinit)
    as (_ & _ & Hlb & Hfz & Hip & Hly & Hld & _).
  pose proof (Hkeep _ _ _ Hinit Hne) as Hp.
  exists s'. rewrite Hself. split_and!; done.
Qed.

End persistence_props.

(** *** The lazily initializing [init_model] *)

Lemma lazy_init_model_spec (fresh : NeuralNetwork -> OrderedDict.t Tensor) :
  InitModelSpec (lazy_init_model fresh).
Proof.
  split.
  - intros s. eexists. reflexivity.
  - intros s r s' [= <- <-]. cbn [self world].
    destruct (model (self s)); cbn;
      match goal with |- context [match ?p with [] => _ | _ :: _ => _ end] =>
        destruct p end; done.
  - intros s s' [= <-]. cbn [self world].
    destruct (model (self s)) eqn:Hm; cbn;
      match goal with |- context [match ?p with [] => _ | _ :: _ => _ end] =>
        destruct p end; cbn; rewrite ?Hm; done.
Qed.

Lemma lazy_init_model_keeps (fresh : NeuralNetwork -> OrderedDict.t Tensor) :
  KeepsMaterialized (lazy_init_model fresh).
Proof.
  intros s r s' [= <- <-] Hne. cbn [self world].
  destruct (model (self s)); cbn; destruct (_params (self s)) eqn:Hp;
    cbn; congruence.
Qed.

(** *** Model type check on load *)

Section load_type.
Variable faults : Faults.
Variable init_model : Py State unit.

(** C6. When the metadata document's [type] is not the classifier's
    [model_type], [load] fails with ModelTypeMismatch whatever the weights
    artifact holds and whatever [init_model] would do; the object and the
    world are as before the call, so nothing was read from the weights
    artifact and nothing applied. *)
Theorem load_type_mismatch (s : State) (d : Metadata) :
  read_fault faults (filename (self s)) = None →
  files (world s) !! filename (self s) = Some (MetadataFile d) →
  d_type d ≠ Some (model_type (self s)) →
  load faults init_model s = (Raise (ModelTypeMismatch (d_type d)), s).
Proof.
  intros Hrf Hfile Hty.
  unfold load, PyMonad.bind, PyMonad.get, load_dict at 1.
  rewrite Hrf, Hfile. unfold PyMonad.assert.
  by rewrite bool_decide_eq_false_2.
Qed.

End load_type.

End classifier_props.

(** ** The properties at the concrete classifier *)

Section at_sample.
Import neural_network sample.

Lemma sample_constructed (params : OrderedDict.t (list Z)) :
  __init__ base (args (Some params)) = Return (constructed params).
Proof. reflexivity. Qed.

Lemma sample_constructed_unmaterialized :
  __init__ base (args None) = Return nn_unmaterialized.
Proof. reflexivity. Qed.

Lemma sample_wf : OrderedDict.wf (_params nn).
Proof. apply (bool_decide_unpack _). vm_compute. exact I. Defined.

(** The round trip at [nn], loaded into the object that was saved from. *)
Lemma save_load_roundtrip_witness :
  ∃ s1 s2,
    save no_faults (lazy_init_model fresh) start = (Return tt, s1) ∧
    load no_faults (lazy_init_model fresh) {| self := nn; world := world s1 |}
      = (Return tt, s2) ∧
    labels (self s2) = ["shift"; "reduce"] ∧
    is_frozen (self s2) = false ∧
    OrderedDict.keys (_params (self s2)) = ["W1"; "b1"; "Wout"] ∧
    OrderedDict.values (_params (self s2)) = [[1; 2]; [3]; [4; 5]].
Proof.
  apply (save_load_roundtrip no_faults (lazy_init_model fresh) start nn).
  - apply lazy_init_model_spec.
  - exact sample_wf.
  - discriminate.
  - reflexivity.
  - reflexivity.
  - reflexivity.
  - reflexivity.
  - reflexivity.
  - reflexivity.
Defined.

(** C2 fails on the code: with three keys in the metadata and two tensors
    in the weights artifact, [load] returns, and the store holds the first
    two keys only. *)
Lemma load_corrupt_returns :
  length [[1; 2]; [3]] ≠ length (d_param_keys (metadata_of nn)) ∧
  (load no_faults (lazy_init_model fresh)
     {| self := nn; world := corrupt_world |}).1 = Return tt ∧
  _params (self (load no_faults (lazy_init_model fresh)
                   {| self := nn; world := corrupt_world |}).2)
    = [("W1", [1; 2]); ("b1", [3])].
Proof. split; [discriminate|]. split; vm_compute; reflexivity. Qed.

Lemma load_pairs_up_to_shorter_witness :
  ∃ s', load no_faults (lazy_init_model fresh)
          {| self := nn; world := corrupt_world |} = (Return tt, s') ∧
        _params (self s') = [("W1", [1; 2]); ("b1", [3])] ∧
        OrderedDict.keys (_params (self s')) = ["W1"; "b1"] ∧
        OrderedDict.values (_params (self s')) = [[1; 2]; [3]] ∧
        length (_params (self s')) = 2%nat.
Proof.
  apply (load_pairs_up_to_shorter no_faults (lazy_init_model fresh)
           {| self := nn; world := corrupt_world |} (metadata_of nn)
           [[1; 2]; [3]]).
  - apply lazy_init_model_spec.
  - reflexivity.
  - reflexivity.
  - reflexivity.
  - reflexivity.
  - reflexivity.
  - exact sample_wf.
  - discriminate.
Defined.

(** C3 fails on the code: the write of the weights raises [ValueError],
    and [save] returns normally; the failure is on [stdout] only, the
    metadata document is on disk and the weights artifact is not. *)
Lemma save_swallows_ValueError :
  (save (weights_fault (ValueError "disk full")) (lazy_init_model fresh)
     start).1 = Return tt ∧
  files (world (save (weights_fault (ValueError "disk full"))
                  (lazy_init_model fresh) start).2) !! "ucca.nn"
    = Some (MetadataFile (metadata_of nn)) ∧
  files (world (save (weights_fault (ValueError "disk full"))
                  (lazy_init_model fresh) start).2) !! "ucca.nn.model"
    = None ∧
  stdout (world (save (weights_fault (ValueError "disk full"))
                   (lazy_init_model fresh) start).2)
    = [SavingModelTo "ucca.nn.model";
       FailedSavingModel (ValueError "disk full")].
Proof. split_and!; vm_compute; reflexivity. Qed.

(** An [OSError] from the same write leaves [save]. *)
Lemma save_weights_write_failure_witness :
  ∃ s', save (weights_fault (OSError "disk full")) (lazy_init_model fresh) start
        = (Raise (OSError "disk full"), s') ∧
        files (world s') =
          <["ucca.nn" := MetadataFile (metadata_of nn)]> ∅ ∧
        last (stdout (world s')) = Some (SavingModelTo "ucca.nn.model").
Proof.
  apply (save_weights_write_failure (weights_fault (OSError "disk full"))
           (lazy_init_model fresh) start (OSError "disk full")).
  - apply lazy_init_model_spec.
  - discriminate.
  - reflexivity.
  - reflexivity.
Defined.

(** C4 fails on the code: on a classifier without parameters [save]
    raises [ValueError] before anything is written, although its
    [init_model] would materialize the store; and with the class's own
    [init_model], which raises, the metadata document of a classifier
    with parameters is on disk when the exception leaves [save]. *)
Lemma save_materializes_late :
  save no_faults (lazy_init_model fresh) start_unmaterialized
    = (Raise (ValueError "not enough values to unpack (expected 2, got 0)"),
       start_unmaterialized) ∧
  (save no_faults NeuralNetwork_init_model start).1
    = Raise NotImplementedError ∧
  files (world (save no_faults NeuralNetwork_init_model start).2) !! "ucca.nn"
    = Some (MetadataFile (metadata_of nn)).
Proof. split_and!; vm_compute; reflexivity. Qed.

Lemma save_writes_metadata_then_init_model_witness :
  save no_faults (lazy_init_model fresh) start =
    PyMonad.bind (lazy_init_model fresh) (fun _ =>
      save_weights no_faults [[1; 2]; [3]; [4; 5]])
      (set_files (<["ucca.nn" := MetadataFile (metadata_of nn)]> ∅) start) ∧
  ∃ s', save no_faults (lazy_init_model fresh) start = (Return tt, s') ∧
        files (world s') !! "ucca.nn" = Some (MetadataFile (metadata_of nn)) ∧
        files (world s') !! "ucca.nn.model"
          = Some (WeightsFile [[1; 2]; [3]; [4; 5]]).
Proof.
  destruct (save_writes_metadata_then_init_model no_faults
              (lazy_init_model fresh) start) as [Horder Hreturns].
  - discriminate.
  - reflexivity.
  - split; [exact Horder|].
    apply Hreturns; [apply lazy_init_model_spec|reflexivity].
Defined.

(** The bound does not hold at all times: the constructor returns an
    object with four labels for a capacity of three; [resize] on it
    fails; and [add_label], which compares the two numbers for equality,
    appends a fifth label. *)
Lemma labels_over_capacity :
  ∃ nn4,
    __init__ base_four_labels (args None) = Return nn4 ∧
    ¬ (num_labels nn4 <= max_num_labels nn4) ∧
    resize {| self := nn4; world := empty_world |}
      = (Raise CapacityExceeded, {| self := nn4; world := empty_world |}) ∧
    ∃ s', add_label "unary" {| self := nn4; world := empty_world |}
            = (Return 4, s') ∧
          num_labels (self s') = 5 ∧
          max_num_labels (self s') = 3.
Proof.
  eexists. split; [reflexivity|]. split; [|split].
  - vm_compute. intros H. by apply H.
  - reflexivity.
  - eexists. split; [reflexivity|]. split; reflexivity.
Qed.

(** The scenario of the label capacity: with room for three labels and
    "shift" and "reduce" in place, "finish" gets index 2 and a fourth
    label is refused. *)
Lemma add_label_capacity_witness :
  num_labels (self start) <= max_num_labels (self start) ∧
  ∃ s', add_label "finish" start = (Return 2, s') ∧
        labels (self s') = ["shift"; "reduce"; "finish"] ∧
        ∀ name, add_label name s' = (Raise CapacityExceeded, s').
Proof.
  assert (H : num_labels (self start) <= max_num_labels (self start))
    by (vm_compute; discriminate).
  split; [exact H|].
  destruct (add_label_capacity start) as (_ & _ & Hwithin).
  destruct (Hwithin H) as (_ & _ & Hlast & _).
  destruct (Hlast eq_refl "finish") as (s' & Hadd & Hlabels & _ & Hfull).
  exists s'. split_and!; done.
Defined.

Lemma load_type_mismatch_witness :
  load no_faults (lazy_init_model fresh)
    {| self := nn; world := other_type_world |}
  = (Raise (ModelTypeMismatch (Some "sparse")),
     {| self := nn; world := other_type_world |}).
Proof.
  apply (load_type_mismatch no_faults (lazy_init_model fresh)
           {| self := nn; world := other_type_world |}
           {| d_type := Some "sparse"; d_labels := ["shift"];
              d_is_frozen := true; d_input_params := Some schema;
              d_param_keys := ["W1"; "b1"; "Wout"];
              d_layers := 2; d_layer_dim := 50 |}).
  - reflexivity.
  - reflexivity.
  - discriminate.
Defined.

(** The scenario of the input width: [50*4 + 20*4 = 280]. *)
Lemma input_dim_sum_witness :
  _input_params nn = Some schema ∧ input_dim nn = Return 280.
Proof.
  split; [reflexivity|].
  apply (input_dim_sum nn schema). reflexivity.
Defined.

(** The scenario of the training schedule. *)
Lemma observe_batch_of_ten_witness :
  training_steps (observe_all fit (take 9 examples) (new_learner nn)) = [] ∧
  _params (clf (observe_all fit (take 9 examples) (new_learner nn)))
    = stored_params ∧
  training_steps (observe_all fit examples (new_learner nn)) = [examples] ∧
  buffer (observe_all fit examples (new_learner nn)) = [] ∧
  _iteration (clf (observe_all fit examples (new_learner nn))) = 1.
Proof.
  destruct (observe_batch_of_ten fit base (args (Some stored_params)) nn
              examples (sample_constructed stored_params) eq_refl eq_refl eq_refl)
    as (_ & _ & Hbelow & Hsteps & _ & Hbuf & _ & Hiter).
  destruct (Hbelow 9%nat (le_n 9)) as (Hnone & Hsame & _).
  split_and!; done.
Defined.

(** A failed read of the weights after newer metadata was read: the
    object has the newer labels and architecture and the older weights. *)
Lemma load_not_atomic_witness :
  ∃ s', load (weights_fault (KeyError "W1")) (lazy_init_model fresh)
          {| self := nn; world := newer_world |}
        = (Raise (UnboundLocalError "param_values"), s') ∧
        labels (self s') = ["shift"; "reduce"; "finish"] ∧
        is_frozen (self s') = true ∧
        _input_params (self s') = None ∧
        _layers (self s') = 2 ∧
        _layer_dim (self s') = 50 ∧
        _params (self s') = stored_params ∧
        last (stdout (world s')) = Some (FailedLoadingModel (KeyError "W1")).
Proof.
  apply (load_not_atomic (weights_fault (KeyError "W1")) (lazy_init_model fresh)
           {| self := nn; world := newer_world |} newer_metadata
           (KeyError "W1")).
  - apply lazy_init_model_spec.
  - apply lazy_init_model_keeps.
  - discriminate.
  - reflexivity.
  - reflexivity.
  - reflexivity.
  - reflexivity.
Defined.

End at_sample.

Section at_passage.
Import textutil.

(** Two paragraphs of two terminals each: the ends are 2 and 4. *)
Lemma break2paragraphs_last_or_fails_witness :
  ∃ ends t,
    break2paragraphs
      {| layer0_all :=
           [ {| position := 1; para_pos := 1; paragraph := 1; text := "a" |};
             {| position := 2; para_pos := 2; paragraph := 1; text := "." |};
             {| position := 3; para_pos := 1; paragraph := 2; text := "b" |};
             {| position := 4; para_pos := 2; paragraph := 2; text := "." |} ] |}
    = Return ends ∧
    last [ {| position := 1; para_pos := 1; paragraph := 1; text := "a" |};
           {| position := 2; para_pos := 2; paragraph := 1; text := "." |};
           {| position := 3; para_pos := 1; paragraph := 2; text := "b" |};
           {| position := 4; para_pos := 2; paragraph := 2; text := "." |} ]
      = Some t ∧
    last ends = Some (position t) ∧
    ends ≠ [].
Proof.
  apply (proj1 break2paragraphs_last_or_fails
           {| layer0_all :=
                [ {| position := 1; para_pos := 1; paragraph := 1; text := "a" |};
                  {| position := 2; para_pos := 2; paragraph := 1; text := "." |};
                  {| position := 3; para_pos := 1; paragraph := 2; text := "b" |};
                  {| position := 4; para_pos := 2; paragraph := 2; text := "." |} ] |}).
  discriminate.
Defined.

End at_passage.

(** ** Further properties of the classifier *)

Section constructor_props.
Import neural_network.
Context {Float Tensor : Type}.

Local Abbreviation NeuralNetwork := (@NeuralNetwork Float Tensor).
Local Abbreviation Args := (@Args Float Tensor).
Local Abbreviation State := (@State Float Tensor).

Lemma dict_getitem_cases {A} (table : list (string * A)) (key : string) :
  (key ∈ (table.*1) ∧ ∃ a, dict_getitem table key = Return a) ∨
  ((key ∉ table.*1) ∧ dict_getitem table key = Raise (KeyError key)).
Proof.
  induction table as [|[k a] table IH]; csimpl.
  - right. split; [apply not_elem_of_nil|done].
  - destruct (String.eqb_spec key k) as [->|Hne].
    + left. split; [left|by eexists].
    + destruct IH as [[Hin Hret]|[Hout Hraise]].
      * left. split; [by right|done].
      * right. split; [|done]. by apply not_elem_of_cons.
Qed.

Lemma choose_cases {A} (table : list (string * A)) (x : Choice A) :
  (resolvable table x ∧
   Forall (fun p => p.2 = true) (name_of table x) ∧
   ∃ a, choose table x = Return a) ∨
  (¬ resolvable table x ∧
   ∃ name, name_of table x = [(name, false)] ∧
           choose table x = Raise (KeyError name)).
Proof.
  destruct x as [name|a]; simpl.
  - destruct (dict_getitem_cases table name) as [[Hin Hret]|[Hout Hraise]].
    + left. rewrite bool_decide_eq_true_2 by done.
      split_and!; [done|by repeat constructor|done].
    + right. rewrite bool_decide_eq_false_2 by done. split; [done|by eexists].
  - left. split_and!; [done|constructor|by eexists].
Qed.

Ltac case_choice table x Hres Hall :=
  let v := fresh "v" in
  let n := fresh "n" in
  let Hc := fresh "Hc" in
  let Hn := fresh "Hn" in
  destruct (choose_cases table x)
    as [(Hres & Hall & v & Hc)|(Hres & n & Hn & Hc)];
  rewrite Hc; cbv beta iota.

(** X1. [__init__] returns exactly when [input_params] or [model] is given
    and each of the four selecting arguments is an object or a name that
    its table knows. *)
Theorem init_returns_iff (base : Classifier) (a : Args) :
  (∃ nn : NeuralNetwork, __init__ base a = Return nn) ↔
  (is_Some (arg_input_params a) ∨ is_Some (arg_model a)) ∧
  resolvable activation_table (arg_activation a) ∧
  resolvable init_table (arg_init a) ∧
  resolvable optimizer_table (arg_optimizer a) ∧
  resolvable loss_table (arg_loss a).
Proof.
  unfold __init__, res_bind.
  destruct (bool_decide (is_Some (arg_input_params a))
            || bool_decide (is_Some (arg_model a))) eqn:Hguard; cbn [negb].
  - assert (Hgiven : is_Some (arg_input_params a) ∨ is_Some (arg_model a)).
    { apply orb_true_iff in Hguard as [H|H]; apply bool_decide_eq_true in H; auto. }
    case_choice activation_table (arg_activation a) Ha Fa;
      [|split; [by intros [? [=]]|tauto]].
    case_choice init_table (arg_init a) Hi Fi;
      [|split; [by intros [? [=]]|tauto]].
    case_choice optimizer_table (arg_optimizer a) Ho Fo;
      [|split; [by intros [? [=]]|tauto]].
    case_choice loss_table (arg_loss a) Hl Fl;
      [|split; [by intros [? [=]]|tauto]].
    split; [done|]. intros _. by eexists.
  - split; [by intros [? [=]]|]. intros ([H|H] & _).
    + apply orb_false_iff in Hguard as [Hg _].
      by apply bool_decide_eq_false in Hg.
    + apply orb_false_iff in Hguard as [_ Hg].
      by apply bool_decide_eq_false in Hg.
Qed.

(** X2. When [__init__] raises, it is the assertion, with neither
    [input_params] nor [model] given, or a [KeyError] that carries the
    first of the names for activation, initializer, optimizer and loss, in
    this order, that its table does not know. *)
Theorem init_raises_which (base : Classifier) (a : Args) (e : Exn) :
  @__init__ Float Tensor base a = Raise e →
  (e = AssertionError "" ∧ arg_input_params a = None ∧ arg_model a = None) ∨
  (∃ name known rest,
     e = KeyError name ∧
     looked_up_names a = known ++ (name, false) :: rest ∧
     Forall (fun p => p.2 = true) known).
Proof.
  unfold __init__, res_bind, looked_up_names.
  destruct (bool_decide (is_Some (arg_input_params a))
            || bool_decide (is_Some (arg_model a))) eqn:Hguard; cbn [negb].
  - case_choice activation_table (arg_activation a) Ha Fa;
      [|intros [= <-]; right;
        exists n, [], (name_of init_table (arg_init a)
                         ++ name_of optimizer_table (arg_optimizer a)
                         ++ name_of loss_table (arg_loss a));
        rewrite Hn; by split_and!].
    case_choice init_table (arg_init a) Hi Fi;
      [|intros [= <-]; right;
        exists n, (name_of activation_table (arg_activation a)),
               (name_of optimizer_table (arg_optimizer a)
                  ++ name_of loss_table (arg_loss a));
        rewrite Hn; by split_and!].
    case_choice optimizer_table (arg_optimizer a) Ho Fo;
      [|intros [= <-]; right;
        exists n, (name_of activation_table (arg_activation a)
                     ++ name_of init_table (arg_init a)),
               (name_of loss_table (arg_loss a));
        rewrite Hn; split_and!;
        [done|by rewrite <- app_assoc|by apply Forall_app]].
    case_choice loss_table (arg_loss a) Hl Fl; [by intros [=]|].
    intros [= <-]; right.
    exists n, (name_of activation_table (arg_activation a)
                 ++ name_of init_table (arg_init a)
                 ++ name_of optimizer_table (arg_optimizer a)), [].
    rewrite Hn. split_and!;
      [done|by rewrite <- !app_assoc|by rewrite !Forall_app].
  - intros [= <-]. left. apply orb_false_iff in Hguard as [H1 H2].
    apply bool_decide_eq_false in H1, H2.
    split; [done|].
    split; [by destruct (arg_input_params a); [destruct H1|]
           |by destruct (arg_model a); [destruct H2|]].
Qed.

(** X3. A classifier may be constructed from a model alone, without a
    feature schema; on such an object [input_dim] and [__str__] raise
    [AttributeError], as [_input_params] is [None]. *)
Theorem input_dim_without_schema (base : Classifier) (a : Args)
    (nn : NeuralNetwork) :
  __init__ base a = Return nn →
  arg_input_params a = None →
  is_Some (arg_model a) ∧
  input_dim nn
    = Raise (AttributeError "'NoneType' object has no attribute 'values'") ∧
  __str__ nn
    = Raise (AttributeError "'NoneType' object has no attribute 'values'").
Proof.
  intros Hinit Hnone.
  assert (Hsome : is_Some (arg_model a)).
  { assert (Hex : ∃ nn' : NeuralNetwork, __init__ base a = Return nn')
      by by eexists.
    revert Hex. unfold __init__.
    rewrite Hnone.
    destruct (arg_model a); [by eexists|].
    simpl. by intros [? [=]]. }
  destruct (init_fields _ _ _ Hinit) as (_ & _ & _ & Hip & _).
  rewrite Hnone in Hip.
  assert (Hdim : input_dim nn
    = Raise (AttributeError "'NoneType' object has no attribute 'values'"))
    by (unfold input_dim; by rewrite Hip).
  split_and!; [done|done|]. unfold __str__, res_bind. by rewrite Hdim.
Qed.

Lemma schema_width_app (s1 s2 : OrderedDict.t FeatureInformation) :
  schema_width (s1 ++ s2) = schema_width s1 + schema_width s2.
Proof.
  induction s1 as [|[name f] s1 IH]; simpl; [done|]. rewrite IH. lia.
Qed.

Lemma schema_width_Permutation (s1 s2 : OrderedDict.t FeatureInformation) :
  s1 ≡ₚ s2 → schema_width s1 = schema_width s2.
Proof.
  induction 1 as [|[? ?] ? ? ? IH|[? ?] [? ?] ?|? ? ? ? IH1 ? IH2]; simpl;
    lia.
Qed.

Lemma input_dim_schema (nn : NeuralNetwork)
    (schema : OrderedDict.t FeatureInformation) :
  _input_params nn = Some schema → input_dim nn = Return (schema_width schema).
Proof.
  intros Hs. unfold input_dim. rewrite Hs. by rewrite py_sum_schema.
Qed.

(** X4. [input_dim] does not depend on the order of the schema's entries,
    and a schema that is the concatenation of two has the sum of their
    widths. *)
Theorem input_dim_order_and_concat (nn nn1 nn2 : NeuralNetwork)
    (s s1 s2 : OrderedDict.t FeatureInformation) :
  _input_params nn = Some s →
  _input_params nn1 = Some s1 →
  _input_params nn2 = Some s2 →
  (s ≡ₚ s1 → input_dim nn = input_dim nn1) ∧
  (s = s1 ++ s2 →
   ∃ w1 w2, input_dim nn1 = Return w1 ∧ input_dim nn2 = Return w2 ∧
            input_dim nn = Return (w1 + w2)).
Proof.
  intros H H1 H2.
  rewrite (input_dim_schema _ _ H), (input_dim_schema _ _ H1),
    (input_dim_schema _ _ H2).
  split.
  - intros Hp. by rewrite (schema_width_Permutation _ _ Hp).
  - intros ->. eexists _, _. split_and!; [done|done|].
    by rewrite schema_width_app.
Qed.

(** X5. [__init__] checks no capacity: it returns whatever the number of
    labels, and [resize] on the new object passes exactly when the labels
    are at most [max_num_labels]; otherwise it raises the assertion.
    [resize] changes nothing. *)
Theorem resize_after_init (base : Classifier) (a : Args) (nn : NeuralNetwork)
    (w : World) :
  __init__ base a = Return nn →
  resize {| self := nn; world := w |}
  = (if bool_decide (Z.of_nat (length (base_labels base)) <= arg_max_num_labels a)
     then Return tt else Raise CapacityExceeded,
     {| self := nn; world := w |}).
Proof.
  intros Hinit.
  destruct (init_fields _ _ _ Hinit) as (_ & Hlb & _ & _ & Hmax & _).
  unfold resize, PyMonad.bind, PyMonad.get, PyMonad.assert, num_labels.
  cbn [self]. rewrite Hlb, Hmax.
  destruct (Z.leb_spec (Z.of_nat (length (base_labels base)))
              (arg_max_num_labels a)).
  - by rewrite bool_decide_eq_true_2.
  - rewrite bool_decide_eq_false_2 by lia. done.
Qed.

End constructor_props.

(** ** Further properties of persistence *)

Section more_persistence_props.
Import neural_network.
Context {Float Tensor : Type}.

Local Abbreviation NeuralNetwork := (@NeuralNetwork Float Tensor).
Local Abbreviation State := (@State Float Tensor).

Variable faults : Faults.
Variable init_model : Py State unit.

(** The statements of [save] after [init_model], case by case. *)
Lemma save_weights_run (values : list Tensor) (s2 : State) (m : Model) :
  model (self s2) = Some m →
  save_weights faults values s2 =
    match write_fault faults (String.append (filename (self s2)) ".model") with
    | None =>
        (Return tt,
         {| self := self s2;
            world :=
              {| files := <[String.append (filename (self s2)) ".model"
                              := WeightsFile values]> (files (world s2));
                 stdout := stdout (world s2) ++
                   [SavingModelTo (String.append (filename (self s2)) ".model");
                    Done] |} |})
    | Some e =>
        (if is_ValueError e then Return tt else Raise e,
         {| self := self s2;
            world :=
              {| files := files (world s2);
                 stdout := stdout (world s2) ++
                   SavingModelTo (String.append (filename (self s2)) ".model")
                   :: (if is_ValueError e then [FailedSavingModel e] else []) |} |})
    end.
Proof.
  intros Hm.
  unfold save_weights, PyMonad.bind, PyMonad.get, print, PyMonad.modify,
    PyMonad.try_except, self_model, model_save, set_files.
  cbn [self world files stdout]. rewrite Hm.
  destruct (write_fault faults _) as [e|]; cbn [self world files stdout].
  - destruct (is_ValueError e); cbn [self world files stdout];
      by rewrite <- ?app_assoc.
  - by rewrite <- app_assoc.
Qed.

(** The statements of [load] after [init_model], when the weights are
    read. *)
Lemma load_weights_run (keys : list string) (values : list Tensor)
    (s2 : State) (m : Model) :
  model (self s2) = Some m →
  read_fault faults (String.append (filename (self s2)) ".model") = None →
  files (world s2) !! String.append (filename (self s2)) ".model"
    = Some (WeightsFile values) →
  load_weights faults keys s2 =
    (Return tt,
     {| self := set__params (OrderedDict.of_pairs (py_zip keys values)) (self s2);
        world :=
          {| files := files (world s2);
             stdout := stdout (world s2) ++
               [LoadingModelFrom (String.append (filename (self s2)) ".model");
                Done] |} |}).
Proof.
  intros Hm Hr Hfile.
  unfold load_weights, PyMonad.bind, PyMonad.get, print, PyMonad.modify,
    PyMonad.try_except, self_model, model_load, PyMonad.ret, modify_self.
  cbn [self world files stdout]. rewrite Hm, Hr.
  cbn [self world files stdout]. rewrite Hfile.
  cbn [self world files stdout]. by rewrite <- app_assoc.
Qed.

(** X6. [save] gives up before [init_model] is called, before anything
    is printed and with nothing written, when the store is empty (the
    unpacking raises [ValueError]) and when the metadata cannot be
    written (the exception leaves [save]). *)
Theorem save_aborts_early (s : State) :
  (_params (self s) = [] →
   save faults init_model s
   = (Raise (ValueError "not enough values to unpack (expected 2, got 0)"), s)) ∧
  (∀ e, _params (self s) ≠ [] →
        write_fault faults (filename (self s)) = Some e →
        save faults init_model s = (Raise e, s)).
Proof.
  split.
  - intros Hempty.
    unfold save, PyMonad.bind at 1, PyMonad.get at 1.
    unfold PyMonad.bind at 1, PyMonad.lift. by rewrite Hempty.
  - intros e Hne Hw.
    unfold save, PyMonad.bind at 1, PyMonad.get at 1.
    unfold PyMonad.bind at 1, PyMonad.lift. rewrite py_unzip2_items by done.
    unfold PyMonad.bind at 1, save_dict at 1. by rewrite Hw.
Qed.

(** X7. [load] gives up with the object and the world untouched when
    the metadata cannot be read: whatever [load_dict] raises leaves
    [load]. *)
Theorem load_aborts_early (s : State) (e : Exn) :
  (load_dict faults (filename (self s)) s).1 = Raise e →
  load faults init_model s = (Raise e, s).
Proof.
  unfold load, PyMonad.bind at 1, PyMonad.get at 1.
  unfold PyMonad.bind at 1, load_dict at 1 2.
  destruct (read_fault faults _); simpl; [by intros [= ->]|].
  destruct (files (world s) !! _) as [[d|vs]|]; simpl; by intros [= ->].
Qed.

(** X8. When [init_model] returns with [self.model] still unset, [save]
    raises [AttributeError] after the metadata document was written and
    "Saving model" printed; the handler for [ValueError] does not take
    it. *)
Theorem save_without_model (s s2 : State) :
  _params (self s) ≠ [] →
  write_fault faults (filename (self s)) = None →
  init_model (set_files (<[filename (self s) := MetadataFile (metadata_of (self s))]>
                           (files (world s))) s) = (Return tt, s2) →
  model (self s2) = None →
  ∃ s', save faults init_model s
        = (Raise (AttributeError "'NoneType' object has no attribute 'save'"),
           s') ∧
        self s' = self s2 ∧
        files (world s') = files (world s2) ∧
        stdout (world s') = stdout (world s2) ++
          [SavingModelTo (String.append (filename (self s2)) ".model")].
Proof.
  intros Hne Hw Hinit Hm.
  rewrite save_until_init_model by done.
  unfold PyMonad.bind at 1. rewrite Hinit.
  unfold save_weights, PyMonad.bind, PyMonad.get, print, PyMonad.modify,
    PyMonad.try_except, self_model.
  cbn [self world files stdout]. rewrite Hm.
  eexists. split; [reflexivity|]. done.
Qed.

(** X9. With an [init_model] that leaves the persisted attributes and
    the files as they are, [save] on a store that holds parameters leaves
    those attributes as they were, has the metadata document on disk
    afterwards, and touches no path other than the two of its artifacts:
    whether [init_model] returns or raises, whether [self.model] is set
    or not, and whatever becomes of the weights. *)
Theorem save_frame (s : State) :
  LeavesPersisted init_model →
  _params (self s) ≠ [] →
  write_fault faults (filename (self s)) = None →
  ∃ r s', save faults init_model s = (r, s') ∧
    filename (self s') = filename (self s) ∧
    model_type (self s') = model_type (self s) ∧
    labels (self s') = labels (self s) ∧
    is_frozen (self s') = is_frozen (self s) ∧
    _input_params (self s') = _input_params (self s) ∧
    _layers (self s') = _layers (self s) ∧
    _layer_dim (self s') = _layer_dim (self s) ∧
    files (world s') !! filename (self s)
      = Some (MetadataFile (metadata_of (self s))) ∧
    ∀ path, path ≠ filename (self s) →
            path ≠ String.append (filename (self s)) ".model" →
            files (world s') !! path = files (world s) !! path.
Proof.
  intros Hleaves Hne Hw.
  rewrite save_until_init_model by done.
  unfold PyMonad.bind at 1.
  destruct (init_model _) as [r s2] eqn:Hinit.
  apply Hleaves in Hinit.
  cbn [self world files set_files] in Hinit.
  destruct Hinit as (Hfn & Hmt & Hlb & Hfz & Hip & Hly & Hld & Hfs).
  pose proof (model_filename_ne (filename (self s))) as Hdiff.
  assert (Hafter : files (world s2) !! filename (self s)
                   = Some (MetadataFile (metadata_of (self s))))
    by (by rewrite Hfs, lookup_insert_eq).
  assert (Hrest : ∀ path, path ≠ filename (self s) →
                    files (world s2) !! path = files (world s) !! path)
    by (intros path H1; by rewrite Hfs, lookup_insert_ne).
  destruct r as [[]|e].
  - destruct (model (self s2)) as [m|] eqn:Hm.
    + rewrite (save_weights_run _ s2 m Hm), Hfn.
      destruct (write_fault faults (String.append (filename (self s)) ".model"))
        as [e|]; eexists _, _;
        (split; [reflexivity|]); cbn [self world files stdout];
        split_and!; try done;
        try (intros path H1 H2); rewrite ?lookup_insert_ne by done;
        try done; by apply Hrest.
    + unfold save_weights, PyMonad.bind, PyMonad.get, print, PyMonad.modify,
        PyMonad.try_except, self_model.
      cbn [self world files stdout]. rewrite Hm.
      eexists _, _. split; [reflexivity|]. cbn [self world files stdout].
      split_and!; try done. intros path H1 H2. by apply Hrest.
  - eexists _, _. split; [reflexivity|].
    split_and!; try done. intros path H1 H2. by apply Hrest.
Qed.

Hypothesis init_spec : InitModelSpec init_model.

Ltac init_model_step s2 Hinit :=
  match goal with
  | |- context [init_model ?s1] =>
      let Hframe := fresh "Hframe" in
      let Hmodel := fresh "Hmodel" in
      destruct (init_returns _ init_spec s1) as [s2 Hinit];
      pose proof (init_frame _ init_spec _ _ _ Hinit) as Hframe;
      pose proof (init_sets_model _ init_spec _ _ Hinit) as Hmodel;
      unfold assigned in Hframe;
      cbn [self world files stdout set_files filename model_type labels
           is_frozen _input_params _layers _layer_dim set_labels
           set_is_frozen set__input_params set__layers set__layer_dim]
        in Hframe;
      destruct Hframe as (Hfn & Hmt & Hlb & Hfz & Hip & Hly & Hld & Hfs);
      destruct Hmodel as [m Hm];
      rewrite Hinit
  end.

Lemma load_run (s : State) (d : Metadata) (values : list Tensor) :
  read_fault faults (filename (self s)) = None →
  files (world s) !! filename (self s) = Some (MetadataFile d) →
  d_type d = Some (model_type (self s)) →
  read_fault faults (String.append (filename (self s)) ".model") = None →
  files (world s) !! String.append (filename (self s)) ".model"
    = Some (WeightsFile values) →
  ∃ s2, init_model (assigned d s) = (Return tt, s2) ∧
        load faults init_model s =
          (Return tt,
           {| self := set__params
                        (OrderedDict.of_pairs (py_zip (d_param_keys d) values))
                        (self s2);
              world :=
                {| files := files (world s);
                   stdout := stdout (world s2) ++
                     [LoadingModelFrom (String.append (filename (self s)) ".model");
                      Done] |} |}).
Proof.
  intros Hr Hfile Hty Hrm Hweights.
  rewrite (load_until_init_model faults init_model s d) by done.
  unfold PyMonad.bind at 1.
  init_model_step s2 Hinit.
  exists s2. split; [done|].
  rewrite (load_weights_run _ values s2 m Hm); rewrite Hfn, ?Hfs; done.
Qed.

Lemma setitem_keys {V} (k : string) (v : V) (d : OrderedDict.t V) :
  OrderedDict.keys (OrderedDict.setitem k v d)
  = if bool_decide (k ∈ OrderedDict.keys d) then OrderedDict.keys d
    else OrderedDict.keys d ++ [k].
Proof.
  unfold OrderedDict.keys.
  induction d as [|[k' v'] d IH].
  - by rewrite bool_decide_eq_false_2 by apply not_elem_of_nil.
  - cbn [OrderedDict.setitem].
    destruct (String.eqb_spec k k') as [->|Hne].
    + rewrite bool_decide_eq_true_2 by (rewrite fmap_cons; left). done.
    + rewrite !fmap_cons, IH. cbn [fst].
      destruct (decide (k ∈ d.*1)) as [Hin|Hout].
      * rewrite !bool_decide_eq_true_2; [done|by right|done].
      * rewrite !bool_decide_eq_false_2; [done| |done].
        by apply not_elem_of_cons.
Qed.

Lemma setitem_wf {V} (k : string) (v : V) (d : OrderedDict.t V) :
  OrderedDict.wf d → OrderedDict.wf (OrderedDict.setitem k v d).
Proof.
  unfold OrderedDict.wf. intros Hwf. rewrite setitem_keys.
  case_bool_decide; [done|].
  apply NoDup_app. split_and!; [done| |apply NoDup_singleton].
  intros x Hx ->%list_elem_of_singleton. done.
Qed.

Lemma setitem_values_in {V} (k : string) (v : V) (d : OrderedDict.t V)
    (k' : string) (v' : V) :
  (k', v') ∈ OrderedDict.setitem k v d → (k', v') ∈ d ∨ (k', v') = (k, v).
Proof.
  induction d as [|[k0 v0] d IH]; simpl.
  - intros ->%list_elem_of_singleton. by right.
  - destruct (String.eqb_spec k k0) as [->|Hne].
    + intros [->|Hin]%elem_of_cons; [by right|left; by right].
    + intros [->|Hin]%elem_of_cons; [left; left|].
      destruct (IH Hin) as [?|?]; [left; by right|by right].
Qed.

Lemma setitem_length {V} (k : string) (v : V) (d : OrderedDict.t V) :
  (length (OrderedDict.setitem k v d) ≤ S (length d))%nat.
Proof.
  induction d as [|[k0 v0] d IH]; simpl; [lia|].
  destruct (String.eqb k k0); simpl; lia.
Qed.

(** A dict built from any pairs has distinct keys, holds pairs of the
    input only, and is no longer than the input. *)
Lemma of_pairs_sound {V} (pairs : list (string * V)) :
  OrderedDict.wf (OrderedDict.of_pairs pairs) ∧
  (∀ kv, kv ∈ OrderedDict.of_pairs pairs → kv ∈ pairs) ∧
  (length (OrderedDict.of_pairs pairs) ≤ length pairs)%nat.
Proof.
  unfold OrderedDict.of_pairs.
  assert (Hgen : ∀ acc : OrderedDict.t V,
    OrderedDict.wf acc →
    OrderedDict.wf
      (fold_left (fun d kv => OrderedDict.setitem kv.1 kv.2 d) pairs acc) ∧
    (∀ kv, kv ∈ fold_left (fun d kv => OrderedDict.setitem kv.1 kv.2 d) pairs acc
           → kv ∈ acc ∨ kv ∈ pairs) ∧
    (length (fold_left (fun d kv => OrderedDict.setitem kv.1 kv.2 d) pairs acc)
     ≤ length acc + length pairs)%nat).
  { induction pairs as [|[k v] pairs IH]; intros acc Hwf; simpl.
    - split_and!; [done|by left|lia].
    - destruct (IH (OrderedDict.setitem k v acc) (setitem_wf k v acc Hwf))
        as (Hw & Hin & Hlen).
      split_and!; [done| |].
      + intros [k' v'] Hkv. destruct (Hin _ Hkv) as [Hs|Hp].
        * destruct (setitem_values_in _ _ _ _ _ Hs) as [?|[= -> ->]];
            [by left|right; left].
        * right. by right.
      + pose proof (setitem_length k v acc). lia. }
  destruct (Hgen OrderedDict.empty) as (Hw & Hin & Hlen);
    [apply NoDup_nil_2|].
  split_and!; [done| |done].
  intros kv Hkv. destruct (Hin kv Hkv) as [Hnil|?]; [|done].
  by apply elem_of_nil in Hnil.
Qed.

Lemma py_zip_elem_of {A B} (a : list A) (b : list B) (x : A) (y : B) :
  (x, y) ∈ py_zip a b → x ∈ a ∧ y ∈ b.
Proof.
  revert b. induction a as [|x0 a IH]; intros [|y0 b]; simpl;
    try (by intros ?%elem_of_nil).
  intros [[= -> ->]|Hin]%elem_of_cons; [split; left|].
  destruct (IH _ Hin). split; by right.
Qed.

(** X10. Whatever keys the metadata lists, repeated ones included, the
    store after a [load] that returns has distinct keys; its entries pair
    a listed key with a tensor of the weights artifact, and they are at
    most as many as the keys and as the tensors. *)
Theorem load_store_wf (s : State) (d : Metadata) (values : list Tensor) :
  read_fault faults (filename (self s)) = None →
  files (world s) !! filename (self s) = Some (MetadataFile d) →
  d_type d = Some (model_type (self s)) →
  read_fault faults (String.append (filename (self s)) ".model") = None →
  files (world s) !! String.append (filename (self s)) ".model"
    = Some (WeightsFile values) →
  ∃ s', load faults init_model s = (Return tt, s') ∧
        OrderedDict.wf (_params (self s')) ∧
        (∀ k v, (k, v) ∈ _params (self s') → k ∈ d_param_keys d ∧ v ∈ values) ∧
        (length (_params (self s'))
         ≤ Nat.min (length (d_param_keys d)) (length values))%nat.
Proof.
  intros Hr Hfile Hty Hrm Hweights.
  destruct (load_run s d values Hr Hfile Hty Hrm Hweights) as (s2 & _ & ->).
  eexists. split; [reflexivity|].
  cbn [self _params set__params].
  destruct (of_pairs_sound (py_zip (d_param_keys d) values)) as (Hw & Hin & Hlen).
  split_and!; [done| |by rewrite py_zip_length in Hlen].
  intros k v Hkv. by apply py_zip_elem_of, Hin.
Qed.

(** X11. [input_dim] is computed from the schema the object holds at the
    time: after a [load] that returns it is the width of the schema in the
    metadata, whatever schema the object had before, and it raises when
    the metadata holds none. *)
Theorem input_dim_after_load (s : State) (d : Metadata) (values : list Tensor) :
  read_fault faults (filename (self s)) = None →
  files (world s) !! filename (self s) = Some (MetadataFile d) →
  d_type d = Some (model_type (self s)) →
  read_fault faults (String.append (filename (self s)) ".model") = None →
  files (world s) !! String.append (filename (self s)) ".model"
    = Some (WeightsFile values) →
  ∃ s', load faults init_model s = (Return tt, s') ∧
        input_dim (self s') =
          match d_input_params d with
          | Some schema => Return (schema_width schema)
          | None =>
              Raise (AttributeError "'NoneType' object has no attribute 'values'")
          end.
Proof.
  intros Hr Hfile Hty Hrm Hweights.
  destruct (load_run s d values Hr Hfile Hty Hrm Hweights) as (s2 & Hinit & ->).
  eexists. split; [reflexivity|].
  pose proof (init_frame _ init_spec _ _ _ Hinit)
    as (_ & _ & _ & _ & Hip & _).
  unfold input_dim. cbn [self _input_params set__params].
  rewrite Hip. unfold assigned.
  cbn [self _input_params set__layer_dim set__layers set__input_params].
  destruct (d_input_params d); [|done]. by rewrite py_sum_schema.
Qed.

Lemma save_run (s : State) :
  _params (self s) ≠ [] →
  write_fault faults (filename (self s)) = None →
  write_fault faults (String.append (filename (self s)) ".model") = None →
  ∃ s2,
    init_model (set_files (<[filename (self s) := MetadataFile (metadata_of (self s))]>
                             (files (world s))) s) = (Return tt, s2) ∧
    save faults init_model s =
      (Return tt,
       {| self := self s2;
          world :=
            {| files := <[String.append (filename (self s)) ".model"
                            := WeightsFile (OrderedDict.values (_params (self s)))]>
                          (<[filename (self s) := MetadataFile (metadata_of (self s))]>
                             (files (world s)));
               stdout := stdout (world s2) ++
                 [SavingModelTo (String.append (filename (self s)) ".model");
                  Done] |} |}).
Proof.
  intros Hne Hw Hwm.
  rewrite save_until_init_model by done.
  unfold PyMonad.bind at 1.
  init_model_step s2 Hinit.
  exists s2. split; [done|].
  rewrite (save_weights_run _ s2 m Hm), Hfn, Hwm, Hfs. done.
Qed.

(** X12. Saving twice is saving once: with an [init_model] that keeps a
    materialized store, a second [save] returns as well and leaves both
    artifacts, and every other file, as the first one left them. *)
Theorem save_twice (s : State) :
  KeepsMaterialized init_model →
  _params (self s) ≠ [] →
  write_fault faults (filename (self s)) = None →
  write_fault faults (String.append (filename (self s)) ".model") = None →
  ∃ s1 s2, save faults init_model s = (Return tt, s1) ∧
           save faults init_model s1 = (Return tt, s2) ∧
           files (world s2) = files (world s1).
Proof.
  intros Hkeep Hne Hw Hwm.
  destruct (save_run s Hne Hw Hwm) as (sa & Hinit & Hsave).
  pose proof (init_frame _ init_spec _ _ _ Hinit)
    as (Hfn & Hmt & Hlb & Hfz & Hip & Hly & Hld & _).
  pose proof (Hkeep _ _ _ Hinit Hne) as Hp.
  cbn [self set_files] in Hfn, Hmt, Hlb, Hfz, Hip, Hly, Hld, Hp.
  match type of Hsave with _ = (_, ?x) => set (s1 := x) in * end.
  destruct (save_run s1) as (sb & _ & Hsave2);
    [subst s1; cbn [self]; by rewrite ?Hp, ?Hfn..|].
  exists s1. eexists. split; [exact Hsave|].
  rewrite Hsave2. split; [reflexivity|]. subst s1. cbn [self world files].
  assert (Hmeta : metadata_of (self sa) = metadata_of (self s)).
  { unfold metadata_of. by rewrite Hmt, Hlb, Hfz, Hip, Hly, Hld, Hp. }
  rewrite Hmeta, Hp, Hfn.
  pose proof (model_filename_ne (filename (self s))) as Hdiff.
  apply map_eq. intros path.
  destruct (decide (path = String.append (filename (self s)) ".model")) as [->|H1].
  - by rewrite !lookup_insert_eq.
  - rewrite (lookup_insert_ne _ _ path) by done.
    destruct (decide (path = filename (self s))) as [->|H2].
    + rewrite lookup_insert_eq, lookup_insert_ne by done.
      by rewrite lookup_insert_eq.
    + by rewrite !lookup_insert_ne.
Qed.

(** X13. The round trip the other way: [load] followed by [save] writes
    back what was read.  For artifacts with as many tensors as keys, the
    keys distinct and at least one, [load] returns, [save] on the loaded
    object returns, and the files are what they were before. *)
Theorem load_then_save (s : State) (d : Metadata) (values : list Tensor) :
  read_fault faults (filename (self s)) = None →
  files (world s) !! filename (self s) = Some (MetadataFile d) →
  d_type d = Some (model_type (self s)) →
  read_fault faults (String.append (filename (self s)) ".model") = None →
  files (world s) !! String.append (filename (self s)) ".model"
    = Some (WeightsFile values) →
  NoDup (d_param_keys d) →
  d_param_keys d ≠ [] →
  length values = length (d_param_keys d) →
  write_fault faults (filename (self s)) = None →
  write_fault faults (String.append (filename (self s)) ".model") = None →
  ∃ s1 s2, load faults init_model s = (Return tt, s1) ∧
           save faults init_model s1 = (Return tt, s2) ∧
           files (world s2) = files (world s).
Proof.
  intros Hr Hfile Hty Hrm Hweights Hnd Hkeys Hlen Hw Hwm.
  destruct (load_run s d values Hr Hfile Hty Hrm Hweights) as (sa & Hinit & Hload).
  pose proof (init_frame _ init_spec _ _ _ Hinit)
    as (Hfn & Hmt & Hlb & Hfz & Hip & Hly & Hld & _).
  unfold assigned in Hfn, Hmt, Hlb, Hfz, Hip, Hly, Hld.
  cbn [self filename model_type labels is_frozen _input_params _layers
       _layer_dim set_labels set_is_frozen set__input_params set__layers
       set__layer_dim] in Hfn, Hmt, Hlb, Hfz, Hip, Hly, Hld.
  rewrite of_pairs_zip in Hload by done.
  assert (Hzip : py_zip (d_param_keys d) values ≠ []).
  { destruct (d_param_keys d), values; simpl in *; done. }
  match type of Hload with _ = (_, ?x) => set (s1 := x) in * end.
  destruct (save_run s1) as (sb & _ & Hsave);
    [subst s1; cbn [self _params set__params filename]; by rewrite ?Hfn..|].
  exists s1. eexists. split; [exact Hload|].
  rewrite Hsave. split; [reflexivity|]. subst s1.
  cbn [self world files _params set__params filename].
  assert (Hmeta : metadata_of
                    (set__params (py_zip (d_param_keys d) values) (self sa)) = d).
  { unfold metadata_of.
    cbn [model_type labels is_frozen _input_params _layers _layer_dim _params
         set__params].
    unfold OrderedDict.keys.
    rewrite Hmt, Hlb, Hfz, Hip, Hly, Hld, <- Hty, py_zip_fst.
    rewrite take_ge by lia. by destruct d. }
  rewrite Hmeta, Hfn. unfold OrderedDict.values.
  rewrite py_zip_snd, take_ge by lia.
  rewrite (insert_id (files (world s)) (filename (self s))) by done.
  by rewrite insert_id.
Qed.

End more_persistence_props.

(** ** Further properties of the text utilities *)

Lemma StronglySorted_sublist {A} (R : relation A) (l1 l2 : list A) :
  l1 `sublist_of` l2 → StronglySorted R l2 → StronglySorted R l1.
Proof.
  induction 1 as [|x l1 l2 Hsub IH|x l1 l2 Hsub IH]; intros Hs.
  - constructor.
  - apply StronglySorted_inv in Hs as [Hs Hall]. constructor; [by apply IH|].
    rewrite Forall_forall in Hall |- *. intros y Hy. apply Hall.
    by eapply elem_of_sublist.
  - apply StronglySorted_inv in Hs as [Hs _]. by apply IH.
Qed.

Lemma StronglySorted_le_lt (l : list Z) :
  StronglySorted Z.le l → NoDup l → StronglySorted Z.lt l.
Proof.
  induction 1 as [|x l Hs IH Hall]; intros Hnd; [constructor|].
  apply NoDup_cons in Hnd as [Hx Hnd]. constructor; [by apply IH|].
  rewrite Forall_forall in Hall |- *. intros y Hy.
  pose proof (Hall y Hy). assert (x ≠ y) by (by intros ->). lia.
Qed.

Lemma elem_of_py_sorted_set (x : Z) (l : list Z) :
  x ∈ py_sorted_set l ↔ x ∈ l.
Proof.
  unfold py_sorted_set. by rewrite merge_sort_Permutation, elem_of_remove_dups.
Qed.

Lemma py_sorted_set_sorted (l : list Z) : StronglySorted Z.lt (py_sorted_set l).
Proof.
  apply StronglySorted_le_lt.
  - apply StronglySorted_merge_sort; [apply _|]. intros x y. lia.
  - unfold py_sorted_set. rewrite merge_sort_Permutation.
    apply NoDup_remove_dups.
Qed.

Lemma py_slice_init {A} (l : list A) (x : A) :
  py_slice (l ++ [x]) None (Some (-1)) = l.
Proof.
  unfold py_slice. cbv zeta. rewrite length_app. cbn [length].
  change (-1 <? 0) with true. cbv iota.
  replace (Z.to_nat (Z.max (-1 + Z.of_nat (length l + 1)) 0 - 0))
    with (length l) by lia.
  change (Z.to_nat 0) with 0%nat. rewrite drop_0. apply take_app_length.
Qed.

Lemma py_slice_tail {A} (x : A) (l : list A) :
  py_slice (x :: l) (Some 1) None = l.
Proof.
  unfold py_slice. cbv zeta. cbn [length].
  change (1 <? 0) with false. cbv iota.
  replace (Z.to_nat (Z.min 1 (Z.of_nat (S (length l))))) with 1%nat by lia.
  replace (Z.to_nat (Z.of_nat (S (length l)) - Z.min 1 (Z.of_nat (S (length l)))))
    with (length l) by lia.
  cbn [drop]. rewrite drop_0. apply firstn_all.
Qed.

Lemma py_zip_filter_sublist {A B} (P : A * B → bool) (a : list A) (b : list B) :
  map fst (List.filter P (py_zip a b)) `sublist_of` a.
Proof.
  revert b. induction a as [|x a IH]; intros [|y b]; simpl;
    try apply sublist_nil_l.
  destruct (P (x, y)); simpl; [apply sublist_skip|apply sublist_cons]; apply IH.
Qed.

Lemma py_zip_lookup {A B} (a : list A) (b : list B) (x : A) (y : B) :
  (x, y) ∈ py_zip a b → ∃ i, a !! i = Some x ∧ b !! i = Some y.
Proof.
  revert b. induction a as [|x0 a IH]; intros [|y0 b]; simpl;
    try (by intros ?%elem_of_nil).
  intros [[= -> ->]|Hin]%elem_of_cons; [by exists 0%nat|].
  destruct (IH _ Hin) as (i & ? & ?). by exists (S i).
Qed.

Lemma StronglySorted_lookup_lt (l : list Z) (i j : nat) (x y : Z) :
  StronglySorted Z.lt l → (i < j)%nat →
  l !! i = Some x → l !! j = Some y → x < y.
Proof.
  intros Hs. revert i j. induction Hs as [|z l Hs IH Hall]; intros i j Hij Hi Hj.
  - by rewrite lookup_nil in Hi.
  - destruct j as [|j]; [lia|]. destruct i as [|i]; simpl in *.
    + injection Hi as ->. rewrite Forall_forall in Hall. apply Hall.
      by eapply list_elem_of_lookup_2.
    + apply (IH i j); [lia|done|done].
Qed.

Lemma StronglySorted_snoc_lt (l : list Z) (x : Z) :
  StronglySorted Z.lt (l ++ [x]) → ∀ y, y ∈ l → y < x.
Proof.
  intros Hs y Hy. apply list_elem_of_lookup in Hy as [i Hi].
  apply (StronglySorted_lookup_lt (l ++ [x]) i (length l) y x Hs).
  - by eapply lookup_lt_Some.
  - by rewrite lookup_app_l by (by eapply lookup_lt_Some).
  - by rewrite list_lookup_middle.
Qed.

Lemma forallb_false_elem {A} (f : A → bool) (l : list A) :
  forallb f l = false → ∃ x, x ∈ l ∧ f x = false.
Proof.
  induction l as [|x l IH]; simpl; [done|].
  destruct (f x) eqn:Hx; simpl.
  - intros (y & ? & ?)%IH. exists y. split; [by right|done].
  - intros _. exists x. split; [left|done].
Qed.

Section sentences_props.
Import textutil.

Variable Spacy : Type.
Variable spacy_load : string -> Spacy -> Res Language * Spacy.
Variable spacy_download : string -> Spacy -> Res unit * Spacy.
Variable is_punct : Terminal -> bool.
Variable sents_ends : Language -> list string -> Res (list Z).

Local Abbreviation NlpState := (NlpState Spacy).
Local Abbreviation get_nlp := (get_nlp Spacy spacy_load spacy_download).
Local Abbreviation break2sentences :=
  (break2sentences Spacy spacy_load spacy_download is_punct sents_ends).
Local Abbreviation sentence_marks :=
  (sentence_marks Spacy spacy_load spacy_download sents_ends).

Lemma break2paragraphs_snoc (ts : list Terminal) (t : Terminal) :
  break2paragraphs {| layer0_all := ts ++ [t] |}
  = Return (map (fun t => position t - 1)
                (filter (fun t => position t ≠ 1 ∧ para_pos t = 1) (ts ++ [t]))
            ++ [position t]).
Proof.
  unfold break2paragraphs, extract_terminals. cbn [layer0_all].
  by rewrite py_getitem_last.
Qed.

(** An exception of the first step leaves [break2sentences]. *)
Lemma break2sentences_raise (p : Passage) (l1 : Layer1) (s s' : NlpState)
    (e : Exn) :
  sentence_marks p l1 s = (Raise e, s') →
  break2sentences p l1 s = (Raise e, s').
Proof.
  unfold textutil.sentence_marks, textutil.break2sentences.
  intros Hmarks. unfold PyMonad.bind at 1.
  destruct (existsb _ _); by rewrite Hmarks.
Qed.

(** [break2sentences] after its first step. *)
Lemma break2sentences_run (p : Passage) (l1 : Layer1) (s s' : NlpState)
    (cands : list Z) :
  sentence_marks p l1 s = (Return cands, s') →
  break2sentences p l1 s =
    match break2paragraphs p with
    | Raise e => (Raise e, s')
    | Return ends =>
        let marks := py_sorted_set (cands ++ ends) in
        if 1 <? Z.of_nat (length marks)
        then
          match py_getitem marks (-1) with
          | Return last_mark =>
              (Return
                 (map fst
                    (List.filter
                       (fun xy =>
                          negb (forallb is_punct
                                  (py_slice (layer0_all p) (Some xy.1) (Some xy.2))))
                       (py_zip (py_slice marks None (Some (-1)))
                               (py_slice marks (Some 1) None)))
                  ++ [last_mark]), s')
          | Raise e => (Raise e, s')
          end
        else (Return marks, s')
    end.
Proof.
  unfold textutil.sentence_marks, textutil.break2sentences, extract_terminals.
  intros Hmarks. unfold PyMonad.bind at 1.
  destruct (existsb _ _); rewrite Hmarks;
    unfold PyMonad.bind at 1, PyMonad.lift;
    (destruct (break2paragraphs p) as [ends|e]; [|done]);
    cbv zeta; (destruct (1 <? _); [|done]);
    unfold PyMonad.bind, PyMonad.lift, PyMonad.ret;
    by destruct (py_getitem _ _).
Qed.

(** On a labeled passage the first step gives marks of the annotation,
    each the position of a terminal that is a sentence end mark, and the
    language model is not consulted. *)
Lemma sentence_marks_labeled (p : Passage) (l1 : Layer1) (s : NlpState) :
  existsb (fun n => negb (bool_decide (outgoing n = []))) (l1_all l1) = true →
  ∃ cands, sentence_marks p l1 s = (Return cands, s) ∧
    ∀ x, x ∈ cands →
      ∃ t, t ∈ layer0_all p ∧ position t = x ∧ text t ∈ SENTENCE_END_MARKS.
Proof.
  intros Hlabeled. unfold textutil.sentence_marks, extract_terminals.
  rewrite Hlabeled. eexists. split; [reflexivity|].
  intros x Hx. apply list_elem_of_filter in Hx as [_ Hx].
  apply list_elem_of_fmap in Hx as (t & -> & Ht).
  apply list_elem_of_filter in Ht as [Hmark Ht]. by exists t.
Qed.

(** What [break2sentences] returns on a passage with terminals: the
    candidate marks, sorted and without repetition, are [init ++ [final]];
    the result keeps [final] and a part [kept] of [init], each kept mark
    with the next candidate after it and a terminal in between that is not
    punctuation. *)
Lemma break2sentences_shape (ts : list Terminal) (t : Terminal) (l1 : Layer1)
    (s s' : NlpState) (cands ends : list Z) :
  sentence_marks {| layer0_all := ts ++ [t] |} l1 s = (Return cands, s') →
  break2paragraphs {| layer0_all := ts ++ [t] |} = Return ends →
  ∃ init final kept,
    py_sorted_set (cands ++ ends) = init ++ [final] ∧
    break2sentences {| layer0_all := ts ++ [t] |} l1 s
      = (Return (kept ++ [final]), s') ∧
    kept `sublist_of` init ∧
    ∀ x, x ∈ kept →
      ∃ i y, init !! i = Some x ∧ (init ++ [final]) !! S i = Some y ∧
             forallb is_punct (py_slice (ts ++ [t]) (Some x) (Some y)) = false.
Proof.
  intros Hcands Hends.
  rewrite (break2sentences_run _ _ _ _ _ Hcands), Hends. cbv zeta.
  cbn [layer0_all].
  set (marks := py_sorted_set _).
  assert (Hne : marks ≠ []).
  { intros Hnil. rewrite break2paragraphs_snoc in Hends.
    injection Hends as <-.
    assert (Hin : position t ∈ marks).
    { apply elem_of_py_sorted_set. rewrite !elem_of_app.
      right. right. left. }
    rewrite Hnil in Hin. by apply elem_of_nil in Hin. }
  destruct (exists_last Hne) as (init & final & Hmarks).
  exists init, final. rewrite Hmarks.
  destruct (1 <? Z.of_nat (length (init ++ [final]))) eqn:Hlen.
  - rewrite py_getitem_last, py_slice_init.
    eexists. split_and!; [done|reflexivity|apply py_zip_filter_sublist|].
    intros x Hx. apply list_elem_of_fmap in Hx as ([x' y] & -> & Hxy).
    apply list_elem_of_In, filter_In in Hxy as [Hzip Hp].
    apply list_elem_of_In, py_zip_lookup in Hzip as (i & Hi & Hj).
    exists i, y. cbn [fst snd] in *. split_and!; [done| |].
    + destruct init as [|x0 init]; [by rewrite lookup_nil in Hi|].
      change ((x0 :: init) ++ [final]) with (x0 :: (init ++ [final])) in Hj.
      by rewrite py_slice_tail in Hj.
    + by apply negb_true_iff in Hp.
  - exists []. destruct init as [|x0 init].
    + split_and!; [done|done|constructor|]. by intros x ?%elem_of_nil.
    + apply Z.ltb_ge in Hlen. rewrite length_app in Hlen. simpl in Hlen. lia.
Qed.

(** X14. [break2sentences] takes its candidate marks first: those of
    the annotation on a labeled passage, where the language model is not
    consulted, and those of the sentence splitter otherwise.  When the
    language model cannot be obtained for a passage that is not labeled,
    the exception of [get_nlp] leaves [break2sentences], whether the
    passage has terminals or not; so does any exception of the first
    step.  When the first step gives candidates, a passage without
    terminals raises [IndexError], and on a passage with terminals the
    result is not empty and strictly increasing, each of its marks is a
    candidate or a paragraph end, and its last mark is the greatest of
    these. *)
Theorem break2sentences_result (p : Passage) (l1 : Layer1) (s : NlpState) :
  (existsb (fun n => negb (bool_decide (outgoing n = []))) (l1_all l1) = true →
   ∃ cands, sentence_marks p l1 s = (Return cands, s)) ∧
  (existsb (fun n => negb (bool_decide (outgoing n = []))) (l1_all l1) = false →
   ∀ e s', get_nlp s = (Raise e, s') →
           break2sentences p l1 s = (Raise e, s')) ∧
  (∀ e s', sentence_marks p l1 s = (Raise e, s') →
           break2sentences p l1 s = (Raise e, s')) ∧
  (∀ cands s', sentence_marks p l1 s = (Return cands, s') →
     (layer0_all p = [] →
      break2sentences p l1 s
      = (Raise (IndexError "list index out of range"), s')) ∧
     (layer0_all p ≠ [] →
      ∃ marks ends final,
        break2sentences p l1 s = (Return marks, s') ∧
        break2paragraphs p = Return ends ∧
        StronglySorted Z.lt marks ∧
        (∀ x, x ∈ marks → x ∈ cands ∨ x ∈ ends) ∧
        last marks = Some final ∧
        (∀ c, c ∈ cands ∨ c ∈ ends → c <= final))).
Proof.
  split_and!.
  - intros Hlabeled.
    destruct (sentence_marks_labeled p l1 s Hlabeled) as (cands & Hcands & _).
    by exists cands.
  - intros Hunlabeled e s' Hnlp. apply break2sentences_raise.
    unfold textutil.sentence_marks. rewrite Hunlabeled.
    unfold nlp, PyMonad.bind. by rewrite Hnlp.
  - intros e s'. apply break2sentences_raise.
  - intros cands s' Hcands. split.
    + intros Hempty. rewrite (break2sentences_run _ _ _ _ _ Hcands).
      unfold break2paragraphs, extract_terminals. by rewrite Hempty.
    + destruct p as [ts0]. cbn [layer0_all]. intros Hne.
      destruct (exists_last Hne) as (ts & t & ->).
      pose proof (break2paragraphs_snoc ts t) as Hends.
      destruct (break2sentences_shape ts t l1 s s' cands _ Hcands Hends)
        as (init & final & kept & Hmarks & Hres & Hsub & _).
      pose proof (py_sorted_set_sorted
        (cands ++
         (map (fun t => position t - 1)
              (filter (fun t => position t ≠ 1 ∧ para_pos t = 1) (ts ++ [t]))
          ++ [position t]))) as Hsorted.
      rewrite Hmarks in Hsorted.
      eexists _, _, final. split_and!; [exact Hres|exact Hends| | | |].
      * eapply StronglySorted_sublist; [|exact Hsorted].
        by apply sublist_app.
      * intros x Hx.
        assert (Hin : x ∈ init ++ [final]).
        { apply elem_of_app in Hx as [Hx|Hx]; apply elem_of_app; [left|by right].
          by eapply elem_of_sublist. }
        rewrite <- Hmarks in Hin. rewrite elem_of_py_sorted_set in Hin.
        by apply elem_of_app in Hin.
      * apply last_snoc.
      * intros c Hc.
        assert (Hin : c ∈ init ++ [final]).
        { rewrite <- Hmarks. apply elem_of_py_sorted_set. by apply elem_of_app. }
        apply elem_of_app in Hin as [Hin|Hin].
        -- pose proof (StronglySorted_snoc_lt init final Hsorted c Hin). lia.
        -- apply list_elem_of_singleton in Hin. lia.
Qed.

(** X15. On a labeled passage whose last terminal has the greatest
    position, [break2sentences] returns, without consulting the language
    model, and the last mark that it returns is the position of that
    terminal. *)
Theorem break2sentences_ends_at_last_terminal (ts : list Terminal)
    (t : Terminal) (l1 : Layer1) (s : NlpState) :
  existsb (fun n => negb (bool_decide (outgoing n = []))) (l1_all l1) = true →
  (∀ t', t' ∈ ts → position t' <= position t) →
  ∃ marks,
    break2sentences {| layer0_all := ts ++ [t] |} l1 s = (Return marks, s) ∧
    last marks = Some (position t).
Proof.
  intros Hlabeled Hmax.
  pose proof (break2paragraphs_snoc ts t) as Hends.
  destruct (sentence_marks_labeled {| layer0_all := ts ++ [t] |} l1 s Hlabeled)
    as (cands & Hcands & Hmarked).
  destruct (break2sentences_shape ts t l1 s s cands _ Hcands Hends)
    as (init & final & kept & Hmarks & Hres & _ & _).
  eexists. split; [exact Hres|]. rewrite last_snoc. f_equal.
  pose proof (py_sorted_set_sorted
    (cands ++
     (map (fun t => position t - 1)
          (filter (fun t => position t ≠ 1 ∧ para_pos t = 1) (ts ++ [t]))
      ++ [position t]))) as Hsorted.
  rewrite Hmarks in Hsorted.
  assert (Hpos : ∀ t', t' ∈ ts ++ [t] → position t' <= position t).
  { intros t' [Hin|Hin]%elem_of_app; [by apply Hmax|].
    apply list_elem_of_singleton in Hin as ->. lia. }
  assert (Hfinal : final <= position t).
  { assert (Hin : final ∈ init ++ [final]) by (apply elem_of_app; right; left).
    rewrite <- Hmarks in Hin. rewrite elem_of_py_sorted_set in Hin.
    rewrite !elem_of_app in Hin. destruct Hin as [Hin|[Hin|Hin]].
    - destruct (Hmarked _ Hin) as (t' & Hin' & <- & _). by apply Hpos.
    - apply list_elem_of_fmap in Hin as (t' & -> & Hin).
      apply list_elem_of_filter in Hin as [_ Hin].
      pose proof (Hpos t' Hin). lia.
    - apply list_elem_of_singleton in Hin as ->. lia. }
  assert (Hin : position t ∈ init ++ [final]).
  { rewrite <- Hmarks. apply elem_of_py_sorted_set.
    rewrite !elem_of_app. right. right. left. }
  apply elem_of_app in Hin as [Hin|Hin%list_elem_of_singleton]; [|done].
  pose proof (StronglySorted_snoc_lt init final Hsorted _ Hin). lia.
Qed.

(** X16. Every mark that [break2sentences] returns before the last one
    is followed by a candidate mark such that the terminals sliced from
    the one to the other are not all punctuation. *)
Theorem break2sentences_kept_not_punct (p : Passage) (l1 : Layer1)
    (s s' : NlpState) (marks : list Z) (x : Z) :
  break2sentences p l1 s = (Return marks, s') →
  x ∈ marks →
  last marks ≠ Some x →
  ∃ cands y ends t,
    sentence_marks p l1 s = (Return cands, s') ∧
    break2paragraphs p = Return ends ∧
    (y ∈ cands ∨ y ∈ ends) ∧
    x < y ∧
    t ∈ py_slice (layer0_all p) (Some x) (Some y) ∧
    is_punct t = false.
Proof.
  destruct p as [ts0]. intros Hres Hx Hlast.
  destruct (sentence_marks {| layer0_all := ts0 |} l1 s) as [[cands|e] s1]
    eqn:Hcands.
  2: { by rewrite (break2sentences_raise _ _ _ _ _ Hcands) in Hres. }
  destruct (decide (ts0 = [])) as [->|Hne].
  { by rewrite (break2sentences_run _ _ _ _ _ Hcands) in Hres. }
  destruct (exists_last Hne) as (ts & t & ->).
  pose proof (break2paragraphs_snoc ts t) as Hends.
  destruct (break2sentences_shape ts t l1 s s1 cands _ Hcands Hends)
    as (init & final & kept & Hmarks & Hres' & Hsub & Hkept).
  rewrite Hres' in Hres. injection Hres as <- <-.
  rewrite last_snoc in Hlast.
  apply elem_of_app in Hx as [Hx|Hx];
    [|by apply list_elem_of_singleton in Hx as ->].
  destruct (Hkept x Hx) as (i & y & Hi & Hj & Hp).
  pose proof (py_sorted_set_sorted
    (cands ++
     (map (fun t => position t - 1)
          (filter (fun t => position t ≠ 1 ∧ para_pos t = 1) (ts ++ [t]))
      ++ [position t]))) as Hsorted.
  rewrite Hmarks in Hsorted.
  apply forallb_false_elem in Hp as (t' & Ht' & Hpt').
  eexists cands, y, _, t'. split_and!; [done|exact Hends| | |done|done].
  - apply list_elem_of_lookup_2 in Hj. rewrite <- Hmarks in Hj.
    rewrite elem_of_py_sorted_set in Hj. by apply elem_of_app in Hj.
  - apply (StronglySorted_lookup_lt (init ++ [final]) i (S i) x y Hsorted);
      [lia| |done].
    by rewrite lookup_app_l by (by eapply lookup_lt_Some).
Qed.

End sentences_props.

Section paragraphs_props.
Import textutil.

Lemma paragraph_starts_sorted (P : Terminal → Prop) `{!∀ t, Decision (P t)}
    (l : list Terminal) :
  StronglySorted Z.lt (map position l) →
  StronglySorted Z.lt (map (fun t => position t - 1) (filter P l)).
Proof.
  induction l as [|t l IH]; intros Hs; [constructor|].
  cbn [map] in Hs. apply StronglySorted_inv in Hs as [Hs Hall].
  rewrite filter_cons. destruct (decide (P t)); [|by apply IH].
  cbn [map]. constructor; [by apply IH|].
  rewrite Forall_forall in Hall |- *. intros y Hy.
  apply list_elem_of_In, in_map_iff in Hy as (t' & <- & Hin).
  apply list_elem_of_In, list_elem_of_filter in Hin as [_ Hin].
  assert (position t < position t'); [|lia].
  apply Hall. apply list_elem_of_In, in_map. by apply list_elem_of_In.
Qed.

(** X17. When the terminals of a passage are listed by strictly
    increasing position, the paragraph ends that [break2paragraphs]
    returns are strictly increasing. *)
Theorem break2paragraphs_increasing (p : Passage) :
  layer0_all p ≠ [] →
  StronglySorted Z.lt (map position (layer0_all p)) →
  ∃ ends, break2paragraphs p = Return ends ∧ StronglySorted Z.lt ends.
Proof.
  destruct p as [ts0]. cbn [layer0_all]. intros Hne Hsorted.
  destruct (exists_last Hne) as (ts & t & ->).
  rewrite break2paragraphs_snoc. eexists. split; [reflexivity|].
  assert (Hle : ∀ t', t' ∈ ts ++ [t] → position t' <= position t).
  { intros t' [Hin|Hin]%elem_of_app.
    - rewrite map_app in Hsorted.
      pose proof (StronglySorted_app_1_elem_of Z.lt _ _
                    (position t') (position t) Hsorted) as Hlt.
      assert (position t' < position t); [|lia].
      apply Hlt; [by apply list_elem_of_fmap_2|left].
    - apply list_elem_of_singleton in Hin as ->. lia. }
  apply StronglySorted_app_2.
  - intros x1 x2 Hx1 Hx2. apply list_elem_of_singleton in Hx2 as ->.
    apply list_elem_of_fmap in Hx1 as (t' & -> & Hin).
    apply list_elem_of_filter in Hin as [_ Hin].
    pose proof (Hle t' Hin). lia.
  - by apply paragraph_starts_sorted.
  - repeat constructor.
Qed.

(** X18. On a passage whose first terminal has position 1 and opens a
    paragraph, and no other terminal has position 1, [break2paragraphs]
    returns one end for each terminal that opens a paragraph. *)
Theorem break2paragraphs_one_end_per_paragraph (t0 : Terminal)
    (rest : list Terminal) :
  position t0 = 1 →
  para_pos t0 = 1 →
  (∀ t, t ∈ rest → position t ≠ 1) →
  ∃ ends,
    break2paragraphs {| layer0_all := t0 :: rest |} = Return ends ∧
    length ends = length (filter (fun t => para_pos t = 1) (t0 :: rest)).
Proof.
  intros Hpos Hpara Hrest.
  assert (Hne : t0 :: rest ≠ []) by done.
  destruct (exists_last Hne) as (ts & t & Heq). rewrite Heq.
  rewrite break2paragraphs_snoc. eexists. split; [reflexivity|].
  rewrite <- Heq. rewrite length_app, length_map. cbn [length].
  rewrite filter_cons_False by (intros [? _]; done).
  rewrite (filter_cons_True (fun t => para_pos t = 1)) by done.
  cbn [length]. rewrite Nat.add_1_r. f_equal. f_equal.
  clear Heq Hne. induction rest as [|t' rest IH]; [done|].
  assert (Ht' : position t' ≠ 1) by (apply Hrest; left).
  assert (IH' : filter (fun t => position t ≠ 1 ∧ para_pos t = 1) rest
                = filter (fun t => para_pos t = 1) rest)
    by (apply IH; intros; apply Hrest; by right).
  rewrite !filter_cons, IH'.
  destruct (decide (para_pos t' = 1)).
  - by rewrite decide_True.
  - by rewrite decide_False by (intros [_ ?]; done).
Qed.

End paragraphs_props.

Section indent_xml_props.
Import textutil.

Local Arguments String.append : simpl nomatch.

Lemma str_app_assoc (a b c : string) : (a +:+ b) +:+ c = a +:+ (b +:+ c).
Proof. induction a as [|x a IH]; simpl; [done|]. by f_equal. Qed.

Lemma str_app_nil_r (a : string) : a +:+ "" = a.
Proof. induction a as [|x a IH]; simpl; [done|]. by f_equal. Qed.

Lemma str_app_cons (c : ascii) (a s : string) :
  String c a +:+ s = String c (a +:+ s).
Proof. reflexivity. Qed.

Lemma concat_empty_cons (t : string) (ts : list string) :
  String.concat "" (t :: ts) = t +:+ String.concat "" ts.
Proof. destruct ts; simpl; [by rewrite str_app_nil_r|done]. Qed.

Lemma concat_empty_app (l1 l2 : list string) :
  String.concat "" (l1 ++ l2) = String.concat "" l1 +:+ String.concat "" l2.
Proof.
  induction l1 as [|t l1 IH]; [done|].
  change ((t :: l1) ++ l2) with (t :: (l1 ++ l2)).
  by rewrite !concat_empty_cons, IH, str_app_assoc.
Qed.

(** [replace] passes over a character that does not start the pattern. *)
Lemma py_replace2_skip (a b c : ascii) (new s : string) :
  c ≠ a → py_replace2 a b new (String c s) = String c (py_replace2 a b new s).
Proof.
  intros Hne. destruct s as [|c' s]; [done|].
  cbn [py_replace2].
  replace (Ascii.eqb c a) with false; [done|].
  symmetry. by apply Ascii.eqb_neq.
Qed.

Lemma py_replace2_body (a b : ascii) (new body s : string) :
  Forall (fun c => c ≠ a) (String.list_ascii_of_string body) →
  py_replace2 a b new (body +:+ s) = body +:+ py_replace2 a b new s.
Proof.
  induction body as [|c body IH]; intros Hall; [done|].
  cbn [String.list_ascii_of_string] in Hall.
  apply Forall_cons in Hall as [Hc Hall].
  rewrite !str_app_cons, py_replace2_skip by done. by rewrite IH.
Qed.

Local Abbreviation plain :=
  (fun c : ascii => c ≠ "<"%char ∧ c ≠ ">"%char ∧ is_linebreak c = false).

(** Replacing [><] in a row of tags puts a line feed between every two
    tags. *)
Lemma py_replace2_tags (body : string) (rest : list string) :
  Forall plain (String.list_ascii_of_string body) →
  Forall is_tag rest →
  py_replace2 ">" "<" (String ">" (String LF (String "<" "")))
    (body +:+ ">" +:+ String.concat "" rest)
  = body +:+ ">" +:+
    match rest with
    | [] => ""
    | _ :: _ => String LF (String.concat (String LF "") rest)
    end.
Proof.
  intros Hbody Hrest. revert body Hbody.
  induction Hrest as [|t rest (b2 & -> & Hb2) Hrest IH]; intros body Hbody.
  - rewrite py_replace2_body
      by (eapply Forall_impl; [exact Hbody|by intros ? (? & ? & ?)]).
    done.
  - rewrite py_replace2_body
      by (eapply Forall_impl; [exact Hbody|by intros ? (? & ? & ?)]).
    f_equal. rewrite concat_empty_cons.
    change (">" +:+ String "<" (b2 +:+ ">") +:+ String.concat "" rest)
      with (String ">" (String "<" ((b2 +:+ ">") +:+ String.concat "" rest))).
    cbn [py_replace2 Ascii.eqb Bool.eqb andb].
    rewrite str_app_assoc, IH by done.
    destruct rest as [|t3 rest]; [reflexivity|].
    cbn [String.concat]. rewrite !str_app_cons, str_app_assoc. reflexivity.
Qed.

Lemma py_splitlines_from_plain (cur t s : string) :
  Forall (fun c => is_linebreak c = false) (String.list_ascii_of_string t) →
  py_splitlines_from cur (t +:+ s) = py_splitlines_from (cur +:+ t) s.
Proof.
  revert cur. induction t as [|c t IH]; intros cur Hall; simpl.
  - by rewrite str_app_nil_r.
  - apply Forall_cons in Hall as [Hc Hall].
    assert (Hcr : Ascii.eqb c CR = false).
    { apply Ascii.eqb_neq. intros ->. done. }
    rewrite Hcr, Hc, IH by done.
    by rewrite str_app_assoc.
Qed.

Lemma list_ascii_of_string_app (a b : string) :
  String.list_ascii_of_string (a +:+ b)
  = String.list_ascii_of_string a ++ String.list_ascii_of_string b.
Proof. induction a as [|c a IH]; simpl; [done|]. by rewrite IH. Qed.

Lemma is_tag_no_linebreak (t : string) :
  is_tag t →
  String.eqb t "" = false ∧
  Forall (fun c => is_linebreak c = false) (String.list_ascii_of_string t).
Proof.
  intros (body & -> & Hbody). split; [done|].
  cbn [String.list_ascii_of_string]. constructor; [done|].
  rewrite list_ascii_of_string_app. apply Forall_app. split.
  - eapply Forall_impl; [exact Hbody|]. by intros c (_ & _ & Hc).
  - by repeat constructor.
Qed.

Lemma concat_cons2 (sep t t2 : string) (ts : list string) :
  String.concat sep (t :: t2 :: ts)
  = t +:+ sep +:+ String.concat sep (t2 :: ts).
Proof. reflexivity. Qed.

Lemma py_splitlines_from_LF (cur s : string) :
  py_splitlines_from cur (String LF s) = cur :: py_splitlines_from "" s.
Proof. reflexivity. Qed.

(** Splitting a row of tags that are joined by line feeds gives the tags
    back. *)
Lemma py_splitlines_joined (ts : list string) :
  Forall is_tag ts →
  py_splitlines (String.concat (String LF "") ts) = ts.
Proof.
  unfold py_splitlines.
  induction 1 as [|t ts Ht Hts IH]; [done|].
  destruct (is_tag_no_linebreak t Ht) as [Hne Hplain].
  destruct ts as [|t2 ts].
  - cbn [String.concat]. rewrite <- (str_app_nil_r t) at 1.
    rewrite py_splitlines_from_plain by done.
    cbn [py_splitlines_from String.append]. by rewrite Hne.
  - rewrite concat_cons2, py_splitlines_from_plain by done.
    rewrite str_app_cons, py_splitlines_from_LF. cbn [String.append].
    by rewrite IH.
Qed.

Lemma well_tagged_tags (u : Units) : well_tagged u → Forall is_tag (tags u).
Proof.
  induction u as [|tag next IH|opening inside IHi closing next IHn]; simpl.
  - constructor.
  - intros (Ht & _ & _ & Hn). constructor; auto.
  - intros (Ho & _ & _ & Hc & _ & Hi & Hn).
    constructor; [done|]. apply Forall_app. split; [auto|].
    constructor; auto.
Qed.

Lemma py_replace2_document (ts : list string) :
  Forall is_tag ts →
  py_replace2 ">" "<" (String ">" (String LF (String "<" "")))
    (String.concat "" ts)
  = String.concat (String LF "") ts.
Proof.
  intros Hts. destruct Hts as [|t rest (body & -> & Hbody) Hrest]; [done|].
  rewrite concat_empty_cons, str_app_cons, py_replace2_skip by done.
  rewrite str_app_assoc, py_replace2_tags by done.
  destruct rest as [|t2 rest]; [reflexivity|].
  cbn [String.concat]. rewrite !str_app_cons, str_app_assoc. reflexivity.
Qed.

(** The loop of [indent_xml] over the tags of well-tagged units, started
    at a depth, writes their layout at that depth and ends at it. *)
Lemma indent_line_units (u : Units) (d : nat) (acc : string) :
  well_tagged u →
  fold_left indent_line (tags u) (Z.of_nat d, acc)
  = (Z.of_nat d, acc +:+ layout d u).
Proof.
  revert d acc.
  induction u as [|tag next IH|opening inside IHi closing next IHn];
    intros d acc Hu.
  - cbn. by rewrite str_app_nil_r.
  - destruct Hu as (_ & Hs & He & Hn).
    cbn [tags fold_left layout]. unfold indent_line at 2. cbn [fst snd].
    rewrite Hs, He. cbn [orb negb]. rewrite IH by done.
    unfold py_str_mul. rewrite Nat2Z.id. by rewrite !str_app_assoc.
  - destruct Hu as (_ & Hos & Hoe & _ & Hcs & Hi & Hn).
    cbn [tags fold_left layout]. rewrite fold_left_app.
    unfold indent_line at 3. cbn [fst snd].
    rewrite Hos, Hoe. cbn [orb negb].
    replace (Z.of_nat d + 1) with (Z.of_nat (S d)) by lia.
    rewrite IHi by done.
    cbn [fold_left]. unfold indent_line at 2. cbn [fst snd].
    rewrite Hcs, orb_true_r. cbn [negb].
    replace (Z.of_nat (S d) - 1) with (Z.of_nat d) by lia.
    rewrite IHn by done.
    unfold py_str_mul. rewrite Nat2Z.id. by rewrite !str_app_assoc.
Qed.

(** X19. On the documents its documentation names, units without text
    whose leaves are written [<tag />], [indent_xml] returns the layout
    with one tag on each line, two spaces for each level of nesting, and
    each closing tag under its opening tag. *)
Theorem indent_xml_layout (u : Units) :
  well_tagged u → indent_xml (document u) = layout 0 u.
Proof.
  intros Hu. unfold indent_xml, document.
  rewrite py_replace2_document by by apply well_tagged_tags.
  rewrite py_splitlines_joined by by apply well_tagged_tags.
  change (0, "") with (Z.of_nat 0, "").
  by rewrite (indent_line_units u 0 "" Hu).
Qed.

End indent_xml_props.

Section nlp_props.
Import textutil.

Variable Spacy : Type.
Variable spacy_load : string -> Spacy -> Res Language * Spacy.
Variable spacy_download : string -> Spacy -> Res unit * Spacy.

Local Abbreviation NlpState := (NlpState Spacy).
Local Abbreviation get_nlp := (get_nlp Spacy spacy_load spacy_download).
Local Abbreviation get_tokenizer :=
  (get_tokenizer Spacy spacy_load spacy_download).

(** The name of the model that [get_nlp] asks for. *)
Local Abbreviation model_name_of s :=
  (default "en_core_web_md" (environ Spacy s !! "SPACY_MODEL")).

(** The state after the model [l] was loaded with the library left as
    [sp]. *)
Local Abbreviation loaded s l sp :=
  ({| instance := Some {| lang_name := lang_name l;
                          lang_tokenizer := DocFromWords |};
      tokenizer := Some (lang_tokenizer l);
      environ := environ Spacy s;
      spacy := sp |} : NlpState).

Lemma get_nlp_cached (s : NlpState) (l : Language) :
  instance Spacy s = Some l → get_nlp s = (Return (Some l), s).
Proof.
  intros Hl. unfold textutil.get_nlp, PyMonad.bind, PyMonad.get, PyMonad.ret.
  rewrite Hl. cbv beta iota. by rewrite Hl.
Qed.

Lemma get_nlp_first_load (s : NlpState) (l : Language) (sp : Spacy) :
  instance Spacy s = None →
  spacy_load (model_name_of s) (spacy Spacy s) = (Return l, sp) →
  get_nlp s
  = (Return (Some {| lang_name := lang_name l; lang_tokenizer := DocFromWords |}),
     loaded s l sp).
Proof.
  intros Hnone Hload.
  unfold textutil.get_nlp, PyMonad.bind, PyMonad.get, PyMonad.ret,
    PyMonad.try_except, lift_spacy, set_instance, set_tokenizer, the_instance,
    PyMonad.modify.
  rewrite Hnone. cbn [spacy environ instance tokenizer]. by rewrite Hload.
Qed.

Lemma get_nlp_second_load (s : NlpState) (m : string) (l : Language)
    (sp1 sp2 sp3 : Spacy) :
  instance Spacy s = None →
  spacy_load (model_name_of s) (spacy Spacy s) = (Raise (OSError m), sp1) →
  spacy_download (model_name_of s) sp1 = (Return tt, sp2) →
  spacy_load (model_name_of s) sp2 = (Return l, sp3) →
  get_nlp s
  = (Return (Some {| lang_name := lang_name l; lang_tokenizer := DocFromWords |}),
     loaded s l sp3).
Proof.
  intros Hnone Hload Hdown Hload2.
  unfold textutil.get_nlp, PyMonad.bind, PyMonad.get, PyMonad.ret,
    PyMonad.try_except, lift_spacy, set_instance, set_tokenizer, the_instance,
    PyMonad.modify.
  rewrite Hnone. cbn [spacy environ instance tokenizer]. rewrite Hload.
  cbn [is_OSError spacy environ instance tokenizer]. rewrite Hdown.
  cbn [spacy environ instance tokenizer]. by rewrite Hload2.
Qed.

(** X20. The model is loaded at most once.  When [get_nlp] returns, it
    returns a model, which is then [nlp.instance]; a further call returns
    the same model and changes nothing, the library included: it neither
    loads nor downloads, and it leaves [nlp.tokenizer] alone. *)
Theorem get_nlp_once (s s' : NlpState) (r : option Language) :
  get_nlp s = (Return r, s') →
  ∃ l, r = Some l ∧ instance Spacy s' = Some l ∧
       get_nlp s' = (Return (Some l), s').
Proof.
  destruct (instance Spacy s) as [l|] eqn:Hinst.
  - rewrite (get_nlp_cached s l Hinst). intros [= <- <-].
    exists l. split_and!; [done|done|by apply get_nlp_cached].
  - destruct (spacy_load (model_name_of s) (spacy Spacy s))
      as [[l|e] sp1] eqn:Hload.
    + rewrite (get_nlp_first_load s l sp1 Hinst Hload). intros [= <- <-].
      eexists. split_and!; [done|done|by apply get_nlp_cached].
    + unfold textutil.get_nlp, PyMonad.bind, PyMonad.get, PyMonad.ret,
        PyMonad.try_except, lift_spacy, set_instance, set_tokenizer,
        the_instance, PyMonad.modify, PyMonad.raise.
      rewrite Hinst. cbn [spacy environ instance tokenizer]. rewrite Hload.
      destruct (is_OSError e); [|by intros [=]].
      cbn [spacy environ instance tokenizer].
      destruct (spacy_download _ sp1) as [[[]|e2] sp2]; [|by intros [=]].
      cbn [spacy environ instance tokenizer].
      destruct (spacy_load _ sp2) as [[l|e3] sp3].
      * intros [= <- <-].
        eexists. split_and!; [done|done|by apply get_nlp_cached].
      * cbn [spacy environ instance tokenizer].
        destruct (is_OSError e3); by intros [=].
Qed.

(** X21. When the model cannot be loaded, is downloaded, and still cannot
    be loaded, [get_nlp] raises [OSError] with the advice to download the
    model by hand; [nlp.instance] and [nlp.tokenizer] stay as they were,
    so the next call tries again. *)
Theorem get_nlp_gives_up (s : NlpState) (m1 m2 : string) (sp1 sp2 sp3 : Spacy) :
  instance Spacy s = None →
  spacy_load (model_name_of s) (spacy Spacy s) = (Raise (OSError m1), sp1) →
  spacy_download (model_name_of s) sp1 = (Return tt, sp2) →
  spacy_load (model_name_of s) sp2 = (Raise (OSError m2), sp3) →
  get_nlp s
  = (Raise (OSError
       (String.append
          "Failed to get spaCy model. Download it manually using `python -m spacy download "
          (String.append (model_name_of s) "`."))),
     {| instance := None; tokenizer := tokenizer Spacy s;
        environ := environ Spacy s; spacy := sp3 |}).
Proof.
  intros Hnone Hload Hdown Hload2.
  unfold textutil.get_nlp, PyMonad.bind, PyMonad.get, PyMonad.ret,
    PyMonad.try_except, lift_spacy, set_instance, set_tokenizer, the_instance,
    PyMonad.modify, PyMonad.raise.
  rewrite Hnone. cbn [spacy environ instance tokenizer]. rewrite Hload.
  cbn [is_OSError spacy environ instance tokenizer]. rewrite Hdown.
  cbn [spacy environ instance tokenizer]. rewrite Hload2.
  cbn [is_OSError spacy environ instance tokenizer]. by rewrite Hnone.
Qed.

(** X22. After the first load, [get_tokenizer] gives the tokenizer that
    the model came with when asked for text that is not tokenized, and
    the function that takes words when asked for tokenized text; the model
    that is kept has the latter as its tokenizer. *)
Theorem get_tokenizer_after_load (s : NlpState) (l : Language) (sp : Spacy)
    (tokenized : bool) :
  instance Spacy s = None →
  spacy_load (model_name_of s) (spacy Spacy s) = (Return l, sp) →
  get_tokenizer tokenized s
  = (Return (Some (if tokenized then DocFromWords else lang_tokenizer l)),
     loaded s l sp) ∧
  get_tokenizer tokenized (loaded s l sp)
  = (Return (Some (if tokenized then DocFromWords else lang_tokenizer l)),
     loaded s l sp).
Proof.
  intros Hnone Hload.
  unfold textutil.get_tokenizer, PyMonad.bind.
  rewrite (get_nlp_first_load s l sp Hnone Hload).
  rewrite (get_nlp_cached (loaded s l sp) _ eq_refl).
  by destruct tokenized.
Qed.

End nlp_props.

Section annotate_props.
Import textutil.

Variable parse : list string -> list Lex.

Lemma groupby_concat {A} (key : A → Z) (l : list A) :
  concat (map snd (groupby key l)) = l.
Proof.
  induction l as [|x l IH]; [done|]. cbn [groupby].
  destruct (groupby key l) as [|[k g] rest]; cbn in *; [by rewrite <- IH|].
  destruct (key x =? k); cbn; by rewrite <- IH.
Qed.

Lemma insert_by_Permutation {A} (key : A → Z) (x : A) (l : list A) :
  insert_by key x l ≡ₚ x :: l.
Proof.
  induction l as [|y l IH]; cbn; [done|].
  destruct (key x <=? key y); [done|]. rewrite IH. apply Permutation_swap.
Qed.

Lemma py_sorted_by_Permutation {A} (key : A → Z) (l : list A) :
  py_sorted_by key l ≡ₚ l.
Proof.
  unfold py_sorted_by. induction l as [|x l IH]; cbn; [done|].
  by rewrite insert_by_Permutation, IH.
Qed.

Lemma elem_of_concat {A} (x : A) (ls : list (list A)) :
  x ∈ concat ls ↔ ∃ l, l ∈ ls ∧ x ∈ l.
Proof.
  induction ls as [|l ls IH]; cbn [concat].
  - split; [by intros ?%elem_of_nil|by intros (? & ?%elem_of_nil & _)].
  - rewrite elem_of_app, IH. split.
    + intros [Hx|(l' & Hl' & Hx)]; [exists l; split; [left|done]|].
      exists l'. split; [by right|done].
    + intros (l' & [->|Hl']%elem_of_cons & Hx); [by left|].
      right. by exists l'.
Qed.

Lemma sorted_groups_elem {A} (key : A → Z) (groups : list (Z * list A)) (x : A) :
  (∃ p, p ∈ map (fun g => py_sorted_by key g.2) groups ∧ x ∈ p)
  ↔ x ∈ concat (map snd groups).
Proof.
  rewrite elem_of_concat. split.
  - intros (p & Hp & Hin).
    apply list_elem_of_fmap in Hp as ([k g] & -> & Hg). cbn [snd] in Hin.
    rewrite py_sorted_by_Permutation in Hin.
    exists g. split; [|done].
    apply list_elem_of_fmap. by exists (k, g).
  - intros (g & Hg & Hin).
    apply list_elem_of_fmap in Hg as ([k g'] & -> & Hg).
    eexists. split.
    + apply list_elem_of_fmap. by exists (k, g').
    + cbn [snd]. by rewrite py_sorted_by_Permutation.
Qed.

(** The paragraphs hold every indexed terminal, and nothing else. *)
Lemma paragraphs_of_elem (ts : list AnnotatedTerminal) (i : nat)
    (t : AnnotatedTerminal) :
  (∃ p, p ∈ paragraphs_of ts ∧ (i, t) ∈ p) ↔ ts !! i = Some t.
Proof.
  unfold paragraphs_of.
  rewrite sorted_groups_elem, groupby_concat, elem_of_lookup_imap. split.
  - by intros (j & y & [= -> ->] & Hj).
  - intros Hi. by exists i, t.
Qed.

(** Without [replace], a passage whose terminals all have the seven
    entries needs no annotation. *)
Lemma nothing_lacks (ts : list AnnotatedTerminal) :
  (∀ t, t ∈ ts → lacks_annotation t = false) →
  existsb (fun p => existsb (fun it => lacks_annotation it.2) p)
          (paragraphs_of ts) = false.
Proof.
  intros Hall. apply not_true_iff_false. intros Hex.
  apply existsb_exists in Hex as (p & Hp & Hex).
  apply existsb_exists in Hex as ([i t] & Hit & Hlacks). cbn [snd] in Hlacks.
  assert (Hlookup : ts !! i = Some t).
  { apply paragraphs_of_elem. exists p.
    split; by apply list_elem_of_In. }
  apply list_elem_of_lookup_2 in Hlookup. by rewrite Hall in Hlacks.
Qed.


Lemma annotate_terminal_complete (lex : Lex) (t : AnnotatedTerminal) :
  lacks_annotation (annotate_terminal lex t) = false.
Proof.
  unfold lacks_annotation, annotate_terminal, ANNOTATION_KEYS, TAG_KEY,
    POS_KEY, NER_KEY, IOB_KEY, DEP_KEY, HEAD_KEY, LEMMA_KEY.
  cbn [existsb extra].
  rewrite !bool_decide_eq_true_2; [done|..];
    repeat first [rewrite lookup_insert_eq | rewrite lookup_insert_ne by done];
    by eexists.
Qed.

Local Abbreviation annotated_at ts i :=
  (∀ t : AnnotatedTerminal, ts !! i = Some t → lacks_annotation t = false).

Lemma alter_annotate (lex : Lex) (j : nat) (ts : list AnnotatedTerminal) :
  map terminal (alter (annotate_terminal lex) j ts) = map terminal ts ∧
  (∀ i, annotated_at ts i → annotated_at (alter (annotate_terminal lex) j ts) i) ∧
  annotated_at (alter (annotate_terminal lex) j ts) j.
Proof.
  split_and!.
  - apply list_eq. intros i. rewrite !list_lookup_fmap, list_lookup_alter.
    case_decide; [subst|done]. by destruct (ts !! i).
  - intros i Hi t. rewrite list_lookup_alter. case_decide; [subst|by apply Hi].
    destruct (ts !! i); intros [= <-]. apply annotate_terminal_complete.
  - intros t. rewrite list_lookup_alter_eq.
    destruct (ts !! j); intros [= <-]. apply annotate_terminal_complete.
Qed.

Lemma annotate_pairs (pairs : list ((nat * AnnotatedTerminal) * Lex))
    (ts : list AnnotatedTerminal) :
  map terminal
      (fold_left (fun ts il => alter (annotate_terminal il.2) il.1.1 ts) pairs ts)
    = map terminal ts ∧
  (∀ i, annotated_at ts i →
        annotated_at
          (fold_left (fun ts il => alter (annotate_terminal il.2) il.1.1 ts)
                     pairs ts) i) ∧
  (∀ il, il ∈ pairs →
         annotated_at
           (fold_left (fun ts il => alter (annotate_terminal il.2) il.1.1 ts)
                      pairs ts) il.1.1).
Proof.
  revert ts. induction pairs as [|[[j t0] lex] pairs IH]; intros ts.
  - split_and!; [done|done|]. by intros il ?%elem_of_nil.
  - cbn [fold_left fst snd].
    destruct (alter_annotate lex j ts) as (Hmap & Hmono & Hj).
    destruct (IH (alter (annotate_terminal lex) j ts)) as (Hmap' & Hmono' & Hall).
    split_and!.
    + by rewrite Hmap'.
    + intros i Hi. by apply Hmono', Hmono.
    + intros il [->|Hin]%elem_of_cons; [by apply Hmono'|by apply Hall].
Qed.

Lemma py_zip_covers {A B} (a : list A) (b : list B) (x : A) :
  (length a ≤ length b)%nat → x ∈ a → ∃ y, (x, y) ∈ py_zip a b.
Proof.
  revert b. induction a as [|x0 a IH]; intros [|y0 b] Hlen Hx; simpl in *;
    try (by apply elem_of_nil in Hx); try lia.
  apply elem_of_cons in Hx as [->|Hx]; [exists y0; left|].
  destruct (IH b ltac:(lia) Hx) as [y Hy]. exists y. by right.
Qed.

Section enough_tokens.
Hypothesis parse_enough : ∀ words, (length words ≤ length (parse words))%nat.

Lemma annotate_paragraph_props (p : list (nat * AnnotatedTerminal))
    (ts : list AnnotatedTerminal) :
  map terminal (annotate_paragraph parse p ts) = map terminal ts ∧
  (∀ i, annotated_at ts i → annotated_at (annotate_paragraph parse p ts) i) ∧
  (∀ it, it ∈ p → annotated_at (annotate_paragraph parse p ts) it.1).
Proof.
  unfold annotate_paragraph.
  destruct (annotate_pairs
              (py_zip p (parse (map (fun it => text (terminal it.2)) p))) ts)
    as (Hmap & Hmono & Hall).
  split_and!; [done|done|].
  intros it Hit.
  destruct (py_zip_covers p (parse (map (fun it => text (terminal it.2)) p)) it)
    as [lex Hlex]; [|done|].
  - etrans; [|apply parse_enough]. by rewrite length_map.
  - apply (Hall (it, lex) Hlex).
Qed.

Lemma annotate_paragraphs_props (ps : list (list (nat * AnnotatedTerminal)))
    (ts : list AnnotatedTerminal) :
  map terminal (fold_left (fun ts p => annotate_paragraph parse p ts) ps ts)
    = map terminal ts ∧
  (∀ i, annotated_at ts i →
        annotated_at
          (fold_left (fun ts p => annotate_paragraph parse p ts) ps ts) i) ∧
  (∀ p it, p ∈ ps → it ∈ p →
           annotated_at
             (fold_left (fun ts p => annotate_paragraph parse p ts) ps ts) it.1).
Proof.
  revert ts. induction ps as [|p ps IH]; intros ts.
  - split_and!; [done|done|]. by intros p it ?%elem_of_nil.
  - cbn [fold_left].
    destruct (annotate_paragraph_props p ts) as (Hmap & Hmono & Hp).
    destruct (IH (annotate_paragraph parse p ts)) as (Hmap' & Hmono' & Hall).
    split_and!.
    + by rewrite Hmap'.
    + intros i Hi. by apply Hmono', Hmono.
    + intros p' it [->|Hin]%elem_of_cons Hit;
        [by apply Hmono', Hp|by eapply Hall].
Qed.

(** The terminals after the first half of [annotate]. *)
Lemma annotation_step (replace : bool) (ts : list AnnotatedTerminal) :
  map terminal
      (if replace
          || existsb (fun p => existsb (fun it => lacks_annotation it.2) p)
                     (paragraphs_of ts)
       then fold_left (fun ts p => annotate_paragraph parse p ts)
                      (paragraphs_of ts) ts
       else ts)
    = map terminal ts ∧
  (∀ t, t ∈ (if replace
                || existsb (fun p => existsb (fun it => lacks_annotation it.2) p)
                           (paragraphs_of ts)
             then fold_left (fun ts p => annotate_paragraph parse p ts)
                            (paragraphs_of ts) ts
             else ts) →
        lacks_annotation t = false).
Proof.
  destruct (replace || existsb _ (paragraphs_of ts)) eqn:Hcond.
  - destruct (annotate_paragraphs_props (paragraphs_of ts) ts)
      as (Hmap & _ & Hall).
    split; [done|].
    intros t' [i Hi]%list_elem_of_lookup.
    assert (Hlt : (i < length ts)%nat).
    { apply lookup_lt_Some in Hi.
      apply (f_equal length) in Hmap. by rewrite !length_map in Hmap; lia. }
    destruct (lookup_lt_is_Some_2 _ _ Hlt) as [t0 Ht0].
    apply paragraphs_of_elem in Ht0 as (p & Hp & Hit).
    by apply (Hall p (i, t0) Hp Hit t').
  - apply orb_false_iff in Hcond as [_ Hnone]. split; [done|].
    intros t [i Hi]%list_elem_of_lookup.
    apply paragraphs_of_elem in Hi as (p & Hp & Hit).
    apply not_true_iff_false. intros Hlacks.
    apply not_true_iff_false in Hnone. apply Hnone.
    apply existsb_exists. exists p. split; [by apply list_elem_of_In|].
    apply existsb_exists. exists (i, t). split; [by apply list_elem_of_In|done].
Qed.

(** X24. When the language model gives a token for every word,
    [annotate] leaves every terminal with the seven entries, whether it
    had to consult the model or not; the terminals themselves and their
    order stay as they were; and a further call without [replace] changes
    nothing. *)
Theorem annotate_completes (replace : bool) (s : TextState) :
  ∃ s', annotate parse false replace s = (Return tt, s') ∧
        map terminal (l0_all s') = map terminal (l0_all s) ∧
        printed s' = printed s ∧
        (∀ t, t ∈ l0_all s' → lacks_annotation t = false) ∧
        annotate parse false false s' = (Return tt, s').
Proof.
  destruct (annotation_step replace (l0_all s)) as [Hmap Hdone].
  unfold annotate at 1, PyMonad.bind, PyMonad.get, PyMonad.ret, PyMonad.modify.
  destruct (replace || existsb _ (paragraphs_of (l0_all s))).
  - eexists. split; [reflexivity|]. cbn [l0_all printed].
    split_and!; [done|done|done|].
    unfold annotate, PyMonad.bind, PyMonad.get, PyMonad.ret.
    cbn [l0_all printed]. by rewrite nothing_lacks.
  - exists s. split_and!; [done|done|done|done|].
    unfold annotate, PyMonad.bind, PyMonad.get, PyMonad.ret.
    by rewrite nothing_lacks.
Qed.

Lemma extra_values_returns (t : AnnotatedTerminal) (keys : list string) :
  existsb (fun k => negb (bool_decide (is_Some (extra t !! k)))) keys = false →
  ∃ vs, extra_values t keys = Return vs.
Proof.
  induction keys as [|k keys IH]; cbn [existsb extra_values]; [by eexists|].
  intros [Hk Hrest]%orb_false_iff.
  apply negb_false_iff, bool_decide_eq_true in Hk as [v Hv].
  destruct (IH Hrest) as [vs Hvs]. rewrite Hv, Hvs. by eexists.
Qed.

Lemma table_rows_returns (ts : list AnnotatedTerminal) (p : list nat) :
  (∀ i, i ∈ p → ∃ t, ts !! i = Some t ∧ lacks_annotation t = false) →
  ∃ rows, table_rows ts p = Return rows.
Proof.
  induction p as [|i p IH]; intros Hp; cbn [table_rows]; [by eexists|].
  destruct (Hp i) as (t & Ht & Hlacks); [left|].
  destruct (extra_values_returns t ANNOTATION_KEYS Hlacks) as [vs Hvs].
  destruct IH as [rows Hrows]; [intros j Hj; apply Hp; by right|].
  rewrite Ht, Hvs, Hrows. by eexists.
Qed.

Lemma print_paragraphs_returns (ps : list (list (nat * AnnotatedTerminal)))
    (s : TextState) :
  (∀ p it, p ∈ ps → it ∈ p →
     ∃ t, l0_all s !! it.1 = Some t ∧ lacks_annotation t = false) →
  ∃ lines,
    print_paragraphs ps s
    = (Return tt, {| l0_all := l0_all s; printed := printed s ++ lines |}) ∧
    length lines = (9 * length ps)%nat.
Proof.
  revert s. induction ps as [|p ps IH]; intros s Hps.
  - exists []. destruct s. cbn. by rewrite app_nil_r.
  - cbn [print_paragraphs].
    destruct (table_rows_returns (l0_all s) (map fst p)) as [rows Hrows].
    { intros i (it & -> & Hit)%list_elem_of_fmap. apply (Hps p); [left|done]. }
    rewrite Hrows.
    destruct (IH {| l0_all := l0_all s;
                    printed := printed s ++ table_lines rows |})
      as (lines & Hprint & Hlen).
    { intros p' it Hp' Hit. apply (Hps p'); [by right|done]. }
    rewrite Hprint. cbn [l0_all printed].
    exists (table_lines rows ++ lines). split; [by rewrite app_assoc|].
    rewrite length_app, Hlen. unfold table_lines.
    rewrite length_app, length_map, length_seq. cbn. lia.
Qed.

(** X25. With [verbose], and a language model that gives a token for
    every word, [annotate] does not fail for a missing entry: it returns,
    the terminals are annotated as without [verbose], and nine lines are
    printed for each paragraph, the eight columns and an empty line. *)
Theorem annotate_verbose (replace : bool) (s : TextState) :
  ∃ s' lines,
    annotate parse true replace s = (Return tt, s') ∧
    l0_all s' = l0_all (annotate parse false replace s).2 ∧
    printed s' = printed s ++ lines ∧
    length lines = (9 * length (paragraphs_of (l0_all s)))%nat.
Proof.
  destruct (annotation_step replace (l0_all s)) as [Hmap Hdone].
  unfold annotate, PyMonad.bind, PyMonad.get, PyMonad.ret, PyMonad.modify.
  match goal with
  | |- context [if ?c then _ else _] =>
      set (cond := c) in *
  end.
  set (ts' := if cond
              then fold_left (fun ts p => annotate_paragraph parse p ts)
                             (paragraphs_of (l0_all s)) (l0_all s)
              else l0_all s) in *.
  destruct (print_paragraphs_returns (paragraphs_of (l0_all s))
              {| l0_all := ts'; printed := printed s |})
    as (lines & Hprint & Hlen).
  { intros p [i t0] Hp Hit. cbn [l0_all fst].
    assert (Ht0 : l0_all s !! i = Some t0)
      by (apply paragraphs_of_elem; by exists p).
    assert (Hlt : (i < length ts')%nat).
    { apply lookup_lt_Some in Ht0.
      apply (f_equal length) in Hmap. by rewrite !length_map in Hmap; lia. }
    destruct (lookup_lt_is_Some_2 _ _ Hlt) as [t' Ht'].
    exists t'. split; [done|]. apply Hdone. by eapply list_elem_of_lookup_2. }
  cbn [l0_all printed] in Hprint.
  exists {| l0_all := ts'; printed := printed s ++ lines |}, lines.
  subst ts'. destruct cond; cbn [l0_all printed snd].
  - rewrite Hprint. done.
  - destruct s as [ts0 out]. cbn [l0_all printed] in *. rewrite Hprint. done.
Qed.

End enough_tokens.

End annotate_props.

(** ** The further properties at the concrete objects *)

Section extras_at_sample.
Import neural_network sample.

Lemma init_raises_which_witness :
  __init__ base args_unknown_names = Raise (KeyError "swish") ∧
  ((KeyError "swish" = AssertionError "" ∧
    arg_input_params args_unknown_names = None ∧
    arg_model args_unknown_names = None) ∨
   (∃ name known rest,
      KeyError "swish" = KeyError name ∧
      looked_up_names args_unknown_names = known ++ (name, false) :: rest ∧
      Forall (fun p => p.2 = true) known)).
Proof.
  split; [reflexivity|].
  apply (init_raises_which base args_unknown_names (KeyError "swish")).
  reflexivity.
Defined.

Lemma input_dim_without_schema_witness :
  ∃ nn0 : @NeuralNetwork Z (list Z),
    __init__ base args_model_only = Return nn0 ∧
    input_dim nn0
      = Raise (AttributeError "'NoneType' object has no attribute 'values'") ∧
    __str__ nn0
      = Raise (AttributeError "'NoneType' object has no attribute 'values'").
Proof.
  eexists. split; [reflexivity|].
  eapply proj2, (input_dim_without_schema base args_model_only);
    reflexivity.
Defined.

Lemma input_dim_order_and_concat_witness :
  input_dim nn = input_dim (set__input_params (Some (reverse schema)) nn) ∧
  ∃ w1 w2,
    input_dim (set__input_params (Some (take 1 schema)) nn) = Return w1 ∧
    input_dim (set__input_params (Some (drop 1 schema)) nn) = Return w2 ∧
    input_dim nn = Return (w1 + w2).
Proof.
  split.
  - apply (input_dim_order_and_concat nn
             (set__input_params (Some (reverse schema)) nn) nn
             schema (reverse schema) schema); try reflexivity.
    symmetry. apply reverse_Permutation.
  - apply (input_dim_order_and_concat nn
             (set__input_params (Some (take 1 schema)) nn)
             (set__input_params (Some (drop 1 schema)) nn)
             schema (take 1 schema) (drop 1 schema)); reflexivity.
Defined.

Lemma resize_after_init_witness :
  resize {| self := nn; world := empty_world |}
  = (Return tt, {| self := nn; world := empty_world |}).
Proof.
  apply (resize_after_init base (args (Some stored_params)) nn empty_world).
  reflexivity.
Defined.

Lemma save_aborts_early_witness :
  save no_faults (lazy_init_model fresh) start_unmaterialized
  = (Raise (ValueError "not enough values to unpack (expected 2, got 0)"),
     start_unmaterialized).
Proof.
  apply (proj1 (save_aborts_early no_faults (lazy_init_model fresh)
                  start_unmaterialized)).
  reflexivity.
Defined.

Lemma load_aborts_early_witness :
  load no_faults (lazy_init_model fresh) start
  = (Raise (OSError "ucca.nn"), start).
Proof.
  apply (load_aborts_early no_faults (lazy_init_model fresh) start
           (OSError "ucca.nn")).
  reflexivity.
Defined.

Lemma save_without_model_witness :
  ∃ s', save no_faults (PyMonad.ret tt) start
        = (Raise (AttributeError "'NoneType' object has no attribute 'save'"),
           s') ∧
        self s' = nn ∧
        files (world s') = <["ucca.nn" := MetadataFile (metadata_of nn)]> ∅ ∧
        stdout (world s') = [SavingModelTo "ucca.nn.model"].
Proof.
  assert (Hne : _params (self start) ≠ []) by discriminate.
  exact (save_without_model no_faults (PyMonad.ret tt) start
           (set_files (<["ucca.nn" := MetadataFile (metadata_of nn)]> ∅) start)
           Hne eq_refl eq_refl eq_refl).
Defined.

Lemma base_init_model_leaves :
  LeavesPersisted (@NeuralNetwork_init_model Z (list Z)).
Proof. intros s r s' [= <- <-]. done. Defined.

Lemma save_frame_witness :
  ∃ r s', save no_faults NeuralNetwork_init_model start = (r, s') ∧
    filename (self s') = "ucca.nn" ∧
    model_type (self s') = "nn" ∧
    labels (self s') = ["shift"; "reduce"] ∧
    is_frozen (self s') = false ∧
    _input_params (self s') = Some schema ∧
    _layers (self s') = 1 ∧
    _layer_dim (self s') = 100 ∧
    files (world s') !! "ucca.nn" = Some (MetadataFile (metadata_of nn)) ∧
    ∀ path, path ≠ "ucca.nn" → path ≠ "ucca.nn.model" →
            files (world s') !! path = files (world start) !! path.
Proof.
  apply (save_frame no_faults NeuralNetwork_init_model start
           base_init_model_leaves).
  - discriminate.
  - reflexivity.
Defined.

Lemma save_twice_witness :
  ∃ s1 s2, save no_faults (lazy_init_model fresh) start = (Return tt, s1) ∧
           save no_faults (lazy_init_model fresh) s1 = (Return tt, s2) ∧
           files (world s2) = files (world s1).
Proof.
  apply (save_twice no_faults (lazy_init_model fresh)
           (lazy_init_model_spec fresh) start).
  - apply lazy_init_model_keeps.
  - discriminate.
  - reflexivity.
  - reflexivity.
Defined.

Lemma load_then_save_witness :
  ∃ s1 s2,
    load no_faults (lazy_init_model fresh)
      {| self := nn_unmaterialized; world := saved_world |} = (Return tt, s1) ∧
    save no_faults (lazy_init_model fresh) s1 = (Return tt, s2) ∧
    files (world s2) = files saved_world.
Proof.
  apply (load_then_save no_faults (lazy_init_model fresh)
           (lazy_init_model_spec fresh)
           {| self := nn_unmaterialized; world := saved_world |}
           (metadata_of nn) [[1; 2]; [3]; [4; 5]]).
  - reflexivity.
  - reflexivity.
  - reflexivity.
  - reflexivity.
  - reflexivity.
  - exact sample_wf.
  - discriminate.
  - reflexivity.
  - reflexivity.
  - reflexivity.
Defined.

Lemma load_store_wf_witness :
  ∃ s', load no_faults (lazy_init_model fresh)
          {| self := nn; world := corrupt_world |} = (Return tt, s') ∧
        OrderedDict.wf (_params (self s')) ∧
        (∀ k v, (k, v) ∈ _params (self s') →
                k ∈ ["W1"; "b1"; "Wout"] ∧ v ∈ [[1; 2]; [3]]) ∧
        (length (_params (self s')) ≤ 2)%nat.
Proof.
  apply (load_store_wf no_faults (lazy_init_model fresh)
           (lazy_init_model_spec fresh)
           {| self := nn; world := corrupt_world |} (metadata_of nn)
           [[1; 2]; [3]]); reflexivity.
Defined.

Lemma input_dim_after_load_witness :
  ∃ s', load no_faults (lazy_init_model fresh)
          {| self := set__input_params None nn; world := saved_world |}
        = (Return tt, s') ∧
        input_dim (self s') = Return 280.
Proof.
  apply (input_dim_after_load no_faults (lazy_init_model fresh)
           (lazy_init_model_spec fresh)
           {| self := set__input_params None nn; world := saved_world |}
           (metadata_of nn) [[1; 2]; [3]; [4; 5]]); reflexivity.
Defined.

End extras_at_sample.

Section extras_at_passage.
Import textutil sample.

Lemma break2sentences_result_witness :
  break2sentences _ spacy_load spacy_download is_punct sents_ends passage
    layer1_unlabeled (nlp_start [])
  = (Raise (OSError
       "Failed to get spaCy model. Download it manually using `python -m spacy download en_core_web_md`."),
     nlp_start []) ∧
  ∃ marks ends final,
    break2sentences _ spacy_load spacy_download is_punct sents_ends passage
      layer1_unlabeled (nlp_start ["en_core_web_md"])
    = (Return marks,
       (get_nlp _ spacy_load spacy_download (nlp_start ["en_core_web_md"])).2) ∧
    break2paragraphs passage = Return ends ∧
    StronglySorted Z.lt marks ∧
    (∀ x, x ∈ marks → x ∈ [2; 4] ∨ x ∈ ends) ∧
    last marks = Some final ∧
    (∀ c, c ∈ [2; 4] ∨ c ∈ ends → c <= final).
Proof.
  split.
  - destruct (break2sentences_result _ spacy_load spacy_download is_punct
                sents_ends passage layer1_unlabeled (nlp_start []))
      as (_ & Hfails & _).
    apply Hfails; reflexivity.
  - destruct (break2sentences_result _ spacy_load spacy_download is_punct
                sents_ends passage layer1_unlabeled
                (nlp_start ["en_core_web_md"]))
      as (_ & _ & _ & Hreturns).
    destruct (Hreturns [2; 4]
                (get_nlp _ spacy_load spacy_download
                   (nlp_start ["en_core_web_md"])).2 eq_refl)
      as [_ Hmarks].
    apply Hmarks. discriminate.
Defined.

Lemma break2sentences_ends_at_last_terminal_witness :
  ∃ marks,
    break2sentences _ spacy_load spacy_download is_punct sents_ends
      {| layer0_all := take 3 terminals ++ drop 3 terminals |} layer1
      (nlp_start [])
      = (Return marks, nlp_start []) ∧
    last marks = Some 4.
Proof.
  apply (break2sentences_ends_at_last_terminal _ spacy_load spacy_download
           is_punct sents_ends (take 3 terminals)
           {| position := 4; para_pos := 2; paragraph := 2; text := "." |}
           layer1 (nlp_start [])).
  - reflexivity.
  - apply Forall_forall. apply (bool_decide_unpack _). vm_compute. exact I.
Defined.

Lemma break2sentences_kept_not_punct_witness :
  ∃ cands y ends t,
    sentence_marks _ spacy_load spacy_download sents_ends passage layer1
      (nlp_start []) = (Return cands, nlp_start []) ∧
    break2paragraphs passage = Return ends ∧
    (y ∈ cands ∨ y ∈ ends) ∧
    2 < y ∧
    t ∈ py_slice (layer0_all passage) (Some 2) (Some y) ∧
    is_punct t = false.
Proof.
  apply (break2sentences_kept_not_punct _ spacy_load spacy_download is_punct
           sents_ends passage layer1 (nlp_start []) (nlp_start []) [2; 4] 2).
  - vm_compute. reflexivity.
  - left.
  - discriminate.
Defined.

Lemma break2paragraphs_increasing_witness :
  ∃ ends, break2paragraphs passage = Return ends ∧ StronglySorted Z.lt ends.
Proof.
  apply (break2paragraphs_increasing passage).
  - discriminate.
  - apply (bool_decide_unpack _). vm_compute. exact I.
Defined.

Lemma break2paragraphs_one_end_per_paragraph_witness :
  ∃ ends,
    break2paragraphs passage = Return ends ∧
    length ends = 2%nat.
Proof.
  apply (break2paragraphs_one_end_per_paragraph
           {| position := 1; para_pos := 1; paragraph := 1; text := "a" |}
           (drop 1 terminals)).
  - reflexivity.
  - reflexivity.
  - apply Forall_forall. apply (bool_decide_unpack _). vm_compute. exact I.
Defined.

Lemma sample_units_well_tagged : well_tagged units.
Proof.
  cbn [well_tagged units]. split_and!; try reflexivity; try exact I.
  - exists "a". split; [reflexivity|].
    repeat (constructor; [split_and!; [discriminate|discriminate|reflexivity]|]).
    constructor.
  - exists "/a". split; [reflexivity|].
    repeat (constructor; [split_and!; [discriminate|discriminate|reflexivity]|]).
    constructor.
  - exists "b /". split; [reflexivity|].
    repeat (constructor; [split_and!; [discriminate|discriminate|reflexivity]|]).
    constructor.
  - exists "c /". split; [reflexivity|].
    repeat (constructor; [split_and!; [discriminate|discriminate|reflexivity]|]).
    constructor.
Defined.

Lemma indent_xml_layout_witness :
  indent_xml "<a><b /></a><c />"
  = String.concat (String LF "") ["<a>"; "  <b />"; "</a>"; "<c />"; ""].
Proof. exact (indent_xml_layout units sample_units_well_tagged). Defined.

Lemma get_nlp_once_witness :
  ∃ l, Some {| lang_name := "en_core_web_md"; lang_tokenizer := DocFromWords |}
       = Some l ∧
       instance _ (get_nlp _ spacy_load spacy_download
                     (nlp_start ["en_core_web_md"])).2 = Some l ∧
       get_nlp _ spacy_load spacy_download
         (get_nlp _ spacy_load spacy_download (nlp_start ["en_core_web_md"])).2
       = (Return (Some l),
          (get_nlp _ spacy_load spacy_download (nlp_start ["en_core_web_md"])).2).
Proof.
  apply (get_nlp_once _ spacy_load spacy_download
           (nlp_start ["en_core_web_md"])).
  reflexivity.
Defined.

Lemma get_nlp_gives_up_witness :
  get_nlp _ spacy_load spacy_download (nlp_start [])
  = (Raise (OSError
       "Failed to get spaCy model. Download it manually using `python -m spacy download en_core_web_md`."),
     nlp_start []).
Proof.
  exact (get_nlp_gives_up _ spacy_load spacy_download (nlp_start [])
           "en_core_web_md" "en_core_web_md" [] [] []
           eq_refl eq_refl eq_refl eq_refl).
Defined.

Lemma get_tokenizer_after_load_witness :
  (get_tokenizer _ spacy_load spacy_download false
     (nlp_start ["en_core_web_md"])).1
  = Return (Some (ModelTokenizer "en_core_web_md")).
Proof.
  pose proof (get_tokenizer_after_load _ spacy_load spacy_download
                (nlp_start ["en_core_web_md"])
                {| lang_name := "en_core_web_md";
                   lang_tokenizer := ModelTokenizer "en_core_web_md" |}
                ["en_core_web_md"] false eq_refl eq_refl) as [H _].
  by rewrite H.
Defined.

End extras_at_passage.

Section extras_at_text_state.
Import textutil sample.

Lemma sample_parse_enough (words : list string) :
  (length words ≤ length (parse words))%nat.
Proof. unfold parse. by rewrite length_imap. Defined.


Lemma annotate_completes_witness :
  ∃ s', annotate parse false false text_state = (Return tt, s') ∧
        map terminal (l0_all s') = terminals ∧
        printed s' = [] ∧
        (∀ t, t ∈ l0_all s' → lacks_annotation t = false) ∧
        annotate parse false false s' = (Return tt, s').
Proof.
  exact (annotate_completes parse sample_parse_enough false text_state).
Defined.

Lemma annotate_verbose_witness :
  ∃ s' lines,
    annotate parse true false text_state = (Return tt, s') ∧
    l0_all s' = l0_all (annotate parse false false text_state).2 ∧
    printed s' = lines ∧
    length lines = 18%nat.
Proof.
  exact (annotate_verbose parse sample_parse_enough false text_state).
Defined.

End extras_at_text_state.
